(** * PR review agent: the diff parser and the review orchestrator

    A shallow embedding of [app/services/diff_parser.py],
    [app/orchestrator/review_orchestrator.py] and
    [app/agents/base_agent.py], followed by the properties of the design
    document that concern them.

    Conventions of the embedding.
    - A Python [str] is a list of characters; a character is an [ascii],
      read as a code point below 256.  On that range [\d] is the ten
      decimal digits and [str.isspace] is the set listed in [isspace].
    - A Python [int] is a [Z].  [int(text)] is the decimal value of a run
      of digits, and raises [ValueError] on a run longer than
      [sys.get_int_max_str_digits()], taken at its default of 4300.
      Memory is not part of the model.
    - A call that can raise returns a [result]; the exceptions considered
      are those derived from [Exception], and the class of an exception
      is not told apart from its message.
    - A value an analyzer reports under a key of a finding is any value
      [json.loads] can give ([PyVal]); looking up a list or a dictionary
      as a key raises [TypeError].  A finding itself is a dictionary
      with text keys and the findings of a result are a list, as
      [BaseReviewAgent.run] builds them.
    - A [dict] with a fixed set of keys is a record; a [dict] whose keys
      are read with a default is an association list ([dict]).
    - The order in which concurrent analyzer calls complete is a parameter
      of [review_diff] ([as_completed]).
    - Wall-clock fields ([execution_time_seconds]) are left out. *)

From Stdlib Require Import String Ascii List ZArith Lia Bool Arith.
From Stdlib Require Import Permutation Sorted DecimalString.
From Stdlib Require DecimalPos DecimalFacts.
Import ListNotations.

(* ===================================================================== *)
(** ** Python strings *)
(* ===================================================================== *)

Module PyStr.

Definition str : Type := list ascii.

(** A string literal. *)
Definition py (s : string) : str := list_ascii_of_string s.

Definition code (c : ascii) : N := N_of_ascii c.

Definition str_eqb (a b : str) : bool :=
  if list_eq_dec ascii_dec a b then true else false.

(** [s[1:]] *)
Definition tail1 (s : str) : str := skipn 1 s.

(** The remainder of [s] after the prefix [p], when [s] starts with [p]. *)
Fixpoint strip_prefix (p s : str) : option str :=
  match p, s with
  | [], _ => Some s
  | a :: p', b :: s' => if Ascii.eqb a b then strip_prefix p' s' else None
  | _ :: _, [] => None
  end.

(** [s.startswith(p)] *)
Definition startswith (s p : str) : bool :=
  match strip_prefix p s with Some _ => true | None => false end.

(** [s.endswith(p)] *)
Definition endswith (s p : str) : bool := startswith (rev s) (rev p).

(** [c.isspace()] for a code point below 256. *)
Definition isspace (c : ascii) : bool :=
  let n := code c in
  ((9 <=? n) && (n <=? 13) || (28 <=? n) && (n <=? 32)
   || (n =? 133) || (n =? 160))%N.

(** [\d] for a code point below 256. *)
Definition isdigit (c : ascii) : bool :=
  let n := code c in ((48 <=? n) && (n <=? 57))%N.

Fixpoint lstrip (s : str) : str :=
  match s with
  | c :: s' => if isspace c then lstrip s' else s
  | [] => []
  end.

Definition rstrip (s : str) : str := rev (lstrip (rev s)).

(** [s.strip()] *)
Definition strip (s : str) : str := rstrip (lstrip s).

(** [c.lower()] for a code point below 256. *)
Definition lower_char (c : ascii) : ascii :=
  let n := code c in
  if ((65 <=? n) && (n <=? 90)
      || (192 <=? n) && (n <=? 222) && negb (n =? 215))%N
  then ascii_of_N (n + 32) else c.

Definition lower (s : str) : str := map lower_char s.

Definition newline : ascii := ascii_of_N 10.

(** [s.split('\n')] *)
Fixpoint split_lines (s : str) : list str :=
  match s with
  | [] => [[]]
  | c :: s' =>
      if Ascii.eqb c newline then [] :: split_lines s'
      else match split_lines s' with
           | l :: ls => (c :: l) :: ls
           | [] => [[c]]
           end
  end.

(** ["\n".join(ls)] *)
Fixpoint join_lines (ls : list str) : str :=
  match ls with
  | [] => []
  | [l] => l
  | l :: ls' => l ++ newline :: join_lines ls'
  end.

(** The longest prefix of digits, and what follows it. *)
Fixpoint span_digits (s : str) : str * str :=
  match s with
  | c :: s' =>
      if isdigit c then let (d, r) := span_digits s' in (c :: d, r)
      else ([], s)
  | [] => ([], [])
  end.

Definition digit_value (c : ascii) : Z := Z.of_N (code c) - 48.

Definition decimal_value (s : str) : Z :=
  fold_left (fun acc c => (10 * acc + digit_value c)%Z) s 0%Z.

(** [str(n)] for an [int]. *)
Definition str_of_int (n : Z) : str :=
  py (NilZero.string_of_int (Z.to_int n)).

End PyStr.
Import PyStr.

(* ===================================================================== *)
(** ** Exceptions *)
(* ===================================================================== *)

(** An exception derived from [Exception]; [str(e)] is its message. *)
Inductive exn : Type := Exception (msg : str).

Definition ValueError : str -> exn := Exception.

Definition TypeError : str -> exn := Exception.

Definition exn_str (e : exn) : str := let (m) := e in m.

Inductive result (A : Type) : Type :=
| Ok (a : A)
| Raise (e : exn).
Arguments Ok {A} a.
Arguments Raise {A} e.

Definition bind {A B} (c : result A) (k : A -> result B) : result B :=
  match c with
  | Ok a => k a
  | Raise e => Raise e
  end.

Notation "x <- c ;; k" := (bind c (fun x => k))
  (at level 61, c at next level, right associativity).

(** [sys.get_int_max_str_digits()], at its default. *)
Definition int_max_str_digits : Z := 4300.

(** The message of the [ValueError] that [int] raises on a run of [n]
    digits, [n] being over the limit. *)
Definition int_limit_message (n : nat) : str :=
  py "Exceeds the limit (4300 digits) for integer string conversion: value has "
  ++ str_of_int (Z.of_nat n)
  ++ py " digits; use sys.set_int_max_str_digits() to increase the limit".

(** [int(s)] on the text of a [\d+] group: every digit counts towards the
    limit, leading zeros too.  Python also accepts a sign, surrounding
    blanks and underscores; the parser never passes such text, and the
    model raises on it. *)
Definition py_int (s : str) : result Z :=
  match s with
  | [] => Raise (ValueError (py "invalid literal for int()"))
  | _ =>
      if forallb isdigit s then
        if (Z.of_nat (length s) <=? int_max_str_digits)%Z
        then Ok (decimal_value s)
        else Raise (ValueError (int_limit_message (length s)))
      else Raise (ValueError (py "invalid literal for int()"))
  end.

(* ===================================================================== *)
(** ** app/services/diff_parser.py *)
(* ===================================================================== *)

Module DiffParser.

(** [ChangedLine.change_type]: 'addition', 'deletion' or 'context'. *)
Inductive ChangeType : Type := addition | deletion | context.

Definition ChangeType_eqb (a b : ChangeType) : bool :=
  match a, b with
  | addition, addition | deletion, deletion | context, context => true
  | _, _ => false
  end.

Record ChangedLine : Type := mkChangedLine {
  line_number : Z;
  content : str;
  change_type : ChangeType;
  original_line_number : option Z
}.

Record DiffHunk : Type := mkDiffHunk {
  old_start : Z;
  old_count : Z;
  new_start : Z;
  new_count : Z;
  header : str;
  lines : list ChangedLine
}.

Record FileDiff : Type := mkFileDiff {
  file_path : str;
  old_path : option str;
  new_path : option str;
  is_new_file : bool;
  is_deleted_file : bool;
  is_renamed : bool;
  language : option str;
  hunks : list DiffHunk;
  additions : Z;
  deletions : Z
}.

(** [FileDiff.get_all_changed_lines] *)
Definition get_all_changed_lines (f : FileDiff) : list ChangedLine :=
  flat_map lines (hunks f).

(** [FileDiff.get_additions] *)
Definition get_additions (f : FileDiff) : list ChangedLine :=
  filter (fun l => ChangeType_eqb (change_type l) addition)
         (get_all_changed_lines f).

(** [FileDiff.get_deletions] *)
Definition get_deletions (f : FileDiff) : list ChangedLine :=
  filter (fun l => ChangeType_eqb (change_type l) deletion)
         (get_all_changed_lines f).

(** [DiffParser.LANGUAGE_MAP], in insertion order. *)
Definition LANGUAGE_MAP : list (str * str) :=
  map (fun p => (py (fst p), py (snd p)))
    [ (".py", "python"); (".js", "javascript"); (".ts", "typescript");
      (".tsx", "typescript"); (".jsx", "javascript"); (".java", "java");
      (".go", "go"); (".rs", "rust"); (".rb", "ruby"); (".php", "php");
      (".c", "c"); (".cpp", "cpp"); (".h", "c"); (".hpp", "cpp");
      (".cs", "csharp"); (".swift", "swift"); (".kt", "kotlin");
      (".scala", "scala"); (".r", "r"); (".sql", "sql"); (".sh", "bash");
      (".bash", "bash"); (".zsh", "zsh"); (".yml", "yaml");
      (".yaml", "yaml"); (".json", "json"); (".xml", "xml");
      (".html", "html"); (".css", "css"); (".scss", "scss");
      (".sass", "sass"); (".less", "less"); (".md", "markdown");
      (".rst", "restructuredtext"); (".vue", "vue");
      (".svelte", "svelte") ]%string.

(** [DiffParser.detect_language] *)
Definition detect_language (path : str) : option str :=
  match path with
  | [] => None
  | _ =>
      match find (fun p => endswith (lower path) (fst p)) LANGUAGE_MAP with
      | Some (_, lang) => Some lang
      | None => None
      end
  end.

(** *** The compiled patterns

    Every pattern is applied with [match] to one element of
    [diff_text.split('\n')]; such a line holds no line feed, so [.]
    matches each of its characters and [$] only its end. *)

(** The last place where [s] reads [sep] followed by at least one more
    character: the text before [sep], and the text after it. *)
Fixpoint split_at_last (sep s : str) : option (str * str) :=
  match s with
  | [] => None
  | c :: s' =>
      match split_at_last sep s' with
      | Some (a, b) => Some (c :: a, b)
      | None =>
          match strip_prefix sep s with
          | Some ((_ :: _) as b) => Some ([], b)
          | _ => None
          end
      end
  end.

(** [^diff --git a/(.+) b/(.+)$]: the first group is greedy, so it runs
    up to the last [" b/"] that leaves both groups non-empty. *)
Definition file_header_pattern (line : str) : option (str * str) :=
  match strip_prefix (py "diff --git a/") line with
  | Some rest =>
      match split_at_last (py " b/") rest with
      | Some ((_ :: _) as g1, g2) => Some (g1, g2)
      | _ => None
      end
  | None => None
  end.

(** A prefix followed by [\d+$]. *)
Definition prefix_then_digits (p line : str) : bool :=
  match strip_prefix p line with
  | Some ((_ :: _) as d) => forallb isdigit d
  | _ => false
  end.

(** [^new file mode \d+$] *)
Definition new_file_mode_pattern (line : str) : bool :=
  prefix_then_digits (py "new file mode ") line.

(** [^deleted file mode \d+$] *)
Definition deleted_file_mode_pattern (line : str) : bool :=
  prefix_then_digits (py "deleted file mode ") line.

(** A prefix followed by [(.+)$]. *)
Definition prefix_then_some (p line : str) : option str :=
  match strip_prefix p line with
  | Some ((_ :: _) as g) => Some g
  | _ => None
  end.

(** [^rename from (.+)$] *)
Definition rename_from_pattern (line : str) : option str :=
  prefix_then_some (py "rename from ") line.

(** [^rename to (.+)$] *)
Definition rename_to_pattern (line : str) : option str :=
  prefix_then_some (py "rename to ") line.

(** [(?:,(\d+))?]: the group when it takes part, and the text left. *)
Definition optional_count (s : str) : option str * str :=
  match s with
  | c :: s' =>
      if Ascii.eqb c ","%char then
        match span_digits s' with
        | ((_ :: _) as d, r) => (Some d, r)
        | _ => (None, s)
        end
      else (None, s)
  | [] => (None, s)
  end.

(** The five groups of a hunk header; groups 2 and 4 may take no part. *)
Record HunkMatch : Type := mkHunkMatch {
  group1 : str;
  group2 : option str;
  group3 : str;
  group4 : option str;
  group5 : str
}.

(** [^@@ -(\d+)(?:,(\d+))? \+(\d+)(?:,(\d+))? @@] and then a fifth group
    that takes the rest of the line, possibly empty.  After a run of
    digits the pattern wants a character that is no digit, so each greedy
    [\d+] takes the whole run and the match is unique. *)
Definition hunk_header_pattern (line : str) : option HunkMatch :=
  match strip_prefix (py "@@ -") line with
  | Some r1 =>
      match span_digits r1 with
      | ((_ :: _) as g1, r2) =>
          let (g2, r3) := optional_count r2 in
          match strip_prefix (py " +") r3 with
          | Some r4 =>
              match span_digits r4 with
              | ((_ :: _) as g3, r5) =>
                  let (g4, r6) := optional_count r5 in
                  match strip_prefix (py " @@") r6 with
                  | Some g5 => Some (mkHunkMatch g1 g2 g3 g4 g5)
                  | None => None
                  end
              | _ => None
              end
          | None => None
          end
      | _ => None
      end
  | None => None
  end.

(** *** [DiffParser.parse] *)

(** The three variables the scan updates. *)
Record ParserState : Type := mkParserState {
  file_diffs : list FileDiff;
  current_file : option FileDiff;
  current_hunk : option DiffHunk
}.

Definition initial_state : ParserState := mkParserState [] None None.

(** [current_file.hunks.append(current_hunk)], done when there is a
    current hunk. *)
Definition save_hunk (f : FileDiff) (h : option DiffHunk) : FileDiff :=
  match h with
  | Some hk =>
      mkFileDiff (file_path f) (old_path f) (new_path f) (is_new_file f)
        (is_deleted_file f) (is_renamed f) (language f)
        (hunks f ++ [hk]) (additions f) (deletions f)
  | None => f
  end.

(** The two guarded appends that close the current file. *)
Definition save_file (st : ParserState) : list FileDiff :=
  match current_file st with
  | Some f => file_diffs st ++ [save_hunk f (current_hunk st)]
  | None => file_diffs st
  end.

(** [FileDiff(file_path=new_path, old_path=old_path, new_path=new_path,
    language=self.detect_language(new_path))] *)
Definition new_FileDiff (old new : str) : FileDiff :=
  mkFileDiff new (Some old) (Some new) false false false
    (detect_language new) [] 0 0.

Definition set_is_new_file (f : FileDiff) : FileDiff :=
  mkFileDiff (file_path f) (old_path f) (new_path f) true
    (is_deleted_file f) (is_renamed f) (language f) (hunks f)
    (additions f) (deletions f).

Definition set_is_deleted_file (f : FileDiff) : FileDiff :=
  mkFileDiff (file_path f) (old_path f) (new_path f) (is_new_file f)
    true (is_renamed f) (language f) (hunks f)
    (additions f) (deletions f).

(** The [rename from] branch. *)
Definition set_rename_from (f : FileDiff) (p : str) : FileDiff :=
  mkFileDiff (file_path f) (Some p) (new_path f) (is_new_file f)
    (is_deleted_file f) true (language f) (hunks f)
    (additions f) (deletions f).

(** The [rename to] branch. *)
Definition set_rename_to (f : FileDiff) (p : str) : FileDiff :=
  mkFileDiff p (old_path f) (Some p) (is_new_file f)
    (is_deleted_file f) (is_renamed f) (language f) (hunks f)
    (additions f) (deletions f).

Definition add_additions (f : FileDiff) : FileDiff :=
  mkFileDiff (file_path f) (old_path f) (new_path f) (is_new_file f)
    (is_deleted_file f) (is_renamed f) (language f) (hunks f)
    (additions f + 1) (deletions f).

Definition add_deletions (f : FileDiff) : FileDiff :=
  mkFileDiff (file_path f) (old_path f) (new_path f) (is_new_file f)
    (is_deleted_file f) (is_renamed f) (language f) (hunks f)
    (additions f) (deletions f + 1).

(** [current_hunk.lines.append(changed_line)] *)
Definition append_line (h : DiffHunk) (l : ChangedLine) : DiffHunk :=
  mkDiffHunk (old_start h) (old_count h) (new_start h) (new_count h)
    (header h) (lines h ++ [l]).

(** The markers looked for while a file is open; [None] when the line is
    none of them and the scan goes on to the hunk header test. *)
Definition file_marker (f : FileDiff) (line : str) : option FileDiff :=
  if new_file_mode_pattern line then Some (set_is_new_file f)
  else if deleted_file_mode_pattern line then Some (set_is_deleted_file f)
  else match rename_from_pattern line with
       | Some p => Some (set_rename_from f p)
       | None =>
           match rename_to_pattern line with
           | Some p => Some (set_rename_to f p)
           | None => None
           end
       end.

(** [len([l for l in current_hunk.lines
          if l.change_type in ('addition', 'context')])] *)
Definition count_new_side (ls : list ChangedLine) : Z :=
  Z.of_nat (length (filter
    (fun l => ChangeType_eqb (change_type l) addition
              || ChangeType_eqb (change_type l) context) ls)).

(** [len([l for l in current_hunk.lines
          if l.change_type in ('deletion', 'context')])] *)
Definition count_old_side (ls : list ChangedLine) : Z :=
  Z.of_nat (length (filter
    (fun l => ChangeType_eqb (change_type l) deletion
              || ChangeType_eqb (change_type l) context) ls)).

(** [int(m.group(k)) if m.group(k) else 1] *)
Definition count_or_one (g : option str) : result Z :=
  match g with
  | Some ((_ :: _) as d) => py_int d
  | _ => Ok 1%Z
  end.

(** The hunk opened by a matched header. *)
Definition open_hunk (m : HunkMatch) : result DiffHunk :=
  o_start <- py_int (group1 m) ;;
  o_count <- count_or_one (group2 m) ;;
  n_start <- py_int (group3 m) ;;
  n_count <- count_or_one (group4 m) ;;
  Ok (mkDiffHunk o_start o_count n_start n_count (strip (group5 m)) []).

(** The content branches; [more] is [i < len(lines) - 1]. *)
Definition content_line (f : FileDiff) (h : DiffHunk) (line : str)
    (more : bool) : FileDiff * DiffHunk :=
  if startswith line (py "+") && negb (startswith line (py "+++")) then
    let new_line_num := (new_start h + count_new_side (lines h))%Z in
    (add_additions f,
     append_line h (mkChangedLine new_line_num (tail1 line) addition None))
  else if startswith line (py "-") && negb (startswith line (py "---")) then
    let old_line_num := (old_start h + count_old_side (lines h))%Z in
    (add_deletions f,
     append_line h (mkChangedLine old_line_num (tail1 line) deletion
                                  (Some old_line_num)))
  else if startswith line (py " ") || (str_eqb line [] && more) then
    let new_line_num := (new_start h + count_new_side (lines h))%Z in
    let old_line_num := (old_start h + count_old_side (lines h))%Z in
    (f,
     append_line h (mkChangedLine new_line_num
                      (if startswith line (py " ") then tail1 line else line)
                      context (Some old_line_num)))
  else (f, h).

(** The test for a hunk header and what follows it in the loop body. *)
Definition hunk_or_content (st : ParserState) (line : str) (more : bool)
    : result ParserState :=
  match hunk_header_pattern line, current_file st with
  | Some m, Some f =>
      h <- open_hunk m ;;
      Ok (mkParserState (file_diffs st)
            (Some (save_hunk f (current_hunk st))) (Some h))
  | _, _ =>
      match current_hunk st, current_file st with
      | Some h, Some f =>
          let (f', h') := content_line f h line more in
          Ok (mkParserState (file_diffs st) (Some f') (Some h'))
      | _, _ => Ok st
      end
  end.

(** One turn of the [while] loop, on [lines[i]]. *)
Definition parse_line (st : ParserState) (line : str) (more : bool)
    : result ParserState :=
  match file_header_pattern line with
  | Some (old, new) =>
      Ok (mkParserState (save_file st) (Some (new_FileDiff old new)) None)
  | None =>
      match current_file st with
      | Some f =>
          match file_marker f line with
          | Some f' =>
              Ok (mkParserState (file_diffs st) (Some f') (current_hunk st))
          | None => hunk_or_content st line more
          end
      | None => hunk_or_content st line more
      end
  end.

(** The [while] loop over the remaining lines. *)
Fixpoint scan (st : ParserState) (ls : list str) : result ParserState :=
  match ls with
  | [] => Ok st
  | line :: rest =>
      st' <- parse_line st line (match rest with [] => false | _ => true end) ;;
      scan st' rest
  end.

(** [DiffParser.parse] *)
Definition parse (diff_text : str) : result (list FileDiff) :=
  match diff_text with
  | [] => Ok []
  | _ =>
      match strip diff_text with
      | [] => Ok []
      | _ =>
          st <- scan initial_state (split_lines diff_text) ;;
          Ok (save_file st)
      end
  end.

End DiffParser.

(* ===================================================================== *)
(** ** Dictionaries and [list.sort] *)
(* ===================================================================== *)

(** The values [json.loads] gives, which a finding may hold under its
    keys.  A [float] is the number [m * 2 ^ e]. *)
#[warnings="-register-all"]
Inductive PyVal : Type :=
| VNone
| VBool (b : bool)
| VInt (n : Z)
| VFloat (m e : Z)
| VStr (s : str)
| VList (items : list PyVal)
| VDict (items : list (str * PyVal)).

(** [type(v).__name__] *)
Definition type_name (v : PyVal) : str :=
  match v with
  | VNone => py "NoneType"
  | VBool _ => py "bool"
  | VInt _ => py "int"
  | VFloat _ _ => py "float"
  | VStr _ => py "str"
  | VList _ => py "list"
  | VDict _ => py "dict"
  end.

(** What [hash(v)] raises on a list or a dictionary. *)
Definition unhashable (v : PyVal) : exn :=
  TypeError (py "unhashable type: '" ++ type_name v ++ py "'").

(** The value [v] used as a key of a [dict] whose keys are all [str]: it is
    hashed, which raises on a list or a dictionary; a [str] is then the key
    of that text, and any other value equals no key. *)
Definition as_key (v : PyVal) : result (option str) :=
  match v with
  | VStr s => Ok (Some s)
  | VList _ | VDict _ => Raise (unhashable v)
  | _ => Ok None
  end.

(** A [dict] with [str] keys, in insertion order. *)
Definition dict (V : Type) : Type := list (str * V).

(** [d.get(k)]; [None] when [k not in d]. *)
Fixpoint dict_get {V : Type} (k : str) (d : dict V) : option V :=
  match d with
  | [] => None
  | (k', v) :: d' => if str_eqb k k' then Some v else dict_get k d'
  end.

(** [if k in d: d[k] += 1] *)
Fixpoint dict_incr (k : str) (d : dict Z) : dict Z :=
  match d with
  | [] => []
  | (k', v) :: d' =>
      if str_eqb k k' then (k', (v + 1)%Z) :: d' else (k', v) :: dict_incr k d'
  end.

(** [d[k]] for a key the code knows to be present. *)
Definition dict_item (k : str) (d : dict Z) : Z :=
  match dict_get k d with Some v => v | None => 0%Z end.

(** Where [x] goes in a list sorted by [key]: before the first element
    whose key is not smaller. *)
Fixpoint insert_by {A : Type} (key : A -> Z) (x : A) (l : list A) : list A :=
  match l with
  | [] => [x]
  | y :: l' =>
      if (key x <=? key y)%Z then x :: l else y :: insert_by key x l'
  end.

(** The stable sort of the language on keys already computed, as a right
    fold of insertions. *)
Fixpoint sort_by {A : Type} (key : A -> Z) (l : list A) : list A :=
  match l with
  | [] => []
  | x :: l' => insert_by key x (sort_by key l')
  end.

(** The first step of [l.sort(key=key)]: [key] is called on each element
    in turn, and a call that raises ends the sort. *)
Fixpoint decorate {A : Type} (key : A -> result Z) (l : list A)
    : result (list (Z * A)) :=
  match l with
  | [] => Ok []
  | x :: l' =>
      k <- key x ;;
      rest <- decorate key l' ;;
      Ok ((k, x) :: rest)
  end.

(** [l.sort(key=key)] *)
Definition list_sort {A : Type} (key : A -> result Z) (l : list A)
    : result (list A) :=
  keyed <- decorate key l ;;
  Ok (map snd (sort_by fst keyed)).

(** A [for] loop whose body updates [a] and may raise. *)
Fixpoint for_each {A B : Type} (body : A -> B -> result A) (l : list B)
    (a : A) : result A :=
  match l with
  | [] => Ok a
  | x :: l' => a' <- body a x ;; for_each body l' a'
  end.

(* ===================================================================== *)
(** ** app/agents/base_agent.py *)
(* ===================================================================== *)

Module BaseAgent.

(** A finding reported by an analyzer: a [dict]. *)
Definition Finding : Type := dict PyVal.

(** [AgentFinding].  The fields that [_parse_llm_response] fills from the
    decoded answer of the model hold whatever value the answer has there;
    the annotations of the dataclass are not enforced. *)
Record AgentFinding : Type := mkAgentFinding {
  af_file_path : str;
  af_line_number : PyVal;
  af_line_range_start : PyVal;
  af_line_range_end : PyVal;
  af_category : str;
  af_severity : PyVal;
  af_title : PyVal;
  af_description : PyVal;
  af_original_code : PyVal;
  af_suggested_code : PyVal;
  af_agent_name : option str
}.

(** What analyzers are given: the [dict] built by
    [_prepare_code_context]. *)
Record CodeContext : Type := mkCodeContext {
  ctx_file_path : str;
  ctx_language : option str;
  ctx_is_new_file : bool;
  ctx_is_deleted_file : bool;
  ctx_additions : list (Z * str);
  ctx_diff_content : str
}.

(** What [run] returns.  [ar_findings] is [None] when the [dict] has no
    ["findings"] key; [ar_error] is the value under ["error"]. *)
Record AgentResult : Type := mkAgentResult {
  ar_agent_name : str;
  ar_findings : option (list Finding);
  ar_error : option str
}.

Definition opt_str (o : option str) : PyVal :=
  match o with Some s => VStr s | None => VNone end.

(** The [dict] that [run] makes of an [AgentFinding]. *)
Definition finding_dict (f : AgentFinding) : Finding :=
  [ (py "file_path", VStr (af_file_path f));
    (py "line_number", af_line_number f);
    (py "line_range_start", af_line_range_start f);
    (py "line_range_end", af_line_range_end f);
    (py "category", VStr (af_category f));
    (py "severity", af_severity f);
    (py "title", af_title f);
    (py "description", af_description f);
    (py "original_code", af_original_code f);
    (py "suggested_code", af_suggested_code f);
    (py "agent_name", opt_str (af_agent_name f)) ].

(** [BaseReviewAgent.run], for an agent of the given [name] whose
    [analyze] is the given function. *)
Definition run (name : str)
    (analyze : CodeContext -> result (list AgentFinding))
    (code_context : CodeContext) : result AgentResult :=
  match analyze code_context with
  | Ok findings =>
      Ok (mkAgentResult name (Some (map finding_dict findings)) None)
  | Raise e => Ok (mkAgentResult name (Some []) (Some (exn_str e)))
  end.

End BaseAgent.

(* ===================================================================== *)
(** ** app/orchestrator/review_orchestrator.py *)
(* ===================================================================== *)

Module ReviewOrchestrator.
Import DiffParser BaseAgent.

(** An element of [self.agents]: anything with a [name] and a [run]. *)
Record Agent : Type := mkAgent {
  name : str;
  agent_run : CodeContext -> result AgentResult
}.

(** An agent derived from [BaseReviewAgent]. *)
Definition BaseReviewAgent (nm : str)
    (analyze : CodeContext -> result (list AgentFinding)) : Agent :=
  mkAgent nm (BaseAgent.run nm analyze).

Definition prefix_of (t : ChangeType) : str :=
  match t with
  | addition => py "+"
  | deletion => py "-"
  | context => py " "
  end.

(** The lines a hunk adds to [diff_lines]. *)
Definition hunk_diff_lines (h : DiffHunk) : list str :=
  (py "@@ -" ++ str_of_int (old_start h) ++ py "," ++ str_of_int (old_count h)
   ++ py " +" ++ str_of_int (new_start h) ++ py "," ++ str_of_int (new_count h)
   ++ py " @@ " ++ header h)
  :: map (fun l => prefix_of (change_type l) ++ content l) (lines h).

(** [ReviewOrchestrator._prepare_code_context] *)
Definition _prepare_code_context (file_diff : FileDiff) : CodeContext :=
  let adds :=
    map (fun l => (line_number l, content l))
        (filter (fun l => ChangeType_eqb (change_type l) addition)
                (flat_map lines (hunks file_diff))) in
  mkCodeContext (file_path file_diff) (language file_diff)
    (is_new_file file_diff) (is_deleted_file file_diff) adds
    (join_lines (flat_map hunk_diff_lines (hunks file_diff))).

(** [ReviewOrchestrator._run_agent] *)
Definition _run_agent (agent : Agent) (code_context : CodeContext)
    : AgentResult :=
  match agent_run agent code_context with
  | Ok r => r
  | Raise e => mkAgentResult (name agent) (Some []) (Some (exn_str e))
  end.

(** [result.get("findings", [])] *)
Definition get_findings (r : AgentResult) : list Finding :=
  match ar_findings r with Some fs => fs | None => [] end.

(** [finding.get(k, default)] *)
Definition get_or (k : str) (default : str) (f : Finding) : PyVal :=
  match dict_get k f with Some v => v | None => VStr default end.

Definition severity_order : dict Z :=
  [ (py "critical", 0); (py "high", 1); (py "medium", 2); (py "low", 3);
    (py "info", 4) ]%Z.

(** The sort key:
    [severity_order.get(x.get("severity", "info"), 4)] *)
Definition severity_key (x : Finding) : result Z :=
  k <- as_key (get_or (py "severity") (py "info") x) ;;
  Ok (match k with
      | Some s =>
          match dict_get s severity_order with Some r => r | None => 4%Z end
      | None => 4%Z
      end).

Record Summary : Type := mkSummary {
  total_issues : Z;
  severity_counts : dict Z;
  category_counts : dict Z;
  overall_rating : str
}.

(** [if v in counts: counts[v] += 1] *)
Definition count_in (v : PyVal) (counts : dict Z) : result (dict Z) :=
  k <- as_key v ;;
  Ok (match k with
      | Some s => dict_incr s counts
      | None => counts
      end).

(** The body of the loop of [_generate_summary]. *)
Definition tally (acc : dict Z * dict Z) (finding : Finding)
    : result (dict Z * dict Z) :=
  severity_counts <-
    count_in (get_or (py "severity") (py "info") finding) (fst acc) ;;
  category_counts <-
    count_in (get_or (py "category") (py "code_quality") finding) (snd acc) ;;
  Ok (severity_counts, category_counts).

(** The chain of tests that sets [overall]. *)
Definition rate (severity_counts : dict Z) : str :=
  if (dict_item (py "critical") severity_counts >? 0)%Z then py "needs_work"
  else if (dict_item (py "high") severity_counts >? 2)%Z then py "needs_work"
  else if (dict_item (py "high") severity_counts >? 0)%Z
          || (dict_item (py "medium") severity_counts >? 5)%Z
       then py "changes_requested"
  else if (dict_item (py "medium") severity_counts >? 0)%Z then py "comment"
  else py "approve".

(** The two dictionaries of counts before the loop. *)
Definition no_counts : dict Z * dict Z :=
  ([ (py "critical", 0); (py "high", 0); (py "medium", 0);
     (py "low", 0); (py "info", 0) ]%Z,
   [ (py "security", 0); (py "performance", 0); (py "logic", 0);
     (py "code_quality", 0); (py "documentation", 0) ]%Z).

(** [ReviewOrchestrator._generate_summary] *)
Definition _generate_summary (findings : list Finding) : result Summary :=
  counts <- for_each tally findings no_counts ;;
  Ok (mkSummary (Z.of_nat (length findings)) (fst counts) (snd counts)
        (rate (fst counts))).

(** The [dict] that [review_diff] returns.  A field of option type is
    [None] when the [dict] has no such key. *)
Record ReviewResult : Type := mkReviewResult {
  success : bool;
  message : option str;
  files_reviewed : Z;
  total_additions : option Z;
  total_deletions : option Z;
  findings : list Finding;
  agent_results : option (list AgentResult);
  summary : option Summary
}.

(** One invocation of an analyzer: its name and what it was given. *)
Definition Call : Type := (str * CodeContext)%type.

(** The two lists the loop over the files extends, and the invocations
    made so far. *)
Record Collected : Type := mkCollected {
  all_findings : list Finding;
  collected_results : list AgentResult;
  calls : list Call
}.

(** [sum(xs)] *)
Definition py_sum (xs : list Z) : Z := fold_left Z.add xs 0%Z.

Section Review.

(** The order in which [as_completed] yields the futures submitted for
    the [k]-th parsed file, as a rearrangement of their results listed in
    submission order. *)
Variable as_completed : nat -> list AgentResult -> list AgentResult.

(** The analyzers registered by the constructor. *)
Variable agents : list Agent.

(** The results appended for one file, in the order of their collection.
    [ThreadPoolExecutor(max_workers=0)] raises [ValueError]. *)
Definition run_agents (parallel : bool) (k : nat) (code_context : CodeContext)
    : result (list AgentResult) :=
  if parallel then
    match agents with
    | [] => Raise (ValueError (py "max_workers must be greater than 0"))
    | _ =>
        Ok (as_completed k (map (fun a => _run_agent a code_context) agents))
    end
  else Ok (map (fun a => _run_agent a code_context) agents).

(** The loop [for file_diff in file_diffs], from the [k]-th file on. *)
Fixpoint review_files (parallel : bool) (k : nat) (fds : list FileDiff)
    (acc : Collected) : result Collected :=
  match fds with
  | [] => Ok acc
  | file_diff :: rest =>
      if is_deleted_file file_diff then review_files parallel (S k) rest acc
      else
        let code_context := _prepare_code_context file_diff in
        match ctx_additions code_context with
        | [] => review_files parallel (S k) rest acc
        | _ :: _ =>
            rs <- run_agents parallel k code_context ;;
            review_files parallel (S k) rest
              (mkCollected
                 (all_findings acc ++ flat_map get_findings rs)
                 (collected_results acc ++ rs)
                 (calls acc ++ map (fun a => (name a, code_context)) agents))
        end
  end.

(** [ReviewOrchestrator.review_diff]; beside the returned [dict], the
    invocations of analyzers the call made. *)
Definition review_diff (diff_content : str) (parallel : bool)
    : result (ReviewResult * list Call) :=
  file_diffs <- parse diff_content ;;
  match file_diffs with
  | [] =>
      Ok (mkReviewResult true (Some (py "No changes to review")) 0
            None None [] None None, [])
  | _ :: _ =>
      c <- review_files parallel 0 file_diffs (mkCollected [] [] []) ;;
      sorted <- list_sort severity_key (all_findings c) ;;
      summary <- _generate_summary sorted ;;
      Ok (mkReviewResult true None
            (Z.of_nat (length (filter (fun f => negb (is_deleted_file f))
                                      file_diffs)))
            (Some (py_sum (map additions file_diffs)))
            (Some (py_sum (map deletions file_diffs)))
            sorted
            (Some (collected_results c))
            (Some summary),
          calls c)
  end.

End Review.

End ReviewOrchestrator.

Import DiffParser BaseAgent ReviewOrchestrator.

(* ===================================================================== *)
(** ** Slices and item assignment *)
(* ===================================================================== *)

(** [d[k] = v]: the value of a key already present is replaced where it
    stands; a new key goes to the end. *)
Fixpoint dict_set {V : Type} (k : str) (v : V) (d : dict V) : dict V :=
  match d with
  | [] => [(k, v)]
  | (k', v') :: d' =>
      if str_eqb k k' then (k', v) :: d' else (k', v') :: dict_set k v d'
  end.

(** The place a bound of a slice stands for in a list of length [n]: a
    negative bound counts from the end, and every bound is brought back
    into the list. *)
Definition slice_bound (n i : Z) : Z :=
  if (i <? 0)%Z then Z.max (i + n) 0 else Z.min i n.

(** [l[start:stop]] *)
Definition py_slice {A : Type} (l : list A) (start stop : Z) : list A :=
  let n := Z.of_nat (length l) in
  let s := slice_bound n start in
  let e := slice_bound n stop in
  firstn (Z.to_nat (e - s)) (skipn (Z.to_nat s) l).

(* ===================================================================== *)
(** ** app/services/diff_parser.py: what is read off the parsed files *)
(* ===================================================================== *)

Module DiffQueries.
Import DiffParser.

(** The [dict] that [get_context_around_change] returns; [target] is
    [None] when no line was found. *)
Record ChangeContext : Type := mkChangeContext {
  before : list ChangedLine;
  target : option ChangedLine;
  after : list ChangedLine
}.

(** The loop over [enumerate(all_lines)], from index [idx] on: the index
    of the first line that carries the number. *)
Fixpoint find_target (all_lines : list ChangedLine) (number : Z) (idx : Z)
    : option Z :=
  match all_lines with
  | [] => None
  | l :: rest =>
      if (line_number l =? number)%Z then Some idx
      else find_target rest number (idx + 1)
  end.

(** [DiffParser.get_context_around_change]; [context_lines] is 3 when the
    caller leaves it out.  The index found is within the list, so
    [all_lines[target_idx]] is an element. *)
Definition get_context_around_change (file_diff : FileDiff) (number : Z)
    (context_lines : Z) : ChangeContext :=
  let all_lines := get_all_changed_lines file_diff in
  match find_target all_lines number 0 with
  | None => mkChangeContext [] None []
  | Some target_idx =>
      let before_start := Z.max 0 (target_idx - context_lines) in
      let after_end :=
        Z.min (Z.of_nat (length all_lines))
              (target_idx + context_lines + 1) in
      mkChangeContext
        (py_slice all_lines before_start target_idx)
        (nth_error all_lines (Z.to_nat target_idx))
        (py_slice all_lines (target_idx + 1) after_end)
  end.

(** One [block] of [extract_code_blocks]. *)
Record CodeBlock : Type := mkCodeBlock {
  cb_file_path : str;
  cb_language : option str;
  start_line : Z;
  end_line : Z;
  cb_header : str;
  cb_additions : list ChangedLine;
  cb_deletions : list ChangedLine;
  cb_context : list ChangedLine
}.

(** The body of the loop over the lines of a hunk: the line goes to one
    of the three lists of the block. *)
Definition sort_line (block : CodeBlock) (line : ChangedLine) : CodeBlock :=
  match change_type line with
  | addition =>
      mkCodeBlock (cb_file_path block) (cb_language block)
        (start_line block) (end_line block) (cb_header block)
        (cb_additions block ++ [line]) (cb_deletions block)
        (cb_context block)
  | deletion =>
      mkCodeBlock (cb_file_path block) (cb_language block)
        (start_line block) (end_line block) (cb_header block)
        (cb_additions block) (cb_deletions block ++ [line])
        (cb_context block)
  | context =>
      mkCodeBlock (cb_file_path block) (cb_language block)
        (start_line block) (end_line block) (cb_header block)
        (cb_additions block) (cb_deletions block)
        (cb_context block ++ [line])
  end.

(** [DiffParser.extract_code_blocks] *)
Definition extract_code_blocks (file_diff : FileDiff) : list CodeBlock :=
  map (fun hunk =>
         fold_left sort_line (lines hunk)
           (mkCodeBlock (file_path file_diff) (language file_diff)
              (new_start hunk) (new_start hunk + new_count hunk)
              (header hunk) [] [] []))
      (hunks file_diff).

(** The [dict] that [get_summary] returns. *)
Record DiffSummary : Type := mkDiffSummary {
  total_files : Z;
  sum_additions : Z;
  sum_deletions : Z;
  new_files : Z;
  deleted_files : Z;
  renamed_files : Z;
  languages : dict Z;
  files : list str
}.

(** The body of the loop that counts the languages:
    [if f.language: languages[f.language] = languages.get(f.language, 0) + 1] *)
Definition count_language (languages : dict Z) (f : FileDiff) : dict Z :=
  match language f with
  | Some ((_ :: _) as lang) =>
      dict_set lang
        (match dict_get lang languages with Some n => n | None => 0 end + 1)%Z
        languages
  | _ => languages
  end.

(** [DiffParser.get_summary] *)
Definition get_summary (file_diffs : list FileDiff) : DiffSummary :=
  mkDiffSummary
    (Z.of_nat (length file_diffs))
    (py_sum (map additions file_diffs))
    (py_sum (map deletions file_diffs))
    (Z.of_nat (length (filter is_new_file file_diffs)))
    (Z.of_nat (length (filter is_deleted_file file_diffs)))
    (Z.of_nat (length (filter is_renamed file_diffs)))
    (fold_left count_language file_diffs [])
    (map file_path file_diffs).

End DiffQueries.

(* ===================================================================== *)
(** ** app/orchestrator/review_orchestrator.py: the review of a pull
       request *)
(* ===================================================================== *)

Module PullRequestReview.

(** The three methods of [GitHubClient] the orchestrator calls, each on
    [owner], [repo_name] and [pr_number]; what they return is a [dict]
    the orchestrator does not look into. *)
Record GitHubClient : Type := mkGitHubClient {
  get_pr_info : str -> str -> Z -> result (dict PyVal);
  get_pr_diff : str -> str -> Z -> result str;
  create_pr_comment : str -> str -> Z -> str -> result (dict PyVal)
}.

(** A call made to the client. *)
Inductive ClientCall : Type :=
| CallInfo
| CallDiff
| CallComment (body : str).

(** The [dict] that [review_github_pr] returns: that of [review_diff]
    with the keys added to it.  A field of option type is [None] when the
    key was not added. *)
Record PRReview : Type := mkPRReview {
  review : ReviewResult;
  pr_info : dict PyVal;
  github_comment : option (dict PyVal);
  github_comment_error : option str
}.

Section PR.

Variable as_completed : nat -> list AgentResult -> list AgentResult.
Variable agents : list Agent.

(** [_format_review_comment], which reads the findings, the summary and
    the number of files of the result.  The text it builds holds
    characters beyond the range modelled here, so it is a parameter. *)
Variable _format_review_comment : ReviewResult -> result str.

(** [ReviewOrchestrator.review_github_pr], where [github_client] is
    [self.github_client]; beside what it returns or raises, the calls it
    made to the client. *)
Definition review_github_pr (github_client : option GitHubClient)
    (owner repo_name : str) (pr_number : Z) (post_comments : bool)
    : result PRReview * list ClientCall :=
  match github_client with
  | None => (Raise (ValueError (py "GitHub client not configured")), [])
  | Some client =>
      match get_pr_info client owner repo_name pr_number with
      | Raise e => (Raise e, [CallInfo])
      | Ok info =>
          match get_pr_diff client owner repo_name pr_number with
          | Raise e => (Raise e, [CallInfo; CallDiff])
          | Ok diff_content =>
              match review_diff as_completed agents diff_content true with
              | Raise e => (Raise e, [CallInfo; CallDiff])
              | Ok (review_result, _) =>
                  match post_comments, findings review_result with
                  | true, _ :: _ =>
                      match _format_review_comment review_result with
                      | Raise e =>
                          (Ok (mkPRReview review_result info None
                                 (Some (exn_str e))),
                           [CallInfo; CallDiff])
                      | Ok comment_body =>
                          match create_pr_comment client owner repo_name
                                  pr_number comment_body with
                          | Ok comment_result =>
                              (Ok (mkPRReview review_result info
                                     (Some comment_result) None),
                               [CallInfo; CallDiff;
                                CallComment comment_body])
                          | Raise e =>
                              (Ok (mkPRReview review_result info None
                                     (Some (exn_str e))),
                               [CallInfo; CallDiff;
                                CallComment comment_body])
                          end
                      end
                  | _, _ =>
                      (Ok (mkPRReview review_result info None None),
                       [CallInfo; CallDiff])
                  end
              end
          end
      end
  end.

End PR.

End PullRequestReview.

(* ===================================================================== *)
(** ** Notions used to state the properties *)
(* ===================================================================== *)

(** No line of the list is a file header. *)
Definition headerless (ls : list str) : Prop :=
  Forall (fun l => file_header_pattern l = None) ls.

(** The counters of a file agree with the lines of its hunks. *)
Definition counted (f : FileDiff) : Prop :=
  additions f = Z.of_nat (length (get_additions f)) /\
  deletions f = Z.of_nat (length (get_deletions f)).

(** The line is counted on the new side: an addition or a context line. *)
Definition on_new_side (l : ChangedLine) : bool :=
  match change_type l with
  | addition | context => true
  | deletion => false
  end.

(** The line is counted on the old side: a deletion or a context line. *)
Definition on_old_side (l : ChangedLine) : bool :=
  match change_type l with
  | deletion | context => true
  | addition => false
  end.

(** The number of elements of a list, as the code counts them. *)
Definition len {A : Type} (l : list A) : Z := Z.of_nat (length l).

(** The position on the new side that comes after the lines [before] of
    the hunk [h]: its new start plus the number of additions and context
    lines among them. *)
Definition new_position (h : DiffHunk) (before : list ChangedLine) : Z :=
  (new_start h + len (filter on_new_side before))%Z.

(** The position on the old side: the old start plus the number of
    deletions and context lines among [before]. *)
Definition old_position (h : DiffHunk) (before : list ChangedLine) : Z :=
  (old_start h + len (filter on_old_side before))%Z.

(** The numbers a line of kind [change_type l] must carry when the lines
    [before] precede it in the hunk [h]. *)
Definition numbered (h : DiffHunk) (before : list ChangedLine)
    (l : ChangedLine) : Prop :=
  match change_type l with
  | addition => line_number l = new_position h before
  | deletion =>
      line_number l = old_position h before /\
      original_line_number l = Some (old_position h before)
  | context =>
      line_number l = new_position h before /\
      original_line_number l = Some (old_position h before)
  end.

(** Every line of the hunk carries the numbers its place calls for. *)
Definition positioned (h : DiffHunk) : Prop :=
  forall before l after,
    lines h = before ++ l :: after -> numbered h before l.

(** The five ways one turn of the loop can go. *)
Inductive turn (st : ParserState) (line : str) (more : bool)
    : ParserState -> Prop :=
| turn_file old new :
    file_header_pattern line = Some (old, new) ->
    turn st line more
      (mkParserState (save_file st) (Some (new_FileDiff old new)) None)
| turn_marker f f' :
    current_file st = Some f ->
    file_marker f line = Some f' ->
    turn st line more
      (mkParserState (file_diffs st) (Some f') (current_hunk st))
| turn_hunk f h :
    current_file st = Some f ->
    lines h = [] ->
    turn st line more
      (mkParserState (file_diffs st)
         (Some (save_hunk f (current_hunk st))) (Some h))
| turn_content f h :
    current_file st = Some f ->
    current_hunk st = Some h ->
    turn st line more
      (mkParserState (file_diffs st)
         (Some (fst (content_line f h line more)))
         (Some (snd (content_line f h line more))))
| turn_skip :
    turn st line more st.

(** The value of [int(g) if g else 1] on a group of a matched header. *)
Definition count_value (g : option str) : Z :=
  match g with Some d => decimal_value d | None => 1%Z end.

(** The severity the summary reads off a finding is [s]. *)
Definition has_severity (s : str) (x : Finding) : bool :=
  match get_or (py "severity") (py "info") x with
  | VStr s' => str_eqb s' s
  | _ => false
  end.

(** The number of findings of severity [s]. *)
Definition count_severity (s : str) (fs : list Finding) : Z :=
  Z.of_nat (length (filter (has_severity s) fs)).

(** Non-decreasing keys. *)
Definition key_le {A : Type} (key : A -> Z) (a b : A) : Prop :=
  (key a <= key b)%Z.

(** The elements whose key is [k], in the order they have in [l]. *)
Definition with_key {A : Type} (key : A -> Z) (k : Z) (l : list A) : list A :=
  filter (fun x => (key x =? k)%Z) l.

(** The files whose context is handed to the analyzers. *)
Definition dispatched (fd : FileDiff) : bool :=
  match get_additions fd with
  | [] => false
  | _ :: _ => negb (is_deleted_file fd)
  end.

(** What an analyzer contributes on a context: the findings listed in the
    result it returns, and nothing when it raises or lists none. *)
Definition contribution (a : Agent) (ctx : CodeContext) : list Finding :=
  match agent_run a ctx with
  | Ok (mkAgentResult _ (Some fs) _) => fs
  | _ => []
  end.

(** What the analyzers return for a file, in the order of registration. *)
Definition submitted (agents : list Agent) (fd : FileDiff)
    : list AgentResult :=
  map (fun a => _run_agent a (_prepare_code_context fd)) agents.

(** The invocations made for a file. *)
Definition invocations (agents : list Agent) (fd : FileDiff) : list Call :=
  map (fun a => (name a, _prepare_code_context fd)) agents.

(** What the analyzers contribute on the files handed to them, file by
    file and, for each file, in the order of registration. *)
Definition reported (agents : list Agent) (fds : list FileDiff)
    : list Finding :=
  flat_map (fun fd =>
              flat_map (fun a => contribution a (_prepare_code_context fd))
                       agents)
           (filter dispatched fds).

(** The value a finding holds under a key, which is text that can be
    hashed or not. *)
Definition label (k : str) (default : str) (x : Finding) : PyVal :=
  match dict_get k x with Some v => v | None => VStr default end.

(** The value can be hashed: it is neither a list nor a dictionary. *)
Definition hashable (v : PyVal) : bool :=
  match v with
  | VList _ | VDict _ => false
  | _ => true
  end.

(** The severity of the finding can be hashed. *)
Definition ranked (x : Finding) : bool :=
  hashable (label (py "severity") (py "info") x).

(** The severity and the category of the finding can be hashed. *)
Definition labelled (x : Finding) : bool :=
  ranked x && hashable (label (py "category") (py "code_quality") x).

(** The rank of a finding: that of its severity when it is text, and 4
    when the finding has no severity or one that is no text. *)
Definition finding_rank (x : Finding) : Z :=
  match dict_get (py "severity") x with
  | Some (VStr s) =>
      if str_eqb s (py "critical") then 0
      else if str_eqb s (py "high") then 1
      else if str_eqb s (py "medium") then 2
      else if str_eqb s (py "low") then 3
      else 4
  | _ => 4
  end.

(** What [count_in] returns when it returns. *)
Definition counted_in (v : PyVal) (counts : dict Z) : dict Z :=
  match v with
  | VStr s => dict_incr s counts
  | _ => counts
  end.

(** What [tally] returns when it returns. *)
Definition tallied (acc : dict Z * dict Z) (x : Finding)
    : dict Z * dict Z :=
  (counted_in (label (py "severity") (py "info") x) (fst acc),
   counted_in (label (py "category") (py "code_quality") x) (snd acc)).

(** What [_generate_summary] returns when it returns. *)
Definition summarised (fs : list Finding) : Summary :=
  let counts := fold_left tallied fs no_counts in
  mkSummary (len fs) (fst counts) (snd counts) (rate (fst counts)).

(** A completion order rearranges what was submitted. *)
Definition rearranges
    (as_completed : nat -> list AgentResult -> list AgentResult) : Prop :=
  forall k rs, Permutation (as_completed k rs) rs.

(** Every hunk of the file is [positioned]. *)
Definition all_positioned (f : FileDiff) : Prop :=
  Forall positioned (hunks f).

(** The text of an optional count: a comma and the digits, or nothing. *)
Definition count_text (g : option str) : str :=
  match g with Some d => py "," ++ d | None => [] end.

(** A hunk header as it is written. *)
Definition hunk_header_text (a : str) (c : option str) (b : str)
    (d : option str) (rest : str) : str :=
  py "@@ -" ++ a ++ count_text c ++ py " +" ++ b ++ count_text d
  ++ py " @@" ++ rest.

(** A non-empty run of decimal digits. *)
Definition digits (s : str) : Prop := s <> [] /\ forallb isdigit s = true.

(** The text is no longer than [int] accepts. *)
Definition short (s : str) : Prop := (len s <= int_max_str_digits)%Z.

(** A run of digits that [int] converts. *)
Definition convertible (s : str) : Prop := digits s /\ short s.

(** An optional group that takes no part, or is convertible. *)
Definition convertible_opt (g : option str) : Prop :=
  match g with Some d => convertible d | None => True end.

(** Every number of the matched header is short enough for [int]. *)
Definition within_limit (m : HunkMatch) : Prop :=
  short (group1 m) /\ short (group3 m) /\
  match group2 m with Some d => short d | None => True end /\
  match group4 m with Some d => short d | None => True end.

(** Some number of the header is too long for [int]. *)
Definition over_limit (a : str) (c : option str) (b : str) (d : option str)
    : Prop :=
  ~ short a \/ ~ short b \/
  (exists x, c = Some x /\ ~ short x) \/ (exists x, d = Some x /\ ~ short x).

(** The loop over lines none of which is the last of the input. *)
Fixpoint scan_inner (st : ParserState) (ls : list str) : result ParserState :=
  match ls with
  | [] => Ok st
  | line :: rest => st' <- parse_line st line true ;; scan_inner st' rest
  end.

(** The text [s] holds the text [sep] somewhere. *)
Definition holds (sep s : str) : Prop :=
  exists u v, s = u ++ sep ++ v.

(** One turn of the loop, with what decided it. *)
Inductive advance (st : ParserState) (line : str) (more : bool)
    : ParserState -> Prop :=
| advance_file old new :
    file_header_pattern line = Some (old, new) ->
    advance st line more
      (mkParserState (save_file st) (Some (new_FileDiff old new)) None)
| advance_marker f f' :
    file_header_pattern line = None ->
    current_file st = Some f ->
    file_marker f line = Some f' ->
    advance st line more
      (mkParserState (file_diffs st) (Some f') (current_hunk st))
| advance_hunk f m :
    file_header_pattern line = None ->
    current_file st = Some f ->
    file_marker f line = None ->
    hunk_header_pattern line = Some m ->
    within_limit m ->
    advance st line more
      (mkParserState (file_diffs st)
         (Some (save_hunk f (current_hunk st)))
         (Some (mkDiffHunk (decimal_value (group1 m))
                  (count_value (group2 m)) (decimal_value (group3 m))
                  (count_value (group4 m)) (strip (group5 m)) [])))
| advance_content f h :
    file_header_pattern line = None ->
    current_file st = Some f ->
    file_marker f line = None ->
    hunk_header_pattern line = None ->
    current_hunk st = Some h ->
    advance st line more
      (mkParserState (file_diffs st)
         (Some (fst (content_line f h line more)))
         (Some (snd (content_line f h line more))))
| advance_skip :
    file_header_pattern line = None ->
    advance st line more st.

(** The line is a file header. *)
Definition is_file_header (line : str) : bool :=
  match file_header_pattern line with Some _ => true | None => false end.

(** The paths of a file are all set, and the path is the new path. *)
Definition paths_set (f : FileDiff) : Prop :=
  new_path f = Some (file_path f) /\ old_path f <> None /\ file_path f <> [].

(** The numbers [start], [start + 1], ... as many as [n]. *)
Definition run_from (start : Z) (n : nat) : list Z :=
  map (fun i => (start + Z.of_nat i)%Z) (seq 0 n).

(** The number a run of decimal digits stands for, read after [acc]. *)
Fixpoint uint_value (d : Decimal.uint) (acc : Z) : Z :=
  match d with
  | Decimal.Nil => acc
  | Decimal.D0 l => uint_value l (10 * acc)
  | Decimal.D1 l => uint_value l (10 * acc + 1)
  | Decimal.D2 l => uint_value l (10 * acc + 2)
  | Decimal.D3 l => uint_value l (10 * acc + 3)
  | Decimal.D4 l => uint_value l (10 * acc + 4)
  | Decimal.D5 l => uint_value l (10 * acc + 5)
  | Decimal.D6 l => uint_value l (10 * acc + 6)
  | Decimal.D7 l => uint_value l (10 * acc + 7)
  | Decimal.D8 l => uint_value l (10 * acc + 8)
  | Decimal.D9 l => uint_value l (10 * acc + 9)
  end%Z.

(** The line of text [_prepare_code_context] writes for a line of a hunk. *)
Definition line_text (l : ChangedLine) : str :=
  prefix_of (change_type l) ++ content l.

(** What the counters of the file become when the line is read. *)
Definition tick (f : FileDiff) (l : ChangedLine) : FileDiff :=
  match change_type l with
  | addition => add_additions f
  | deletion => add_deletions f
  | context => f
  end.

(** A line as the parser stores it when it reads text without line feed:
    the content holds no line feed, an addition has no original number, and
    the content of an addition does not start with [++], nor that of a
    deletion with [--]. *)
Definition clean_line (l : ChangedLine) : Prop :=
  ~ In newline (content l) /\
  match change_type l with
  | addition =>
      original_line_number l = None /\
      startswith (content l) (py "++") = false
  | deletion => startswith (content l) (py "--") = false
  | context => True
  end.

(** A hunk as the parser builds it from text without line feed: its four
    numbers are not negative and are written with no more digits than
    [int] accepts. *)
Definition clean_hunk (h : DiffHunk) : Prop :=
  ((0 <= old_start h /\ 0 <= old_count h /\
    0 <= new_start h /\ 0 <= new_count h)%Z /\
   short (str_of_int (old_start h)) /\ short (str_of_int (old_count h)) /\
   short (str_of_int (new_start h)) /\ short (str_of_int (new_count h))) /\
  strip (py " " ++ header h) = header h /\
  ~ In newline (header h) /\
  Forall clean_line (lines h) /\
  positioned h.

Definition clean_file (f : FileDiff) : Prop := Forall clean_hunk (hunks f).

(** The file and the hunk under construction once the lines that
    [_prepare_code_context] writes for the hunks [hs] have been read. *)
Fixpoint replay (f : FileDiff) (c : option DiffHunk) (hs : list DiffHunk)
    : FileDiff * option DiffHunk :=
  match hs with
  | [] => (f, c)
  | h :: rest => replay (fold_left tick (lines h) (save_hunk f c)) (Some h) rest
  end.

(** The number of lines of the given kind. *)
Definition count_kind (k : ChangeType) (ls : list ChangedLine) : Z :=
  Z.of_nat (length (filter (fun l => ChangeType_eqb (change_type l) k) ls)).

(** The file [f] with the hunks [hs] after its own and the counters moved
    on by the lines of [hs]. *)
Definition extended (f : FileDiff) (hs : list DiffHunk) : FileDiff :=
  mkFileDiff (file_path f) (old_path f) (new_path f) (is_new_file f)
    (is_deleted_file f) (is_renamed f) (language f) (hunks f ++ hs)
    (additions f + count_kind addition (flat_map lines hs))
    (deletions f + count_kind deletion (flat_map lines hs)).

(** The number of files whose language is [lang]. *)
Definition language_count (lang : str) (fds : list FileDiff) : Z :=
  Z.of_nat (length (filter
    (fun f => match language f with
              | Some l => str_eqb l lang
              | None => false
              end) fds)).

(** The last [n] elements of a list, all of them when it is shorter. *)
Definition lastn {A : Type} (n : nat) (l : list A) : list A :=
  skipn (length l - n) l.

(** The line is of the given kind. *)
Definition kind_is (k : ChangeType) (l : ChangedLine) : bool :=
  ChangeType_eqb (change_type l) k.

(** How severe a rating is: approve 0, comment 1, changes_requested 2,
    needs_work 3. *)
Definition rating_level (rating : str) : Z :=
  if str_eqb rating (py "needs_work") then 3
  else if str_eqb rating (py "changes_requested") then 2
  else if str_eqb rating (py "comment") then 1
  else 0.

(** The severity the summary reads off the finding is one of the five it
    counts. *)
Definition known_severity (x : Finding) : bool :=
  has_severity (py "critical") x || has_severity (py "high") x
  || has_severity (py "medium") x || has_severity (py "low") x
  || has_severity (py "info") x.

(* ===================================================================== *)
(** ** Sample inputs *)
(* ===================================================================== *)

Module Samples.

(** A rename with no [---] and [+++] lines. *)
Definition rename_diff : str := py "diff --git a/a.py b/b.py
rename from a.py
rename to b.py".

(** A [rename to] line that no [rename from] line precedes. *)
Definition rename_to_only_diff : str := py "diff --git a/a.py b/b.py
rename to b.py".

(** A [rename from] line that no [rename to] line follows. *)
Definition rename_from_only_diff : str := py "diff --git a/a.py b/b.py
rename from a.py".

(** A run of 4301 digits. *)
Definition long_number : str := repeat "1"%char (N.to_nat 4301).

(** A hunk header whose first number is that run. *)
Definition long_number_diff : str :=
  py "diff --git a/f.py b/f.py" ++ newline
  :: hunk_header_text long_number None (py "1") None [].

(** A file whose only hunk header leaves out both counts. *)
Definition bare_hunk_diff : str := py "diff --git a/f.py b/f.py
@@ -3 +5 @@   def foo():  
+x".

(** A hunk in which the three kinds of lines alternate. *)
Definition mixed_hunk_diff : str := py "diff --git a/f.py b/f.py
@@ -10,4 +20,5 @@ def f():
 a
+b
+c
-d
 e
-f
+g".

(** Text in front of the first file header. *)
Definition preamble : str := py "commit 1f3a
+++ not in a file
@@ -1 +1 @@".

Definition blank_text : str := [" "%char; newline; ascii_of_N 9; " "%char].

(** A file is open and so is a hunk that holds one context line. *)
Definition open_state : ParserState :=
  mkParserState []
    (Some (new_FileDiff (py "a.py") (py "a.py")))
    (Some (mkDiffHunk 10 2 20 3 []
             [mkChangedLine 20 (py "x = 1") context (Some 10%Z)])).

(** A file is open and so is a hunk that holds a context line, two
    additions and a deletion: three lines count on the new side and two on
    the old side. *)
Definition filled_hunk : DiffHunk :=
  mkDiffHunk 10 3 20 4 []
    [mkChangedLine 20 (py "x = 1") context (Some 10%Z);
     mkChangedLine 21 (py "y = 2") addition None;
     mkChangedLine 22 (py "z = 3") addition None;
     mkChangedLine 11 (py "w = 4") deletion (Some 11%Z)].

Definition filled_state : ParserState :=
  mkParserState [] (Some (new_FileDiff (py "a.py") (py "a.py")))
    (Some filled_hunk).

(** A finding whose severity is the given value, as [run] builds it. *)
Definition finding_of (sev : PyVal) : Finding :=
  finding_dict
    (mkAgentFinding (py "app.py") (VInt 2) VNone VNone (py "security")
       sev (VStr (py "issue")) (VStr (py "details")) VNone VNone
       (Some (py "Security Agent"))).

(** A finding of the given severity. *)
Definition finding (sev : string) : Finding := finding_of (VStr (py sev)).

(** The finding that [reporter] reports on a file. *)
Definition reported_on (path : str) (nm : string) (sev : PyVal) : Finding :=
  finding_dict
    (mkAgentFinding path VNone VNone VNone (py "logic") sev
       (VStr (py "issue")) (VStr (py "details")) VNone VNone (Some (py nm))).

(** An analyzer that reports one finding whose severity is the given value
    on the file it is given. *)
Definition reporter_of (nm : string) (sev : PyVal) : Agent :=
  BaseReviewAgent (py nm)
    (fun ctx =>
       Ok [mkAgentFinding (ctx_file_path ctx) VNone VNone VNone (py "logic")
             sev (VStr (py "issue")) (VStr (py "details")) VNone VNone
             (Some (py nm))]).

(** An analyzer that reports one finding of the given severity. *)
Definition reporter (nm sev : string) : Agent :=
  reporter_of nm (VStr (py sev)).

(** An analyzer whose finding has a list for severity. *)
Definition confused : Agent :=
  reporter_of "Confused" (VList [VStr (py "high"); VStr (py "low")]).

(** An analyzer whose [run] returns a finding that has a dictionary for
    category. *)
Definition vague : Agent :=
  mkAgent (py "Vague")
    (fun _ =>
       Ok (mkAgentResult (py "Vague")
             (Some [[(py "severity", VStr (py "low"));
                     (py "category", VDict [(py "kind", VStr (py "logic"))])]])
             None)).

(** An analyzer whose [run] raises. *)
Definition broken : Agent :=
  mkAgent (py "Broken") (fun _ => Raise (Exception (py "boom"))).

(** An analyzer derived from [BaseReviewAgent] whose [analyze] raises. *)
Definition flaky : Agent :=
  BaseReviewAgent (py "Flaky") (fun _ => Raise (Exception (py "timeout"))).

(** A changed file, a deleted file that still shows an added line, and a
    file with a deletion only. *)
Definition review_text : str := py "diff --git a/app.py b/app.py
@@ -1,2 +1,3 @@
 import os
+import subprocess
-x
diff --git a/old.py b/old.py
deleted file mode 100644
@@ -1 +1 @@
-gone
+odd
diff --git a/doc.md b/doc.md
@@ -1,2 +1 @@
 keep
-drop".

(** A completion order: the last submitted completes first. *)
Definition last_first : nat -> list AgentResult -> list AgentResult :=
  fun _ rs => rev rs.

End Samples.

(** Further sample values. *)
Module Cases.

Definition kept : ChangedLine :=
  mkChangedLine 1 (py "import os") context (Some 1%Z).
Definition added : ChangedLine :=
  mkChangedLine 2 (py "import subprocess") addition None.
Definition dropped : ChangedLine :=
  mkChangedLine 2 (py "x") deletion (Some 2%Z).

(** The first file of [Samples.review_text], as [parse] returns it. *)
Definition app_file : FileDiff :=
  mkFileDiff (py "app.py") (Some (py "app.py")) (Some (py "app.py"))
    false false false (Some (py "python"))
    [mkDiffHunk 1 2 1 3 [] [kept; added; dropped]] 1 1.

(** A client whose fetch of the diff fails. *)
Definition offline_client : PullRequestReview.GitHubClient :=
  PullRequestReview.mkGitHubClient
    (fun _ _ _ => Ok [(py "title", VStr (py "fix"))])
    (fun _ _ _ => Raise (Exception (py "404")))
    (fun _ _ _ _ => Ok []).

(** A client that fetches and is refused when it posts. *)
Definition read_only_client : PullRequestReview.GitHubClient :=
  PullRequestReview.mkGitHubClient
    (fun _ _ _ => Ok [(py "title", VStr (py "fix"))])
    (fun _ _ _ => Ok Samples.review_text)
    (fun _ _ _ _ => Raise (Exception (py "403"))).

(** A stand-in for the text of the comment. *)
Definition plain_format : ReviewResult -> result str :=
  fun _ => Ok (py "report").

End Cases.

(* ===================================================================== *)
(** ** Facts about strings *)
(* ===================================================================== *)

Section StringFacts.

Lemma str_eqb_eq (a b : str) : str_eqb a b = true <-> a = b.
Proof.
  unfold str_eqb. destruct (list_eq_dec ascii_dec a b); split; congruence.
Qed.

Lemma str_eqb_refl (a : str) : str_eqb a a = true.
Proof. now apply str_eqb_eq. Qed.

Lemma str_eqb_neq (a b : str) : a <> b -> str_eqb a b = false.
Proof.
  intro H. destruct (str_eqb a b) eqn:E; [|reflexivity].
  now apply str_eqb_eq in E.
Qed.

Lemma strip_prefix_app (p s : str) : strip_prefix p (p ++ s) = Some s.
Proof.
  induction p as [|a p IH]; simpl; [reflexivity|].
  now rewrite Ascii.eqb_refl.
Qed.

Lemma strip_prefix_Some (p s r : str) :
  strip_prefix p s = Some r -> s = p ++ r.
Proof.
  revert s; induction p as [|a p IH]; intros [|b s]; simpl; try congruence.
  destruct (Ascii.eqb a b) eqn:E; [|discriminate].
  apply Ascii.eqb_eq in E; subst. intro H. now rewrite (IH _ H).
Qed.

Lemma lstrip_blank (s : str) : lstrip s = [] <-> forallb isspace s = true.
Proof.
  induction s as [|c s IH]; simpl; [tauto|].
  destruct (isspace c); simpl; [exact IH|]. split; discriminate.
Qed.

Lemma lstrip_keeps (s : str) : lstrip s <> [] -> forallb isspace s = false.
Proof.
  intro H. destruct (forallb isspace s) eqn:E; [|reflexivity].
  now apply lstrip_blank in E.
Qed.

Lemma forallb_reverse (p : ascii -> bool) (s : str) :
  forallb p (rev s) = forallb p s.
Proof.
  induction s as [|c s IH]; simpl; [reflexivity|].
  rewrite forallb_app, IH. simpl. rewrite andb_true_r. apply andb_comm.
Qed.

Lemma lstrip_fixed (s : str) :
  forallb isspace (lstrip s) = true -> lstrip s = [].
Proof.
  induction s as [|c s IH]; simpl; [reflexivity|].
  destruct (isspace c) eqn:E; [exact IH|]. simpl. now rewrite E.
Qed.

Lemma strip_blank (s : str) : strip s = [] <-> forallb isspace s = true.
Proof.
  unfold strip, rstrip. split.
  - intro H. apply (f_equal (@rev ascii)) in H. rewrite rev_involutive in H.
    simpl in H. apply lstrip_blank in H. rewrite forallb_reverse in H.
    now apply lstrip_blank, lstrip_fixed.
  - intro H. apply lstrip_blank in H. rewrite H. reflexivity.
Qed.

Lemma split_lines_cons (s : str) : exists l ls, split_lines s = l :: ls.
Proof.
  induction s as [|c s (l & ls & E)]; simpl; [now eauto|].
  destruct (Ascii.eqb c newline); [now eauto|]. rewrite E. eauto.
Qed.

Lemma split_lines_app (a b : str) :
  split_lines (a ++ newline :: b) = split_lines a ++ split_lines b.
Proof.
  induction a as [|c a IH]; cbn [app split_lines].
  - now rewrite Ascii.eqb_refl.
  - destruct (Ascii.eqb c newline); rewrite IH; [reflexivity|].
    destruct (split_lines_cons a) as (l & ls & E). now rewrite E.
Qed.

Lemma split_lines_blank (s : str) :
  forallb isspace s = true ->
  Forall (fun l => forallb isspace l = true) (split_lines s).
Proof.
  induction s as [|c s IH]; simpl; intro H.
  - now repeat constructor.
  - apply andb_prop in H as [Hc Hs]. specialize (IH Hs).
    destruct (Ascii.eqb c newline); [now constructor|].
    destruct (split_lines s) as [|l ls];
      [now repeat constructor; simpl; rewrite Hc|].
    inversion IH; subst. constructor; [simpl; now rewrite Hc|assumption].
Qed.

Lemma span_digits_spec (s d r : str) :
  span_digits s = (d, r) -> forallb isdigit d = true /\ s = d ++ r.
Proof.
  revert d r; induction s as [|c s IH]; simpl; intros d r H.
  - inversion H; subst. now split.
  - destruct (isdigit c) eqn:Ec.
    + destruct (span_digits s) as [d' r'] eqn:E. inversion H; subst.
      destruct (IH _ _ eq_refl) as [Hd Hs]. simpl. rewrite Ec, Hd.
      split; [reflexivity|]. now rewrite Hs at 1.
    + inversion H; subst. now split.
Qed.

(** A run of digits followed by something that is no digit is split
    where the run ends. *)
Lemma span_digits_app (d r : str) :
  forallb isdigit d = true ->
  match r with c :: _ => isdigit c = false | [] => True end ->
  span_digits (d ++ r) = (d, r).
Proof.
  intros Hd Hr. induction d as [|c d IH]; simpl in *.
  - destruct r as [|c r]; [reflexivity|]. simpl. now rewrite Hr.
  - apply andb_prop in Hd as [Hc Hd]. rewrite Hc, (IH Hd). reflexivity.
Qed.

Lemma py_int_digits (s : str) :
  convertible s -> py_int s = Ok (decimal_value s).
Proof.
  intros [[Hne Hd] Hs]. unfold py_int. destruct s; [congruence|].
  rewrite Hd. unfold short, len in Hs. apply Z.leb_le in Hs. now rewrite Hs.
Qed.

(** What [int] returns is the decimal value of a short run of digits. *)
Lemma py_int_Ok (s : str) (n : Z) :
  py_int s = Ok n -> n = decimal_value s /\ convertible s.
Proof.
  unfold py_int. destruct s as [|c s]; [discriminate|].
  destruct (forallb isdigit (c :: s)) eqn:Hd; [|discriminate].
  destruct (Z.of_nat (length (c :: s)) <=? int_max_str_digits)%Z eqn:Hs;
    [|discriminate].
  injection 1 as <-. split; [reflexivity|]. split.
  - split; [discriminate|exact Hd].
  - now apply Z.leb_le in Hs.
Qed.

(** On a run of digits over the limit [int] raises. *)
Lemma py_int_long (s : str) :
  digits s -> ~ short s ->
  py_int s = Raise (ValueError (int_limit_message (length s))).
Proof.
  intros [Hne Hd] Hs. unfold py_int. destruct s; [congruence|].
  rewrite Hd. unfold short, len in Hs.
  destruct (Z.of_nat (length (a :: s)) <=? int_max_str_digits)%Z eqn:E;
    [|reflexivity].
  apply Z.leb_le in E. contradiction.
Qed.

Lemma short_dec (s : str) : short s \/ ~ short s.
Proof. unfold short. lia. Qed.

End StringFacts.

(* ===================================================================== *)
(** ** Facts about the parser *)
(* ===================================================================== *)

Section PatternFacts.

Lemma optional_count_digits (s r : str) (g : option str) :
  optional_count s = (g, r) ->
  match g with Some d => digits d | None => True end.
Proof.
  unfold optional_count. destruct s as [|c s]; [now inversion 1|].
  destruct (Ascii.eqb c ","); [|now inversion 1].
  destruct (span_digits s) as [[|x d] r'] eqn:E; inversion 1; subst; [exact I|].
  apply span_digits_spec in E as [Hd _]. now split.
Qed.

(** The numeric groups of a matched hunk header are runs of digits. *)
Lemma hunk_header_groups (line : str) (m : HunkMatch) :
  hunk_header_pattern line = Some m ->
  digits (group1 m) /\ digits (group3 m) /\
  match group2 m with Some d => digits d | None => True end /\
  match group4 m with Some d => digits d | None => True end.
Proof.
  unfold hunk_header_pattern.
  destruct (strip_prefix _ line) as [r1|]; [|discriminate].
  destruct (span_digits r1) as [[|a g1] r2] eqn:E1; [discriminate|].
  destruct (optional_count r2) as [g2 r3] eqn:E2.
  destruct (strip_prefix _ r3) as [r4|]; [|discriminate].
  destruct (span_digits r4) as [[|b g3] r5] eqn:E3; [discriminate|].
  destruct (optional_count r5) as [g4 r6] eqn:E4.
  destruct (strip_prefix _ r6) as [g5|]; [|discriminate].
  inversion 1; subst; simpl.
  apply span_digits_spec in E1 as [H1 _].
  apply span_digits_spec in E3 as [H3 _].
  apply optional_count_digits in E2. apply optional_count_digits in E4.
  repeat split; solve [discriminate | assumption].
Qed.

Lemma count_or_one_digits (g : option str) :
  convertible_opt g -> count_or_one g = Ok (count_value g).
Proof.
  destruct g as [d|]; [|reflexivity]. intro H.
  unfold count_or_one. destruct d as [|c d]; [now destruct H as [[? _] _]|].
  now apply py_int_digits.
Qed.

Lemma count_or_one_Ok (g : option str) (n : Z) :
  match g with Some d => digits d | None => True end ->
  count_or_one g = Ok n ->
  n = count_value g /\ match g with Some d => short d | None => True end.
Proof.
  destruct g as [d|]; [|now injection 2 as <-]. intros [Hne _].
  unfold count_or_one. destruct d as [|c d]; [congruence|].
  intro H. apply py_int_Ok in H as [-> [_ Hs]]. now split.
Qed.

Lemma count_or_one_long (g : option str) (x : str) :
  g = Some x -> digits x -> ~ short x ->
  count_or_one g = Raise (ValueError (int_limit_message (length x))).
Proof.
  intros -> Hd Hs. unfold count_or_one.
  destruct x as [|c x]; [now destruct Hd|]. now apply py_int_long.
Qed.

(** The conversions of a matched header whose numbers are short do not
    raise. *)
Lemma open_hunk_matched (line : str) (m : HunkMatch) :
  hunk_header_pattern line = Some m -> within_limit m ->
  open_hunk m =
  Ok (mkDiffHunk (decimal_value (group1 m)) (count_value (group2 m))
        (decimal_value (group3 m)) (count_value (group4 m))
        (strip (group5 m)) []).
Proof.
  intros H (S1 & S3 & S2 & S4).
  apply hunk_header_groups in H as (H1 & H3 & H2 & H4).
  unfold open_hunk.
  rewrite (py_int_digits _ (conj H1 S1)), (py_int_digits _ (conj H3 S3)).
  cbn [bind].
  rewrite (count_or_one_digits (group2 m)). 2:{ now destruct (group2 m). }
  cbn [bind].
  rewrite (count_or_one_digits (group4 m)). 2:{ now destruct (group4 m). }
  reflexivity.
Qed.

(** When the conversions of a matched header return, its numbers are short
    and the hunk opened carries their values. *)
Lemma open_hunk_Ok (line : str) (m : HunkMatch) (h : DiffHunk) :
  hunk_header_pattern line = Some m -> open_hunk m = Ok h ->
  within_limit m /\
  h = mkDiffHunk (decimal_value (group1 m)) (count_value (group2 m))
        (decimal_value (group3 m)) (count_value (group4 m))
        (strip (group5 m)) [].
Proof.
  intros H E. apply hunk_header_groups in H as (H1 & H3 & H2 & H4).
  unfold open_hunk in E.
  destruct (py_int (group1 m)) as [a|e] eqn:E1; [|discriminate].
  cbn [bind] in E.
  destruct (count_or_one (group2 m)) as [c|e] eqn:E2; [|discriminate].
  cbn [bind] in E.
  destruct (py_int (group3 m)) as [b|e] eqn:E3; [|discriminate].
  cbn [bind] in E.
  destruct (count_or_one (group4 m)) as [d|e] eqn:E4; [|discriminate].
  cbn [bind] in E. injection E as <-.
  apply py_int_Ok in E1 as [-> [_ S1]]. apply py_int_Ok in E3 as [-> [_ S3]].
  apply (count_or_one_Ok _ _ H2) in E2 as [-> S2].
  apply (count_or_one_Ok _ _ H4) in E4 as [-> S4].
  now repeat split.
Qed.

(** When a number of a matched header is too long, the conversions raise
    the error of [int] on a run over the limit. *)
Lemma open_hunk_long (line : str) (m : HunkMatch) :
  hunk_header_pattern line = Some m -> ~ within_limit m ->
  exists n, (int_max_str_digits < Z.of_nat n)%Z /\
    open_hunk m = Raise (ValueError (int_limit_message n)).
Proof.
  intros H Hn. apply hunk_header_groups in H as (H1 & H3 & H2 & H4).
  unfold open_hunk.
  destruct (short_dec (group1 m)) as [S1|S1].
  2:{ exists (length (group1 m)). rewrite (py_int_long _ H1 S1).
      split; [unfold short, len in S1; lia|reflexivity]. }
  rewrite (py_int_digits _ (conj H1 S1)). cbn [bind].
  destruct (group2 m) as [c|] eqn:G2.
  - destruct (short_dec c) as [S2|S2].
    2:{ exists (length c). rewrite (count_or_one_long _ c eq_refl H2 S2).
        split; [unfold short, len in S2; lia|reflexivity]. }
    rewrite (count_or_one_digits (Some c) (conj H2 S2)). cbn [bind].
    destruct (short_dec (group3 m)) as [S3|S3].
    2:{ exists (length (group3 m)). rewrite (py_int_long _ H3 S3).
        split; [unfold short, len in S3; lia|reflexivity]. }
    rewrite (py_int_digits _ (conj H3 S3)). cbn [bind].
    destruct (group4 m) as [d|] eqn:G4.
    + destruct (short_dec d) as [S4|S4].
      2:{ exists (length d). rewrite (count_or_one_long _ d eq_refl H4 S4).
          split; [unfold short, len in S4; lia|reflexivity]. }
      exfalso. apply Hn. unfold within_limit. rewrite G2, G4. tauto.
    + exfalso. apply Hn. unfold within_limit. rewrite G2, G4. tauto.
  - cbn [count_or_one bind].
    destruct (short_dec (group3 m)) as [S3|S3].
    2:{ exists (length (group3 m)). rewrite (py_int_long _ H3 S3).
        split; [unfold short, len in S3; lia|reflexivity]. }
    rewrite (py_int_digits _ (conj H3 S3)). cbn [bind].
    destruct (group4 m) as [d|] eqn:G4.
    + destruct (short_dec d) as [S4|S4].
      2:{ exists (length d). rewrite (count_or_one_long _ d eq_refl H4 S4).
          split; [unfold short, len in S4; lia|reflexivity]. }
      exfalso. apply Hn. unfold within_limit. rewrite G2, G4. tauto.
    + exfalso. apply Hn. unfold within_limit. rewrite G2, G4. tauto.
Qed.

Lemma within_limit_dec (m : HunkMatch) : within_limit m \/ ~ within_limit m.
Proof.
  unfold within_limit.
  destruct (short_dec (group1 m)), (short_dec (group3 m)); try tauto.
  destruct (group2 m) as [c|], (group4 m) as [d|]; try tauto.
  - destruct (short_dec c), (short_dec d); tauto.
  - destruct (short_dec c); tauto.
  - destruct (short_dec d); tauto.
Qed.

End PatternFacts.

Section ScanFacts.

Lemma hunk_or_content_turn (st : ParserState) (line : str) (more : bool)
    (st' : ParserState) :
  hunk_or_content st line more = Ok st' -> turn st line more st'.
Proof.
  unfold hunk_or_content.
  destruct (hunk_header_pattern line) as [m|] eqn:Em;
    destruct (current_file st) as [f|] eqn:Ef.
  - destruct (open_hunk m) as [h|e] eqn:Eo; [|discriminate].
    cbn [bind]. injection 1 as <-.
    apply (open_hunk_Ok _ _ _ Em) in Eo as [_ ->]. now apply turn_hunk.
  - destruct (current_hunk st); injection 1 as <-; apply turn_skip.
  - destruct (current_hunk st) as [h|] eqn:Eh.
    + destruct (content_line f h line more) as [f' h'] eqn:Ec.
      injection 1 as <-.
      replace f' with (fst (content_line f h line more)) by now rewrite Ec.
      replace h' with (snd (content_line f h line more)) by now rewrite Ec.
      now apply turn_content.
    + injection 1 as <-. apply turn_skip.
  - destruct (current_hunk st); injection 1 as <-; apply turn_skip.
Qed.

(** A turn that does not raise goes one of the five ways. *)
Lemma parse_line_turn (st : ParserState) (line : str) (more : bool)
    (st' : ParserState) :
  parse_line st line more = Ok st' -> turn st line more st'.
Proof.
  unfold parse_line.
  destruct (file_header_pattern line) as [[old new]|] eqn:Eh.
  - injection 1 as <-. now apply turn_file.
  - destruct (current_file st) as [f|] eqn:Ef;
      [|apply hunk_or_content_turn].
    destruct (file_marker f line) as [f'|] eqn:Em;
      [|apply hunk_or_content_turn].
    injection 1 as <-. now apply turn_marker with f.
Qed.

(** A property kept by every turn holds when the loop ends. *)
Lemma scan_keeps (P : ParserState -> Prop) :
  (forall st line more st', P st -> turn st line more st' -> P st') ->
  forall ls st st', P st -> scan st ls = Ok st' -> P st'.
Proof.
  intros Hstep ls. induction ls as [|line rest IH]; intros st st' HP;
    cbn [scan].
  - now injection 1 as <-.
  - destruct (parse_line st line _) as [st1|e] eqn:E; [|discriminate].
    cbn [bind]. apply IH. apply parse_line_turn in E.
    exact (Hstep _ _ _ _ HP E).
Qed.

Lemma parse_keeps (P : ParserState -> Prop) (R : list FileDiff -> Prop) :
  (forall st line more st', P st -> turn st line more st' -> P st') ->
  P initial_state ->
  (forall st, P st -> R (save_file st)) ->
  R [] ->
  forall text fds, parse text = Ok fds -> R fds.
Proof.
  intros Hstep H0 Hend Hnil text fds. unfold parse.
  destruct text as [|c text]; [now injection 1 as <-|].
  destruct (strip (c :: text)); [now injection 1 as <-|].
  destruct (scan initial_state (split_lines (c :: text))) as [st|e] eqn:E;
    [|discriminate].
  cbn [bind]. injection 1 as <-. apply Hend.
  exact (scan_keeps P Hstep _ _ _ H0 E).
Qed.

End ScanFacts.

Section ContentFacts.

(** The two counts of the content branches give the positions. *)
Lemma count_new_side_position (h : DiffHunk) (ls : list ChangedLine) :
  (new_start h + count_new_side ls)%Z = new_position h ls.
Proof.
  unfold count_new_side, new_position, len. do 3 f_equal.
  apply filter_ext. intro l. unfold on_new_side.
  now destruct (change_type l).
Qed.

Lemma count_old_side_position (h : DiffHunk) (ls : list ChangedLine) :
  (old_start h + count_old_side ls)%Z = old_position h ls.
Proof.
  unfold count_old_side, old_position, len. do 3 f_equal.
  apply filter_ext. intro l. unfold on_old_side.
  now destruct (change_type l).
Qed.

Variables (f : FileDiff) (h : DiffHunk) (line : str) (more : bool).

(** What the content branches do with a line: it is appended as an
    addition, a deletion or a context line, numbered from the lines
    already in the hunk and stored without its first character, or it is
    dropped. *)
Lemma content_line_cases :
  (exists l, content_line f h line more = (add_additions f, append_line h l)
     /\ change_type l = addition /\ original_line_number l = None
     /\ content l = tail1 line /\ numbered h (lines h) l)
  \/ (exists l, content_line f h line more = (add_deletions f, append_line h l)
     /\ change_type l = deletion
     /\ content l = tail1 line /\ numbered h (lines h) l)
  \/ (exists l, content_line f h line more = (f, append_line h l)
     /\ change_type l = context
     /\ content l = tail1 line /\ numbered h (lines h) l)
  \/ content_line f h line more = (f, h).
Proof.
  unfold content_line.
  rewrite count_new_side_position, count_old_side_position.
  destruct (startswith line (py "+") && negb (startswith line (py "+++"))).
  { left. eexists; split; [reflexivity|]. unfold numbered; cbn. auto. }
  destruct (startswith line (py "-") && negb (startswith line (py "---"))).
  { right; left. eexists; split; [reflexivity|]. unfold numbered; cbn. auto. }
  destruct (startswith line (py " ")) eqn:Es; cbn [orb].
  { right; right; left. eexists; split; [reflexivity|].
    unfold numbered; cbn. auto. }
  destruct (str_eqb line [] && more) eqn:Ee.
  { right; right; left. eexists; split; [reflexivity|].
    apply andb_prop in Ee as [Ee _]. apply str_eqb_eq in Ee. subst line.
    unfold numbered; cbn. auto. }
  now right; right; right.
Qed.

End ContentFacts.

Section FileInvariant.

(** A property of files that every turn of the loop keeps for the file
    being built holds of every file [parse] returns. *)
Variable Q : FileDiff -> Prop.

Hypothesis Q_new : forall old new, Q (new_FileDiff old new).
Hypothesis Q_marker : forall f f' line h,
  file_marker f line = Some f' -> Q (save_hunk f h) -> Q (save_hunk f' h).
Hypothesis Q_hunk : forall f h0 h,
  lines h = [] -> Q (save_hunk f h0) ->
  Q (save_hunk (save_hunk f h0) (Some h)).
Hypothesis Q_content : forall f h line more,
  Q (save_hunk f (Some h)) ->
  Q (save_hunk (fst (content_line f h line more))
               (Some (snd (content_line f h line more)))).

Lemma turn_keeps (st : ParserState) (line : str) (more : bool)
    (st' : ParserState) :
  Forall Q (save_file st) -> turn st line more st' -> Forall Q (save_file st').
Proof.
  intros H T. destruct T as [old new _|f f' Ef Em|f h Ef Eh|f h Ef Eh|];
    unfold save_file in *; simpl; try rewrite Ef in H; try assumption.
  - apply Forall_app; split; [|now repeat constructor].
    destruct (current_file st); assumption.
  - apply Forall_app in H as [H1 H2]. apply Forall_app; split; [assumption|].
    inversion H2; subst. constructor; [|constructor].
    now apply Q_marker with f line.
  - apply Forall_app in H as [H1 H2]. apply Forall_app; split; [assumption|].
    inversion H2; subst. constructor; [|constructor]. now apply Q_hunk.
  - rewrite Eh in H.
    apply Forall_app in H as [H1 H2]. apply Forall_app; split; [assumption|].
    inversion H2; subst. constructor; [|constructor]. now apply Q_content.
Qed.

Lemma parse_all (text : str) (fds : list FileDiff) :
  parse text = Ok fds -> Forall Q fds.
Proof.
  apply parse_keeps with (P := fun st => Forall Q (save_file st)).
  - intros st line more st'. apply turn_keeps.
  - constructor.
  - auto.
  - constructor.
Qed.

End FileInvariant.

Section SavedFile.

Lemma hunks_save_hunk (f : FileDiff) (h : option DiffHunk) :
  hunks (save_hunk f h) =
  hunks f ++ match h with Some k => [k] | None => [] end.
Proof. destruct h; simpl; [reflexivity|now rewrite app_nil_r]. Qed.

Lemma additions_save_hunk (f : FileDiff) (h : option DiffHunk) :
  additions (save_hunk f h) = additions f.
Proof. now destruct h. Qed.

Lemma deletions_save_hunk (f : FileDiff) (h : option DiffHunk) :
  deletions (save_hunk f h) = deletions f.
Proof. now destruct h. Qed.

(** The markers leave the hunks and the counters of the file alone. *)
Lemma file_marker_keeps (f f' : FileDiff) (line : str) :
  file_marker f line = Some f' ->
  hunks f' = hunks f /\ additions f' = additions f /\
  deletions f' = deletions f.
Proof.
  unfold file_marker.
  destruct (new_file_mode_pattern line); [now inversion 1|].
  destruct (deleted_file_mode_pattern line); [now inversion 1|].
  destruct (rename_from_pattern line); [now inversion 1|].
  destruct (rename_to_pattern line); [now inversion 1|discriminate].
Qed.

(** [counted] looks at the hunks and the two counters only. *)
Lemma counted_same (f g : FileDiff) :
  hunks g = hunks f -> additions g = additions f ->
  deletions g = deletions f -> counted f -> counted g.
Proof.
  unfold counted, get_additions, get_deletions, get_all_changed_lines.
  intros -> -> ->. exact (fun H => H).
Qed.

End SavedFile.

Ltac saved :=
  rewrite ?hunks_save_hunk, ?additions_save_hunk, ?deletions_save_hunk.

Section Counters.

Lemma counted_new (old new : str) : counted (new_FileDiff old new).
Proof. now split. Qed.

Lemma counted_marker (f f' : FileDiff) (line : str) (h : option DiffHunk) :
  file_marker f line = Some f' ->
  counted (save_hunk f h) -> counted (save_hunk f' h).
Proof.
  intros Hm. apply file_marker_keeps in Hm as (Hh & Ha & Hd).
  apply counted_same; saved; congruence.
Qed.

Lemma counted_hunk (f : FileDiff) (h0 : option DiffHunk) (h : DiffHunk) :
  lines h = [] -> counted (save_hunk f h0) ->
  counted (save_hunk (save_hunk f h0) (Some h)).
Proof.
  intros Hl. unfold counted, get_additions, get_deletions,
    get_all_changed_lines. saved.
  rewrite !flat_map_app. cbn. rewrite Hl. cbn. now rewrite !app_nil_r.
Qed.

Lemma counted_content (f : FileDiff) (h : DiffHunk) (line : str)
    (more : bool) :
  counted (save_hunk f (Some h)) ->
  counted (save_hunk (fst (content_line f h line more))
                     (Some (snd (content_line f h line more)))).
Proof.
  destruct (content_line_cases f h line more)
    as [(l & E & Hk & _)|[(l & E & Hk & _)|[(l & E & Hk & _)|E]]];
    rewrite E; simpl fst; simpl snd; [| | |exact (fun H => H)];
    unfold counted, get_additions, get_deletions, get_all_changed_lines;
    cbn; rewrite !flat_map_app; cbn; rewrite !app_nil_r;
    rewrite !filter_app, !length_app; cbn; rewrite Hk; cbn; lia.
Qed.

(** Every file [parse] returns is [counted]. *)
Lemma parse_counted (text : str) (fds : list FileDiff) :
  parse text = Ok fds -> Forall counted fds.
Proof.
  apply parse_all.
  - exact counted_new.
  - exact counted_marker.
  - exact counted_hunk.
  - exact counted_content.
Qed.

End Counters.

Section Positions.

Lemma positioned_empty (h : DiffHunk) : lines h = [] -> positioned h.
Proof.
  intros Hl before l after E. rewrite Hl in E.
  destruct before; discriminate.
Qed.

(** Appending a line that is numbered from the lines before it keeps the
    hunk positioned. *)
Lemma positioned_append (h : DiffHunk) (l : ChangedLine) :
  positioned h -> numbered h (lines h) l -> positioned (append_line h l).
Proof.
  intros Hp Hn before x after E. simpl in E.
  assert (G : numbered h before x); [|exact G].
  destruct after as [|a0 after0].
  - apply app_inj_tail in E as [E1 E2]. subst x. rewrite <- E1. exact Hn.
  - destruct (@exists_last _ (a0 :: after0)) as (after' & y & Ey);
      [discriminate|].
    rewrite Ey in E.
    change (before ++ x :: after' ++ [y])
      with (before ++ (x :: after') ++ [y]) in E.
    rewrite app_assoc in E. apply app_inj_tail in E as [E _].
    now apply Hp with after'.
Qed.

Lemma positioned_new (old new : str) : all_positioned (new_FileDiff old new).
Proof. constructor. Qed.

Lemma positioned_marker (f f' : FileDiff) (line : str)
    (h : option DiffHunk) :
  file_marker f line = Some f' ->
  all_positioned (save_hunk f h) -> all_positioned (save_hunk f' h).
Proof.
  intros Hm. apply file_marker_keeps in Hm as (Hh & _).
  unfold all_positioned. saved. now rewrite Hh.
Qed.

Lemma positioned_hunk (f : FileDiff) (h0 : option DiffHunk) (h : DiffHunk) :
  lines h = [] -> all_positioned (save_hunk f h0) ->
  all_positioned (save_hunk (save_hunk f h0) (Some h)).
Proof.
  intros Hl H. unfold all_positioned in *.
  rewrite (hunks_save_hunk (save_hunk f h0) (Some h)).
  apply Forall_app; split; [assumption|].
  constructor; [now apply positioned_empty|constructor].
Qed.

Lemma positioned_content (f : FileDiff) (h : DiffHunk) (line : str)
    (more : bool) :
  all_positioned (save_hunk f (Some h)) ->
  all_positioned (save_hunk (fst (content_line f h line more))
                            (Some (snd (content_line f h line more)))).
Proof.
  unfold all_positioned.
  destruct (content_line_cases f h line more)
    as [(l & E & _ & _ & _ & Hn)|[(l & E & _ & _ & Hn)
       |[(l & E & _ & _ & Hn)|E]]];
    rewrite E; simpl fst; simpl snd; [| | |exact (fun H => H)];
    simpl; intro H; apply Forall_app in H as [H1 H2];
    apply Forall_app; (split; [assumption|]);
    inversion H2; subst; (constructor; [|constructor]);
    now apply positioned_append.
Qed.

(** Every hunk of every file [parse] returns is [positioned]. *)
Lemma parse_positioned (text : str) (fds : list FileDiff) :
  parse text = Ok fds -> Forall all_positioned fds.
Proof.
  apply parse_all.
  - exact positioned_new.
  - exact positioned_marker.
  - exact positioned_hunk.
  - exact positioned_content.
Qed.

End Positions.

Section LineShapes.

Variables (st : ParserState) (f : FileDiff).
Hypothesis file_open : current_file st = Some f.

(** A line that is neither a header nor a marker reaches the content
    branches when a hunk is open. *)
Lemma parse_line_content (h : DiffHunk) (line : str) (more : bool) :
  current_hunk st = Some h ->
  file_header_pattern line = None ->
  file_marker f line = None ->
  hunk_header_pattern line = None ->
  parse_line st line more =
  Ok (mkParserState (file_diffs st)
        (Some (fst (content_line f h line more)))
        (Some (snd (content_line f h line more)))).
Proof.
  intros Eh E1 E2 E3. unfold parse_line, hunk_or_content.
  rewrite E1, file_open, E2, E3, Eh.
  now destruct (content_line f h line more).
Qed.

Lemma startswith_char (line : str) (c : ascii) :
  startswith line [c] = true -> exists rest, line = c :: rest.
Proof.
  unfold startswith. destruct (strip_prefix [c] line) as [r|] eqn:E;
    [|discriminate].
  apply strip_prefix_Some in E. now exists r.
Qed.

(** A line that starts with [+], [-] or a blank, or is empty, matches
    none of the patterns. *)
Lemma content_shape (line : str) :
  startswith line (py "+") = true \/ startswith line (py "-") = true \/
  startswith line (py " ") = true \/ line = [] ->
  file_header_pattern line = None /\ file_marker f line = None /\
  hunk_header_pattern line = None.
Proof.
  intros [H|[H|[H|H]]]; try (apply startswith_char in H as [rest H]);
    subst line; repeat split; reflexivity.
Qed.

(** The [rename from] line. *)
Lemma parse_line_rename_from (p : str) (more : bool) :
  p <> [] ->
  parse_line st (py "rename from " ++ p) more =
  Ok (mkParserState (file_diffs st) (Some (set_rename_from f p))
        (current_hunk st)).
Proof.
  intro Hp. unfold parse_line. rewrite file_open.
  change (file_header_pattern (py "rename from " ++ p)) with
    (@None (str * str)).
  unfold file_marker.
  change (new_file_mode_pattern (py "rename from " ++ p)) with false.
  change (deleted_file_mode_pattern (py "rename from " ++ p)) with false.
  unfold rename_from_pattern, prefix_then_some.
  rewrite strip_prefix_app. destruct p; [congruence|reflexivity].
Qed.

(** The [rename to] line. *)
Lemma parse_line_rename_to (p : str) (more : bool) :
  p <> [] ->
  parse_line st (py "rename to " ++ p) more =
  Ok (mkParserState (file_diffs st) (Some (set_rename_to f p))
        (current_hunk st)).
Proof.
  intro Hp. unfold parse_line. rewrite file_open.
  change (file_header_pattern (py "rename to " ++ p)) with
    (@None (str * str)).
  unfold file_marker.
  change (new_file_mode_pattern (py "rename to " ++ p)) with false.
  change (deleted_file_mode_pattern (py "rename to " ++ p)) with false.
  change (rename_from_pattern (py "rename to " ++ p)) with (@None str).
  unfold rename_to_pattern, prefix_then_some.
  rewrite strip_prefix_app. destruct p; [congruence|reflexivity].
Qed.

End LineShapes.

Section HunkHeaders.

Lemma optional_count_text (g : option str) (r : str) :
  match g with Some d => digits d | None => True end ->
  match r with c :: _ => Ascii.eqb c "," = false /\ isdigit c = false
             | [] => True end ->
  optional_count (count_text g ++ r) = (g, r).
Proof.
  intros Hg Hr. destruct g as [d|]; simpl.
  - destruct Hg as [Hne Hd].
    rewrite span_digits_app; [|assumption|destruct r; tauto].
    destruct d; [congruence|reflexivity].
  - destruct r as [|c r]; [reflexivity|]. simpl. destruct Hr as [Hr _].
    now rewrite Hr.
Qed.

(** The pattern reads a written header back into its groups. *)
Lemma hunk_header_pattern_text (a b rest : str) (c d : option str) :
  digits a -> digits b ->
  match c with Some x => digits x | None => True end ->
  match d with Some x => digits x | None => True end ->
  hunk_header_pattern (hunk_header_text a c b d rest) =
  Some (mkHunkMatch a c b d rest).
Proof.
  intros [Ha Da] [Hb Db] Hc Hd. unfold hunk_header_pattern, hunk_header_text.
  rewrite strip_prefix_app.
  rewrite span_digits_app; [|assumption|now destruct c].
  destruct a as [|a0 a]; [congruence|].
  rewrite optional_count_text; [|assumption|now split].
  rewrite strip_prefix_app.
  rewrite span_digits_app; [|assumption|now destruct d].
  destruct b as [|b0 b]; [congruence|].
  rewrite optional_count_text; [|assumption|now split].
  now rewrite strip_prefix_app.
Qed.

Lemma convertible_opt_digits (g : option str) :
  convertible_opt g -> match g with Some x => digits x | None => True end.
Proof. destruct g; [now intros [H _]|trivial]. Qed.

Lemma convertible_opt_short (g : option str) :
  convertible_opt g -> match g with Some x => short x | None => True end.
Proof. destruct g; [now intros [_ H]|trivial]. Qed.

(** A written header is such a line as reaches the test for a hunk
    header, while a file is open. *)
Lemma parse_line_header_text (st : ParserState) (f : FileDiff)
    (a b rest : str) (c d : option str) (more : bool) :
  current_file st = Some f ->
  digits a -> digits b ->
  match c with Some x => digits x | None => True end ->
  match d with Some x => digits x | None => True end ->
  parse_line st (hunk_header_text a c b d rest) more =
  (h <- open_hunk (mkHunkMatch a c b d rest) ;;
   Ok (mkParserState (file_diffs st)
         (Some (save_hunk f (current_hunk st))) (Some h))).
Proof.
  intros Ef Ha Hb Hc Hd.
  pose proof (@hunk_header_pattern_text a b rest c d Ha Hb Hc Hd) as Hm.
  unfold parse_line, hunk_or_content. rewrite Ef, Hm.
  change (file_header_pattern (hunk_header_text a c b d rest)) with
    (@None (str * str)).
  change (file_marker f (hunk_header_text a c b d rest)) with
    (@None FileDiff).
  reflexivity.
Qed.

(** The turn of the loop on a written header whose numbers are short,
    while a file is open. *)
Lemma parse_line_hunk_header (st : ParserState) (f : FileDiff)
    (a b rest : str) (c d : option str) (more : bool) :
  current_file st = Some f ->
  convertible a -> convertible b -> convertible_opt c -> convertible_opt d ->
  parse_line st (hunk_header_text a c b d rest) more =
  Ok (mkParserState (file_diffs st)
        (Some (save_hunk f (current_hunk st)))
        (Some (mkDiffHunk (decimal_value a) (count_value c)
                 (decimal_value b) (count_value d) (strip rest) []))).
Proof.
  intros Ef [Ha Sa] [Hb Sb] Hc Hd.
  pose proof (convertible_opt_digits _ Hc) as Dc.
  pose proof (convertible_opt_digits _ Hd) as Dd.
  rewrite (parse_line_header_text st f a b rest c d more Ef Ha Hb Dc Dd).
  rewrite (open_hunk_matched (hunk_header_text a c b d rest)).
  - reflexivity.
  - now apply hunk_header_pattern_text.
  - repeat split; cbn [group1 group2 group3 group4]; try assumption;
      now apply convertible_opt_short.
Qed.

End HunkHeaders.

Section BeforeFirstHeader.

(** With no file open, a line that is no file header changes nothing. *)
Lemma parse_line_no_file (st : ParserState) (line : str) (more : bool) :
  current_file st = None -> file_header_pattern line = None ->
  parse_line st line more = Ok st.
Proof.
  intros Ef Eh. unfold parse_line, hunk_or_content. rewrite Eh, Ef.
  destruct (hunk_header_pattern line); now destruct (current_hunk st).
Qed.

Lemma scan_headerless (ls rest : list str) (st : ParserState) :
  current_file st = None -> headerless ls ->
  scan st (ls ++ rest) = scan st rest.
Proof.
  intros Ef H. induction H as [|l ls Hl _ IH]; [reflexivity|].
  cbn [app scan]. now rewrite (parse_line_no_file _ _ _ Ef Hl).
Qed.

Lemma blank_headerless (ls : list str) :
  Forall (fun l => forallb isspace l = true) ls -> headerless ls.
Proof.
  apply Forall_impl. intros [|c l] H; [reflexivity|].
  simpl in H. apply andb_prop in H as [Hc _].
  unfold file_header_pattern. cbn [py list_ascii_of_string strip_prefix].
  destruct (Ascii.eqb "d" c) eqn:E; [|reflexivity].
  apply Ascii.eqb_eq in E. subst c. discriminate.
Qed.

(** [parse] with its two early returns read as one test. *)
Lemma parse_unfold (text : str) :
  parse text =
  if forallb isspace text then Ok []
  else st <- scan initial_state (split_lines text) ;; Ok (save_file st).
Proof.
  unfold parse. destruct text as [|c text]; [reflexivity|].
  destruct (strip (c :: text)) as [|x s] eqn:E.
  - apply strip_blank in E. now rewrite E.
  - destruct (forallb isspace (c :: text)) eqn:B; [|reflexivity].
    apply strip_blank in B. congruence.
Qed.

Lemma parse_blank (text : str) :
  forallb isspace text = true -> parse text = Ok [].
Proof. intro H. now rewrite parse_unfold, H. Qed.

Lemma parse_skips_prefix (before rest : str) :
  headerless (split_lines before) ->
  parse (before ++ newline :: rest) = parse rest.
Proof.
  intro H. rewrite !parse_unfold, split_lines_app.
  rewrite (scan_headerless _ _ initial_state eq_refl H).
  destruct (forallb isspace rest) eqn:Br.
  - destruct (forallb isspace (before ++ newline :: rest)); [reflexivity|].
    pose proof (blank_headerless _ (split_lines_blank _ Br)) as Hr.
    rewrite <- (app_nil_r (split_lines rest)).
    now rewrite (scan_headerless _ _ initial_state eq_refl Hr).
  - rewrite forallb_app. cbn [forallb]. rewrite Br.
    now rewrite !andb_false_r.
Qed.

End BeforeFirstHeader.

(* ===================================================================== *)
(** ** Properties of the parser *)
(* ===================================================================== *)

(** C2.  While a hunk is open, a line made of [+] and a text that does
    not start with [++] is appended as an addition whose number is the
    hunk's new start plus the number of additions and context lines already
    in the hunk; a line made of [-] and a text that does not start with
    [--] is appended as a deletion whose number, also kept as its original
    number, is the hunk's old start plus the number of deletions and
    context lines already in the hunk; a line made of a blank and a text,
    or an empty line that is not the last one, is appended as a context
    line that carries both numbers.  The stored content is the text after
    the marker.  As a result every line of every hunk that [parse] returns
    carries the numbers its place in the hunk calls for. *)
Theorem hunk_line_positions (text : str) (fds : list FileDiff)
    (st : ParserState) (f : FileDiff) (h : DiffHunk) (body : str)
    (more : bool) :
  (parse text = Ok fds ->
   Forall (fun fd =>
     Forall (fun hk =>
       forall before l after,
         lines hk = before ++ l :: after ->
         match change_type l with
         | addition =>
             line_number l =
               (new_start hk + len (filter on_new_side before))%Z
         | deletion =>
             line_number l =
               (old_start hk + len (filter on_old_side before))%Z /\
             original_line_number l =
               Some (old_start hk + len (filter on_old_side before))%Z
         | context =>
             line_number l =
               (new_start hk + len (filter on_new_side before))%Z /\
             original_line_number l =
               Some (old_start hk + len (filter on_old_side before))%Z
         end) (hunks fd)) fds) /\
  (current_file st = Some f -> current_hunk st = Some h ->
   let appended l :=
     Some (mkDiffHunk (old_start h) (old_count h) (new_start h)
             (new_count h) (header h) (lines h ++ [l])) in
   let new_number := (new_start h + len (filter on_new_side (lines h)))%Z in
   let old_number := (old_start h + len (filter on_old_side (lines h)))%Z in
   (startswith body (py "++") = false ->
    exists f',
      parse_line st (py "+" ++ body) more =
      Ok (mkParserState (file_diffs st) (Some f')
            (appended (mkChangedLine new_number body addition None)))) /\
   (startswith body (py "--") = false ->
    exists f',
      parse_line st (py "-" ++ body) more =
      Ok (mkParserState (file_diffs st) (Some f')
            (appended (mkChangedLine old_number body deletion
                         (Some old_number))))) /\
   parse_line st (py " " ++ body) more =
     Ok (mkParserState (file_diffs st) (Some f)
           (appended (mkChangedLine new_number body context
                        (Some old_number)))) /\
   parse_line st [] true =
     Ok (mkParserState (file_diffs st) (Some f)
           (appended (mkChangedLine new_number [] context
                        (Some old_number))))).
Proof.
  split.
  - intro E. exact (parse_positioned text fds E).
  - intros Ef Eh appended new_number old_number.
    assert (G : forall line,
              startswith line (py "+") = true \/
              startswith line (py "-") = true \/
              startswith line (py " ") = true \/ line = [] ->
              parse_line st line more =
              Ok (mkParserState (file_diffs st)
                    (Some (fst (content_line f h line more)))
                    (Some (snd (content_line f h line more))))).
    { intros line S. destruct (content_shape f line S) as (P1 & P2 & P3).
      exact (parse_line_content st f Ef h line more Eh P1 P2 P3). }
    assert (G0 : parse_line st [] true =
              Ok (mkParserState (file_diffs st)
                    (Some (fst (content_line f h [] true)))
                    (Some (snd (content_line f h [] true))))).
    { destruct (content_shape f [] (or_intror (or_intror (or_intror eq_refl))))
        as (P1 & P2 & P3).
      exact (parse_line_content st f Ef h [] true Eh P1 P2 P3). }
    unfold content_line in G, G0.
    rewrite count_new_side_position, count_old_side_position in G, G0.
    fold new_number old_number in G, G0.
    split; [|split; [|split]].
    + intro Hb. exists (add_additions f).
      rewrite (G (py "+" ++ body)) by (left; reflexivity).
      change (startswith (py "+" ++ body) (py "+")) with true.
      change (startswith (py "+" ++ body) (py "+++"))
        with (startswith body (py "++")).
      rewrite Hb. reflexivity.
    + intro Hb. exists (add_deletions f).
      rewrite (G (py "-" ++ body)) by (right; left; reflexivity).
      change (startswith (py "-" ++ body) (py "+")) with false.
      change (startswith (py "-" ++ body) (py "-")) with true.
      change (startswith (py "-" ++ body) (py "---"))
        with (startswith body (py "--")).
      rewrite Hb. reflexivity.
    + rewrite (G (py " " ++ body)) by (right; right; left; reflexivity).
      reflexivity.
    + rewrite G0. reflexivity.
Qed.

Lemma hunk_line_positions_witness :
  let st := Samples.filled_state in
  let f := new_FileDiff (py "a.py") (py "a.py") in
  let appended l :=
    Some (mkDiffHunk 10 3 20 4 [] (lines Samples.filled_hunk ++ [l])) in
  (exists f',
     parse_line st (py "+n = 5") true =
     Ok (mkParserState [] (Some f')
           (appended (mkChangedLine 23 (py "n = 5") addition None)))) /\
  (exists f',
     parse_line st (py "-q") true =
     Ok (mkParserState [] (Some f')
           (appended (mkChangedLine 12 (py "q") deletion (Some 12%Z))))) /\
  parse_line st (py " k") true =
    Ok (mkParserState [] (Some f)
          (appended (mkChangedLine 23 (py "k") context (Some 12%Z)))) /\
  parse_line st [] true =
    Ok (mkParserState [] (Some f)
          (appended (mkChangedLine 23 [] context (Some 12%Z)))) /\
  (exists fds,
     parse Samples.mixed_hunk_diff = Ok fds /\
     map (fun fd =>
            map (fun hk =>
                   map (fun l => (line_number l, original_line_number l))
                       (lines hk)) (hunks fd)) fds =
     [[[(20, Some 10); (21, None); (22, None); (11, Some 11);
        (23, Some 12); (13, Some 13); (24, None)]]]%Z /\
     Forall (fun fd => Forall positioned (hunks fd)) fds).
Proof.
  intros st f appended.
  destruct (parse Samples.mixed_hunk_diff) as [fds|e] eqn:E;
    [|vm_compute in E; discriminate].
  destruct (hunk_line_positions Samples.mixed_hunk_diff fds st f
              Samples.filled_hunk [] true) as [Hp _].
  specialize (Hp E).
  destruct (hunk_line_positions [] [] st f Samples.filled_hunk (py "n = 5")
              true) as [_ Ha].
  destruct (hunk_line_positions [] [] st f Samples.filled_hunk (py "q")
              true) as [_ Hd].
  destruct (hunk_line_positions [] [] st f Samples.filled_hunk (py "k")
              true) as [_ Hc].
  destruct (Ha eq_refl eq_refl) as (Ha' & _).
  destruct (Hd eq_refl eq_refl) as (_ & Hd' & _).
  destruct (Hc eq_refl eq_refl) as (_ & _ & Hc' & He).
  split; [exact (Ha' eq_refl)|]. split; [exact (Hd' eq_refl)|].
  split; [exact Hc'|]. split; [exact He|].
  exists fds. split; [reflexivity|]. split; [|exact Hp].
  vm_compute in E. injection E as <-. reflexivity.
Defined.

(** C3.  In every file [parse] returns the [additions] counter is the
    number of lines of kind [addition] in the hunks of that file, and the
    [deletions] counter the number of lines of kind [deletion]. *)
Theorem parse_counters (text : str) (fds : list FileDiff) :
  parse text = Ok fds ->
  Forall (fun fd =>
            additions fd = Z.of_nat (length (get_additions fd)) /\
            deletions fd = Z.of_nat (length (get_deletions fd))) fds.
Proof.
  intro E.
  pose proof (parse_all counted counted_new counted_marker counted_hunk
                counted_content text fds E) as H.
  eapply Forall_impl; [|exact H].
  intros fd Hfd. exact Hfd.
Qed.

Lemma parse_counters_witness :
  exists fds, parse Samples.review_text = Ok fds /\
    map additions fds = [1; 1; 0]%Z /\ map deletions fds = [1; 1; 1]%Z /\
    Forall (fun fd =>
              additions fd = Z.of_nat (length (get_additions fd)) /\
              deletions fd = Z.of_nat (length (get_deletions fd))) fds.
Proof.
  eexists. split; [vm_compute; reflexivity|].
  split; [reflexivity|]. split; [reflexivity|].
  apply (parse_counters Samples.review_text). vm_compute. reflexivity.
Defined.

(** C5, where the code departs from it.  A [rename to] line sets the new
    path and the path of the open file and does not mark it renamed, which
    the [rename from] line does: the file of a diff whose only marker is
    [rename to b.py] gets the path [b.py] and stays unmarked, while that of
    a diff whose only marker is [rename from a.py] is marked. *)
Theorem rename_to_leaves_mark :
  parse Samples.rename_to_only_diff =
    Ok [mkFileDiff (py "b.py") (Some (py "a.py")) (Some (py "b.py"))
          false false false (Some (py "python")) [] 0 0]
  /\ parse Samples.rename_from_only_diff =
    Ok [mkFileDiff (py "b.py") (Some (py "a.py")) (Some (py "b.py"))
          false false true (Some (py "python")) [] 0 0]
  /\ parse Samples.rename_diff =
    Ok [mkFileDiff (py "b.py") (Some (py "a.py")) (Some (py "b.py"))
          false false true (Some (py "python")) [] 0 0]
  /\ ~ (forall st f p more,
          current_file st = Some f -> p <> [] ->
          exists st' f',
            parse_line st (py "rename to " ++ p) more = Ok st' /\
            current_file st' = Some f' /\
            new_path f' = Some p /\ file_path f' = p /\
            is_renamed f' = true).
Proof.
  split; [vm_compute; reflexivity|].
  split; [vm_compute; reflexivity|].
  split; [vm_compute; reflexivity|].
  intro H.
  destruct (H Samples.open_state (new_FileDiff (py "a.py") (py "a.py"))
              (py "b.py") false eq_refl) as (st' & f' & E & Ef & _ & _ & R);
    [discriminate|].
  rewrite (parse_line_rename_to Samples.open_state _ eq_refl (py "b.py")
             false) in E by discriminate.
  inversion E; subst st'. simpl in Ef. inversion Ef; subst f'.
  discriminate R.
Qed.

(** C6.  A hunk header that leaves out the count of a side gives that side
    the count 1, and one that writes it gives the number written; the text
    after the second [@@] is kept as the header of the hunk with the white
    space around it removed.  A file whose only hunk header leaves out both
    counts gets a hunk with old count 1 and new count 1.  The numbers are
    runs of digits that [int] converts. *)
Theorem hunk_header_counts (st : ParserState) (f : FileDiff)
    (a b rest : str) (c d : option str) (more : bool) :
  current_file st = Some f ->
  convertible a -> convertible b ->
  match c with Some x => convertible x | None => True end ->
  match d with Some x => convertible x | None => True end ->
  (exists h,
     parse_line st (hunk_header_text a c b d rest) more =
       Ok (mkParserState (file_diffs st)
             (Some (save_hunk f (current_hunk st))) (Some h)) /\
     old_start h = decimal_value a /\
     old_count h =
       match c with Some x => decimal_value x | None => 1%Z end /\
     new_start h = decimal_value b /\
     new_count h =
       match d with Some x => decimal_value x | None => 1%Z end /\
     header h = strip rest /\ lines h = []) /\
  parse Samples.bare_hunk_diff =
    Ok [mkFileDiff (py "f.py") (Some (py "f.py")) (Some (py "f.py"))
          false false false (Some (py "python"))
          [mkDiffHunk 3 1 5 1 (py "def foo():")
             [mkChangedLine 5 (py "x") addition None]]
          1 0].
Proof.
  intros Ef Ha Hb Hc Hd. split; [|vm_compute; reflexivity].
  eexists. split.
  - apply (parse_line_hunk_header st f a b rest c d more Ef Ha Hb Hc Hd).
  - simpl. now repeat split.
Qed.

Lemma hunk_header_counts_witness :
  exists h,
    parse_line Samples.open_state (py "@@ -12 +7,40 @@  class A:  ") true =
      Ok (mkParserState []
            (Some (save_hunk (new_FileDiff (py "a.py") (py "a.py"))
                     (current_hunk Samples.open_state)))
            (Some h)) /\
    old_start h = 12%Z /\ old_count h = 1%Z /\
    new_start h = 7%Z /\ new_count h = 40%Z /\
    header h = py "class A:" /\ lines h = [].
Proof.
  destruct (hunk_header_counts Samples.open_state
              (new_FileDiff (py "a.py") (py "a.py"))
              (py "12") (py "7") (py "  class A:  ") None (Some (py "40"))
              true eq_refl) as [H _].
  - repeat split; [discriminate|unfold short; vm_compute; discriminate].
  - repeat split; [discriminate|unfold short; vm_compute; discriminate].
  - exact I.
  - repeat split; [discriminate|unfold short; vm_compute; discriminate].
  - exact H.
Defined.

(* ===================================================================== *)
(** ** Facts about [list.sort] *)
(* ===================================================================== *)

Section Sorting.

Context {A : Type} (key : A -> Z).

Lemma insert_by_perm (x : A) (l : list A) :
  Permutation (insert_by key x l) (x :: l).
Proof.
  induction l as [|y l IH]; simpl; [reflexivity|].
  destruct (key x <=? key y)%Z; [reflexivity|].
  rewrite IH. apply perm_swap.
Qed.

Lemma sort_by_perm (l : list A) : Permutation (sort_by key l) l.
Proof.
  induction l as [|x l IH]; simpl; [reflexivity|].
  rewrite insert_by_perm. now constructor.
Qed.

Lemma insert_by_sorted (x : A) (l : list A) :
  StronglySorted (key_le key) l ->
  StronglySorted (key_le key) (insert_by key x l).
Proof.
  induction 1 as [|y l Hs IH Hy]; simpl; [repeat constructor|].
  destruct (key x <=? key y)%Z eqn:E.
  - apply Z.leb_le in E. constructor; [now constructor|].
    constructor; [exact E|].
    eapply Forall_impl; [|exact Hy]. unfold key_le. intros; lia.
  - apply Z.leb_gt in E. constructor; [exact IH|].
    apply (Permutation_Forall (Permutation_sym (insert_by_perm x l))).
    constructor; [unfold key_le; lia|exact Hy].
Qed.

Lemma sort_by_sorted (l : list A) : StronglySorted (key_le key) (sort_by key l).
Proof.
  induction l as [|x l IH]; simpl; [constructor|].
  now apply insert_by_sorted.
Qed.

(** An insertion does not reorder the elements of any one key. *)
Lemma insert_by_stable (k : Z) (x : A) (l : list A) :
  with_key key k (insert_by key x l) = with_key key k (x :: l).
Proof.
  unfold with_key. induction l as [|y l IH]; [reflexivity|].
  cbn [insert_by]. destruct (key x <=? key y)%Z eqn:E; [reflexivity|].
  apply Z.leb_gt in E. cbn [filter] in *. rewrite IH.
  destruct (key x =? k)%Z eqn:Ex, (key y =? k)%Z eqn:Ey; try reflexivity.
  apply Z.eqb_eq in Ex, Ey. lia.
Qed.

(** The sort is stable. *)
Lemma sort_by_stable (k : Z) (l : list A) :
  with_key key k (sort_by key l) = with_key key k l.
Proof.
  induction l as [|x l IH]; [reflexivity|].
  cbn [sort_by]. rewrite insert_by_stable. unfold with_key in *.
  cbn [filter]. now rewrite IH.
Qed.

(** Sorted lists of integers that hold the same numbers are equal. *)
Lemma sorted_unique (l1 l2 : list Z) :
  StronglySorted Z.le l1 -> StronglySorted Z.le l2 ->
  Permutation l1 l2 -> l1 = l2.
Proof.
  intros S1. revert l2. induction S1 as [|x l1 S1 IH H1]; intros l2 S2 P.
  - now apply Permutation_nil in P.
  - destruct S2 as [|y l2 S2 H2];
      [now apply Permutation_sym, Permutation_nil in P|].
    assert (x = y).
    { assert (Hx : In x (y :: l2))
        by (apply (Permutation_in _ P); now left).
      assert (Hy : In y (x :: l1))
        by (apply (Permutation_in _ (Permutation_sym P)); now left).
      rewrite Forall_forall in H1, H2.
      destruct Hx as [->|Hx]; [reflexivity|].
      destruct Hy as [->|Hy]; [reflexivity|].
      specialize (H1 _ Hy). specialize (H2 _ Hx). lia. }
    subst y. f_equal. apply IH; [assumption|].
    now apply Permutation_cons_inv with x.
Qed.

Lemma sorted_keys (l : list A) :
  StronglySorted (key_le key) l -> StronglySorted Z.le (map key l).
Proof.
  induction 1 as [|x l Hs IH Hx]; simpl; constructor; [assumption|].
  rewrite Forall_map. exact Hx.
Qed.

(** The keys of the sorted list depend on the elements only, not on the
    order in which they were collected. *)
Lemma sort_by_keys (l1 l2 : list A) :
  Permutation l1 l2 ->
  map key (sort_by key l1) = map key (sort_by key l2).
Proof.
  intro P. apply sorted_unique; try apply sorted_keys, sort_by_sorted.
  apply Permutation_map.
  rewrite (sort_by_perm l1), (sort_by_perm l2). exact P.
Qed.

End Sorting.

Section SortingWithKeys.

Context {A : Type} (key : A -> result Z).

(** When the keys are all computed, they are those of the elements, in
    order. *)
Lemma decorate_Ok (l : list A) (kl : list (Z * A)) :
  decorate key l = Ok kl ->
  map snd kl = l /\ Forall (fun p => key (snd p) = Ok (fst p)) kl.
Proof.
  revert kl. induction l as [|x l IH]; intros kl; cbn [decorate].
  - injection 1 as <-. now split.
  - destruct (key x) as [k|e] eqn:Ek; [|discriminate]. cbn [bind].
    destruct (decorate key l) as [rest|e]; [|discriminate]. cbn [bind].
    injection 1 as <-. destruct (IH _ eq_refl) as [Hm Hf].
    cbn [map snd]. split; [now rewrite Hm|]. now constructor.
Qed.

(** The keys are all computed when no call raises. *)
Lemma decorate_total (rank : A -> Z) (l : list A) :
  Forall (fun x => key x = Ok (rank x)) l ->
  decorate key l = Ok (map (fun x => (rank x, x)) l).
Proof.
  induction 1 as [|x l Hx _ IH]; [reflexivity|].
  cbn [decorate map]. now rewrite Hx, IH.
Qed.

(** The first call that raises ends the sort with its error. *)
Lemma decorate_Raise (l : list A) (e : exn) :
  decorate key l = Raise e -> exists x, In x l /\ key x = Raise e.
Proof.
  induction l as [|x l IH]; cbn [decorate]; [discriminate|].
  destruct (key x) as [k|e0] eqn:Ek.
  - cbn [bind]. destruct (decorate key l) as [rest|e1]; [discriminate|].
    cbn [bind]. injection 1 as ->.
    destruct (IH eq_refl) as (y & Hy & Ey). exists y.
    split; [now right|exact Ey].
  - cbn [bind]. injection 1 as ->. exists x. split; [now left|exact Ek].
Qed.

Lemma insert_by_decorated (rank : A -> Z) (x : A) (kl : list (Z * A)) :
  Forall (fun p => fst p = rank (snd p)) kl ->
  map snd (insert_by fst (rank x, x) kl) = insert_by rank x (map snd kl).
Proof.
  induction 1 as [|[k y] kl Hy _ IH]; [reflexivity|].
  cbn [insert_by map fst snd] in *. subst k.
  destruct (rank x <=? rank y)%Z; [reflexivity|].
  cbn [map snd]. now rewrite IH.
Qed.

Lemma sort_by_decorated (rank : A -> Z) (l : list A) :
  map snd (sort_by fst (map (fun x => (rank x, x)) l)) = sort_by rank l.
Proof.
  induction l as [|x l IH]; [reflexivity|]. cbn [map sort_by].
  rewrite insert_by_decorated, IH; [reflexivity|].
  apply (Permutation_Forall (Permutation_sym (sort_by_perm fst _))).
  apply Forall_map. now apply Forall_forall.
Qed.

(** When no call of the key raises, the sort is the stable sort by the
    values of the key. *)
Lemma list_sort_total (rank : A -> Z) (l : list A) :
  Forall (fun x => key x = Ok (rank x)) l ->
  list_sort key l = Ok (sort_by rank l).
Proof.
  intro H. unfold list_sort. rewrite (decorate_total rank l H). cbn [bind].
  now rewrite sort_by_decorated.
Qed.

(** A sort that returns has computed the key of every element. *)
Lemma list_sort_Ok (l s : list A) :
  list_sort key l = Ok s -> Forall (fun x => exists k, key x = Ok k) l.
Proof.
  unfold list_sort. destruct (decorate key l) as [kl|e] eqn:E; [|discriminate].
  intros _. apply decorate_Ok in E as [<- Hf].
  apply Forall_map. eapply Forall_impl; [|exact Hf].
  intros p Hp. now exists (fst p).
Qed.

Lemma list_sort_Raise (l : list A) (e : exn) :
  list_sort key l = Raise e -> exists x, In x l /\ key x = Raise e.
Proof.
  unfold list_sort. destruct (decorate key l) as [kl|e0] eqn:E; [discriminate|].
  cbn [bind]. injection 1 as ->. now apply decorate_Raise.
Qed.

End SortingWithKeys.

Section Labels.

Lemma get_or_label (k default : str) (x : Finding) :
  get_or k default x = label k default x.
Proof. reflexivity. Qed.

Lemma as_key_hashable (v : PyVal) :
  hashable v = true ->
  as_key v = Ok (match v with VStr s => Some s | _ => None end).
Proof. now destruct v. Qed.

Lemma as_key_unhashable (v : PyVal) :
  hashable v = false -> as_key v = Raise (unhashable v).
Proof. now destruct v. Qed.

(** The key of a finding whose severity can be hashed is its rank. *)
Lemma severity_key_ranked (x : Finding) :
  ranked x = true -> severity_key x = Ok (finding_rank x).
Proof.
  unfold ranked, severity_key, finding_rank, label, get_or.
  destruct (dict_get (py "severity") x) as [v|].
  - intro H. rewrite (as_key_hashable v H). cbn [bind].
    destruct v; try reflexivity.
    cbn [dict_get severity_order].
    destruct (str_eqb s (py "critical")); [reflexivity|].
    destruct (str_eqb s (py "high")); [reflexivity|].
    destruct (str_eqb s (py "medium")); [reflexivity|].
    destruct (str_eqb s (py "low")); [reflexivity|].
    now destruct (str_eqb s (py "info")).
  - reflexivity.
Qed.

(** The key of a finding is computed exactly when its severity can be
    hashed. *)
Lemma severity_key_Ok (x : Finding) (k : Z) :
  severity_key x = Ok k -> ranked x = true /\ k = finding_rank x.
Proof.
  intro H. destruct (ranked x) eqn:R.
  - rewrite (severity_key_ranked x R) in H. injection H as <-. now split.
  - unfold severity_key in H. change get_or with label in H.
    unfold ranked in R. now rewrite (as_key_unhashable _ R) in H.
Qed.

Lemma severity_key_Raise (x : Finding) (e : exn) :
  severity_key x = Raise e ->
  ranked x = false /\ e = unhashable (label (py "severity") (py "info") x).
Proof.
  intro H. destruct (ranked x) eqn:R.
  - now rewrite (severity_key_ranked x R) in H.
  - unfold severity_key in H. change get_or with label in H.
    unfold ranked in R. rewrite (as_key_unhashable _ R) in H.
    cbn [bind] in H. injection H as <-. now split.
Qed.

(** The sort of the findings returns exactly when every severity can be
    hashed, and is then the stable sort by rank. *)
Lemma sort_findings_Ok (l s : list Finding) :
  list_sort severity_key l = Ok s ->
  forallb ranked l = true /\ s = sort_by finding_rank l.
Proof.
  intro H. pose proof (list_sort_Ok severity_key l s H) as Hk.
  assert (R : Forall (fun x => severity_key x = Ok (finding_rank x)) l).
  { eapply Forall_impl; [|exact Hk]. intros x [k Hx].
    destruct (severity_key_Ok x k Hx) as [_ ->]. exact Hx. }
  rewrite (list_sort_total severity_key finding_rank l R) in H.
  injection H as <-. split; [|reflexivity].
  apply forallb_forall. intros x Hx. rewrite Forall_forall in Hk.
  destruct (Hk x Hx) as [k Ek]. now apply severity_key_Ok in Ek.
Qed.

Lemma sort_findings_ranked (l : list Finding) :
  forallb ranked l = true ->
  list_sort severity_key l = Ok (sort_by finding_rank l).
Proof.
  intro H. apply list_sort_total. apply Forall_forall. intros x Hx.
  apply severity_key_ranked. rewrite forallb_forall in H. now apply H.
Qed.

End Labels.

(* ===================================================================== *)
(** ** Facts about the summary *)
(* ===================================================================== *)

Section SummaryFacts.

Lemma dict_get_incr (k k' : str) (d : dict Z) :
  dict_get k (dict_incr k' d) =
  if str_eqb k' k then option_map (fun v => (v + 1)%Z) (dict_get k d)
  else dict_get k d.
Proof.
  induction d as [|[k0 v] d IH]; cbn [dict_incr dict_get option_map].
  - now destruct (str_eqb k' k).
  - destruct (str_eqb k' k0) eqn:E0; cbn [dict_get].
    + apply str_eqb_eq in E0. subst k0.
      destruct (str_eqb k' k) eqn:E.
      * apply str_eqb_eq in E. subst k'. now rewrite str_eqb_refl.
      * destruct (str_eqb k k') eqn:E'; [|reflexivity].
        apply str_eqb_eq in E'. subst k'. now rewrite str_eqb_refl in E.
    + destruct (str_eqb k k0) eqn:E1; [|exact IH].
      apply str_eqb_eq in E1. subst k0. now rewrite E0.
Qed.

Lemma count_in_hashable (v : PyVal) (d : dict Z) :
  hashable v = true -> count_in v d = Ok (counted_in v d).
Proof. now destruct v. Qed.

Lemma count_in_unhashable (v : PyVal) (d : dict Z) :
  hashable v = false -> count_in v d = Raise (unhashable v).
Proof. now destruct v. Qed.

Lemma tally_labelled (acc : dict Z * dict Z) (x : Finding) :
  labelled x = true -> tally acc x = Ok (tallied acc x).
Proof.
  unfold labelled, ranked, tally, tallied. change get_or with label.
  intro H. apply andb_prop in H as [H1 H2].
  now rewrite (count_in_hashable _ _ H1), (count_in_hashable _ _ H2).
Qed.

Lemma tally_unlabelled (acc : dict Z * dict Z) (x : Finding) :
  labelled x = false ->
  exists v, tally acc x = Raise (unhashable v) /\ hashable v = false /\
    (v = label (py "severity") (py "info") x \/
     v = label (py "category") (py "code_quality") x).
Proof.
  unfold labelled, ranked, tally. change get_or with label. intro H.
  destruct (hashable (label (py "severity") (py "info") x)) eqn:H1.
  - cbn [andb] in H. rewrite (count_in_hashable _ _ H1). cbn [bind].
    rewrite (count_in_unhashable _ _ H). eexists. split; [reflexivity|].
    split; [exact H|now right].
  - rewrite (count_in_unhashable _ _ H1). eexists. split; [reflexivity|].
    split; [exact H1|now left].
Qed.

(** The loop of the summary returns exactly when every severity and every
    category can be hashed. *)
Lemma for_each_tally_labelled (fs : list Finding) :
  forallb labelled fs = true ->
  forall acc, for_each tally fs acc = Ok (fold_left tallied fs acc).
Proof.
  induction fs as [|x fs IH]; intros H acc; [reflexivity|].
  cbn [forallb] in H. apply andb_prop in H as [Hx Hfs].
  cbn [for_each fold_left]. rewrite (tally_labelled acc x Hx). cbn [bind].
  now apply IH.
Qed.

Lemma for_each_tally_unlabelled (fs : list Finding) :
  forallb labelled fs = false ->
  forall acc, exists x v,
    In x fs /\ hashable v = false /\
    for_each tally fs acc = Raise (unhashable v) /\
    (v = label (py "severity") (py "info") x \/
     v = label (py "category") (py "code_quality") x).
Proof.
  induction fs as [|x fs IH]; intros H acc; [discriminate|].
  cbn [forallb] in H. cbn [for_each].
  destruct (labelled x) eqn:Hx.
  - cbn [andb] in H. rewrite (tally_labelled acc x Hx). cbn [bind].
    destruct (IH H (tallied acc x)) as (y & v & Hy & Ly & E & V).
    exists y, v. split; [now right|]. now repeat split.
  - destruct (tally_unlabelled acc x Hx) as (v & E & Hv & V).
    exists x, v. rewrite E. split; [now left|]. now repeat split.
Qed.

Lemma summary_labelled (fs : list Finding) :
  forallb labelled fs = true -> _generate_summary fs = Ok (summarised fs).
Proof.
  intro H. unfold _generate_summary.
  now rewrite (for_each_tally_labelled fs H).
Qed.

Lemma summary_Ok (fs : list Finding) (s : Summary) :
  _generate_summary fs = Ok s ->
  forallb labelled fs = true /\ s = summarised fs.
Proof.
  intro H. destruct (forallb labelled fs) eqn:L.
  - rewrite (summary_labelled fs L) in H. injection H as <-. now split.
  - unfold _generate_summary in H.
    destruct (for_each_tally_unlabelled fs L no_counts)
      as (x & v & _ & _ & E & _).
    now rewrite E in H.
Qed.

Lemma summary_Raise (fs : list Finding) (e : exn) :
  _generate_summary fs = Raise e ->
  exists x v, In x fs /\ hashable v = false /\ e = unhashable v /\
    (v = label (py "severity") (py "info") x \/
     v = label (py "category") (py "code_quality") x).
Proof.
  intro H. destruct (forallb labelled fs) eqn:L.
  - now rewrite (summary_labelled fs L) in H.
  - unfold _generate_summary in H.
    destruct (for_each_tally_unlabelled fs L no_counts)
      as (x & v & Hx & Lx & E & V).
    rewrite E in H. cbn [bind] in H. injection H as <-.
    now exists x, v.
Qed.

(** A counter of the summary ends at its first value plus the number of
    findings of that severity. *)
Lemma tally_severity (k : str) (fs : list Finding) :
  forall (acc : dict Z * dict Z) (v : Z),
    dict_get k (fst acc) = Some v ->
    dict_get k (fst (fold_left tallied fs acc)) =
    Some (v + count_severity k fs)%Z.
Proof.
  unfold count_severity.
  induction fs as [|x fs IH]; intros acc v Hv; cbn [fold_left filter].
  - rewrite Hv. f_equal. simpl. lia.
  - assert (G : dict_get k (fst (tallied acc x)) =
                Some (v + (if has_severity k x then 1 else 0))%Z).
    { unfold tallied, has_severity. change get_or with label. cbn [fst].
      destruct (label (py "severity") (py "info") x); cbn [counted_in];
        rewrite ?Z.add_0_r; try exact Hv.
      rewrite dict_get_incr.
      destruct (str_eqb s k); [now rewrite Hv|].
      now rewrite Z.add_0_r. }
    rewrite (IH _ _ G). destruct (has_severity k x); cbn [length]; f_equal; lia.
Qed.

Lemma summary_count (k : str) (fs : list Finding) :
  In k [py "critical"; py "high"; py "medium"; py "low"; py "info"] ->
  dict_item k (severity_counts (summarised fs)) = count_severity k fs.
Proof.
  intro Hk. unfold dict_item, summarised. cbn [severity_counts].
  rewrite (tally_severity k fs _ 0%Z); [reflexivity|].
  cbn [fst]. simpl in Hk.
  destruct Hk as [<-|[<-|[<-|[<-|[<-|[]]]]]]; reflexivity.
Qed.

End SummaryFacts.

(* ===================================================================== *)
(** ** Facts about the review *)
(* ===================================================================== *)

Section ReviewFacts.

Variable as_completed : nat -> list AgentResult -> list AgentResult.
Variable agents : list Agent.

(** The two tests at the head of the loop body, read as one. *)
Lemma review_files_cons (parallel : bool) (k : nat) (fd : FileDiff)
    (rest : list FileDiff) (acc : Collected) :
  review_files as_completed agents parallel k (fd :: rest) acc =
  if dispatched fd then
    rs <- run_agents as_completed agents parallel k
            (_prepare_code_context fd) ;;
    review_files as_completed agents parallel (S k) rest
      (mkCollected (all_findings acc ++ flat_map get_findings rs)
         (collected_results acc ++ rs)
         (calls acc ++ invocations agents fd))
  else review_files as_completed agents parallel (S k) rest acc.
Proof.
  cbn [review_files]. unfold dispatched, get_additions,
    get_all_changed_lines.
  destruct (is_deleted_file fd).
  - now destruct (filter _ _).
  - cbn [_prepare_code_context ctx_additions].
    now destruct (filter _ _).
Qed.

Lemma run_agents_returns (parallel : bool) (k : nat) (ctx : CodeContext) :
  parallel = false \/ agents <> [] ->
  exists rs, run_agents as_completed agents parallel k ctx = Ok rs.
Proof.
  intros H. unfold run_agents. destruct parallel; [|now eexists].
  destruct agents; [|now eexists]. destruct H; congruence.
Qed.

(** What is collected for a file is what was submitted, rearranged. *)
Lemma run_agents_perm (parallel : bool) (k : nat) (fd : FileDiff)
    (rs : list AgentResult) :
  rearranges as_completed ->
  run_agents as_completed agents parallel k (_prepare_code_context fd)
    = Ok rs ->
  Permutation rs (submitted agents fd).
Proof.
  intros Hp. unfold run_agents, submitted. destruct parallel.
  - destruct agents; [discriminate|]. inversion 1. apply Hp.
  - now inversion 1.
Qed.

Lemma run_agents_sequential (k : nat) (fd : FileDiff) :
  run_agents as_completed agents false k (_prepare_code_context fd)
  = Ok (submitted agents fd).
Proof. reflexivity. Qed.

(** The loop ends without raising when it runs the analyzers one by one,
    when at least one analyzer is registered, and when no file is handed
    to the analyzers. *)
Lemma review_files_returns (parallel : bool) (fds : list FileDiff) :
  parallel = false \/ agents <> [] \/ existsb dispatched fds = false ->
  forall k acc, exists c,
    review_files as_completed agents parallel k fds acc = Ok c.
Proof.
  induction fds as [|fd rest IH]; intros H k acc; [now eexists|].
  rewrite review_files_cons. cbn [existsb] in H.
  destruct (dispatched fd).
  - assert (H' : parallel = false \/ agents <> [])
      by (destruct H as [H|[H|H]]; [now left|now right|discriminate]).
    destruct (run_agents_returns parallel k (_prepare_code_context fd) H')
      as [rs ->].
    apply IH. tauto.
  - apply IH. exact H.
Qed.

(** The loop raises only when it has a pool to make for no analyzer. *)
Lemma review_files_raises (parallel : bool) (fds : list FileDiff) (e : exn) :
  forall k acc,
    review_files as_completed agents parallel k fds acc = Raise e ->
    parallel = true /\ agents = [] /\ existsb dispatched fds = true /\
    e = ValueError (py "max_workers must be greater than 0").
Proof.
  induction fds as [|fd rest IH]; intros k acc; [discriminate|].
  rewrite review_files_cons. cbn [existsb].
  destruct (dispatched fd).
  - unfold run_agents. destruct parallel.
    + destruct agents; [now injection 1 as <-|].
      cbn [bind]. intro H. destruct (IH _ _ H) as (_ & Ha & _). discriminate.
    + cbn [bind]. intro H. destruct (IH _ _ H) as (Hp & _). discriminate.
  - apply IH.
Qed.

(** The merged list is made of the findings of the collected results. *)
Lemma review_files_merged (parallel : bool) (fds : list FileDiff) :
  forall k acc c,
    review_files as_completed agents parallel k fds acc = Ok c ->
    all_findings acc = flat_map get_findings (collected_results acc) ->
    all_findings c = flat_map get_findings (collected_results c).
Proof.
  induction fds as [|fd rest IH]; intros k acc c.
  - now inversion 1.
  - rewrite review_files_cons. destruct (dispatched fd); [|apply IH].
    destruct (run_agents _ _ _ _ _) as [rs|e]; [|discriminate].
    cbn [bind]. intros E Hacc. apply (IH _ _ _ E).
    cbn [all_findings collected_results].
    now rewrite flat_map_app, Hacc.
Qed.

(** The invocations made are those of the dispatched files, and no
    other. *)
Lemma review_files_calls (parallel : bool) (fds : list FileDiff) :
  forall k acc c,
    review_files as_completed agents parallel k fds acc = Ok c ->
    calls c =
    calls acc ++ flat_map (invocations agents) (filter dispatched fds).
Proof.
  induction fds as [|fd rest IH]; intros k acc c.
  - inversion 1. cbn. now rewrite app_nil_r.
  - rewrite review_files_cons. cbn [filter].
    destruct (dispatched fd); [|apply IH].
    destruct (run_agents _ _ _ _ _) as [rs|e]; [|discriminate].
    cbn [bind]. intros E. rewrite (IH _ _ _ E).
    cbn [calls flat_map]. now rewrite app_assoc.
Qed.

(** The collected results are those submitted for the dispatched files,
    rearranged. *)
Lemma review_files_perm (parallel : bool) (fds : list FileDiff) :
  rearranges as_completed ->
  forall k acc c,
    review_files as_completed agents parallel k fds acc = Ok c ->
    Permutation (collected_results c)
      (collected_results acc
       ++ flat_map (submitted agents) (filter dispatched fds)).
Proof.
  intro Hp. induction fds as [|fd rest IH]; intros k acc c.
  - inversion 1. cbn. now rewrite app_nil_r.
  - rewrite review_files_cons. cbn [filter].
    destruct (dispatched fd); [|apply IH].
    destruct (run_agents _ _ _ _ _) as [rs|e] eqn:Er; [|discriminate].
    cbn [bind]. intros E. rewrite (IH _ _ _ E).
    cbn [collected_results flat_map]. rewrite <- app_assoc.
    apply Permutation_app_head, Permutation_app_tail.
    now apply run_agents_perm with parallel k.
Qed.

(** In sequential mode they are in the order of submission. *)
Lemma review_files_sequential (fds : list FileDiff) :
  forall k acc c,
    review_files as_completed agents false k fds acc = Ok c ->
    collected_results c =
    collected_results acc
    ++ flat_map (submitted agents) (filter dispatched fds).
Proof.
  induction fds as [|fd rest IH]; intros k acc c.
  - inversion 1. cbn. now rewrite app_nil_r.
  - rewrite review_files_cons. cbn [filter].
    destruct (dispatched fd); [|apply IH].
    rewrite run_agents_sequential. cbn [bind]. intros E.
    rewrite (IH _ _ _ E). cbn [collected_results flat_map].
    now rewrite app_assoc.
Qed.

Lemma get_findings_run_agent (a : Agent) (ctx : CodeContext) :
  get_findings (_run_agent a ctx) = contribution a ctx.
Proof.
  unfold _run_agent, contribution, get_findings.
  destruct (agent_run a ctx) as [[nm [fs|] err]|e]; reflexivity.
Qed.

(** The findings of what is submitted for the files: the contributions of
    the analyzers, file by file. *)
Lemma findings_submitted (fds : list FileDiff) :
  flat_map get_findings (flat_map (submitted agents) fds) =
  flat_map (fun fd =>
              flat_map (fun a => contribution a (_prepare_code_context fd))
                       agents) fds.
Proof.
  induction fds as [|fd rest IH]; [reflexivity|].
  cbn [flat_map]. rewrite flat_map_app, IH. f_equal.
  unfold submitted. rewrite flat_map_concat_map, map_map,
    <- flat_map_concat_map.
  apply flat_map_ext. intro a. apply get_findings_run_agent.
Qed.

End ReviewFacts.

(* ===================================================================== *)
(** ** Properties of the orchestrator *)
(* ===================================================================== *)

Lemma count_severity_app (s : str) (fs gs : list Finding) :
  count_severity s (fs ++ gs) = (count_severity s fs + count_severity s gs)%Z.
Proof.
  unfold count_severity. rewrite filter_app, length_app. lia.
Qed.

Lemma count_severity_nonneg (s : str) (fs : list Finding) :
  (0 <= count_severity s fs)%Z.
Proof. unfold count_severity. lia. Qed.

(** The rating of the summary, in terms of the numbers of findings. *)
Lemma rating_by_counts (fs : list Finding) :
  overall_rating (summarised fs) =
  if (0 <? count_severity (py "critical") fs)%Z then py "needs_work"
  else if (2 <? count_severity (py "high") fs)%Z then py "needs_work"
  else if (0 <? count_severity (py "high") fs)%Z
          || (5 <? count_severity (py "medium") fs)%Z
       then py "changes_requested"
  else if (0 <? count_severity (py "medium") fs)%Z then py "comment"
  else py "approve".
Proof.
  change (overall_rating (summarised fs))
    with (rate (severity_counts (summarised fs))).
  unfold rate.
  rewrite !summary_count by (simpl; tauto).
  now rewrite !Z.gtb_ltb.
Qed.

(** C1.  The overall rating of the summary follows the table, read from
    the top: some critical finding gives needs_work; else more than two
    high findings give needs_work; else a high finding, or more than five
    medium ones, gives changes_requested; else a medium finding gives
    comment; else approve.  So no finding gives approve, one medium finding
    comment, one high finding changes_requested, three high findings
    needs_work, a critical finding among any others needs_work, and six
    medium findings changes_requested.  The summary is returned whenever
    the severity and the category of every finding can be hashed. *)
Theorem rating_table (fs before after : list Finding) :
  (forall s, _generate_summary fs = Ok s ->
     overall_rating s =
       (if (0 <? count_severity (py "critical") fs)%Z then py "needs_work"
        else if (2 <? count_severity (py "high") fs)%Z then py "needs_work"
        else if (0 <? count_severity (py "high") fs)%Z
                || (5 <? count_severity (py "medium") fs)%Z
             then py "changes_requested"
        else if (0 <? count_severity (py "medium") fs)%Z then py "comment"
        else py "approve")) /\
  (forallb labelled fs = true -> exists s, _generate_summary fs = Ok s) /\
  (exists s, _generate_summary [] = Ok s /\
             overall_rating s = py "approve") /\
  (exists s, _generate_summary [Samples.finding "medium"] = Ok s /\
             overall_rating s = py "comment") /\
  (exists s, _generate_summary [Samples.finding "high"] = Ok s /\
             overall_rating s = py "changes_requested") /\
  (exists s, _generate_summary (repeat (Samples.finding "high") 3) = Ok s /\
             overall_rating s = py "needs_work") /\
  (forall s,
     _generate_summary (before ++ Samples.finding "critical" :: after)
       = Ok s ->
     overall_rating s = py "needs_work") /\
  (exists s, _generate_summary (repeat (Samples.finding "medium") 6) = Ok s /\
             overall_rating s = py "changes_requested").
Proof.
  split.
  { intros s H. apply summary_Ok in H as [_ ->]. apply rating_by_counts. }
  split.
  { intro H. exists (summarised fs). now apply summary_labelled. }
  do 4 (split; [eexists; split; vm_compute; reflexivity|]).
  split; [|eexists; split; vm_compute; reflexivity].
  intros s H. apply summary_Ok in H as [_ ->].
  rewrite rating_by_counts.
  change (before ++ Samples.finding "critical" :: after)
    with (before ++ [Samples.finding "critical"] ++ after).
  rewrite !count_severity_app.
  change (count_severity (py "critical") [Samples.finding "critical"])
    with 1%Z.
  pose proof (count_severity_nonneg (py "critical") before).
  pose proof (count_severity_nonneg (py "critical") after).
  destruct (0 <? _)%Z eqn:E; [reflexivity|].
  apply Z.ltb_ge in E. lia.
Qed.

Lemma rating_table_witness :
  (exists s,
     _generate_summary
       [Samples.finding "high"; Samples.finding "medium";
        Samples.finding_of (VInt 3); Samples.finding "high"] = Ok s /\
     overall_rating s = py "changes_requested") /\
  (exists s,
     _generate_summary
       [Samples.finding "low"; Samples.finding "critical";
        Samples.finding "medium"] = Ok s /\
     overall_rating s = py "needs_work").
Proof.
  split.
  - destruct (rating_table
                [Samples.finding "high"; Samples.finding "medium";
                 Samples.finding_of (VInt 3); Samples.finding "high"] [] [])
      as (H1 & H2 & _).
    destruct (H2 eq_refl) as [s Hs]. exists s. split; [exact Hs|].
    rewrite (H1 s Hs). vm_compute. reflexivity.
  - destruct (rating_table
                [Samples.finding "low"; Samples.finding "critical";
                 Samples.finding "medium"]
                [Samples.finding "low"] [Samples.finding "medium"])
      as (_ & H2 & _ & _ & _ & _ & H7 & _).
    destruct (H2 eq_refl) as [s Hs]. exists s. split; [exact Hs|].
    exact (H7 s Hs).
Defined.

Section ReviewResults.

Variable as_completed : nat -> list AgentResult -> list AgentResult.
Variable agents : list Agent.

Lemma labelled_perm (l l' : list Finding) :
  Permutation l l' -> forallb labelled l = forallb labelled l'.
Proof.
  induction 1 as [|x l l' _ IH|x y l|l l' l'' _ IH1 _ IH2]; cbn [forallb].
  - reflexivity.
  - now rewrite IH.
  - now rewrite !andb_assoc, (andb_comm (labelled y)).
  - now rewrite IH1.
Qed.

Lemma labelled_ranked (l : list Finding) :
  forallb labelled l = true -> forallb ranked l = true.
Proof.
  rewrite !forallb_forall. intros H x Hx. specialize (H x Hx).
  unfold labelled in H. now apply andb_prop in H as [H _].
Qed.

(** What [review_diff] returns, in terms of the parsed files and of what
    the loop over them collected. *)
Lemma review_diff_returns (diff_content : str) (parallel : bool)
    (r : ReviewResult) (cs : list Call) :
  review_diff as_completed agents diff_content parallel = Ok (r, cs) ->
  exists fds, parse diff_content = Ok fds /\
    ((fds = [] /\ cs = [] /\
      r = mkReviewResult true (Some (py "No changes to review")) 0
            None None [] None None)
     \/
     (fds <> [] /\ exists c,
        review_files as_completed agents parallel 0 fds
          (mkCollected [] [] []) = Ok c /\
        cs = calls c /\
        forallb labelled (all_findings c) = true /\
        r = mkReviewResult true None
              (Z.of_nat (length (filter (fun f => negb (is_deleted_file f))
                                        fds)))
              (Some (py_sum (map additions fds)))
              (Some (py_sum (map deletions fds)))
              (sort_by finding_rank (all_findings c))
              (Some (collected_results c))
              (Some (summarised (sort_by finding_rank (all_findings c)))))).
Proof.
  unfold review_diff.
  destruct (parse diff_content) as [fds|e] eqn:E; [|discriminate].
  cbn [bind]. intro H. exists fds. split; [reflexivity|].
  destruct fds as [|fd rest].
  - left. now inversion H.
  - right. split; [discriminate|].
    destruct (review_files _ _ _ _ _ _) as [c|e]; [|discriminate].
    cbn [bind] in H.
    destruct (list_sort severity_key (all_findings c)) as [sorted|e] eqn:Es;
      [|discriminate].
    cbn [bind] in H.
    destruct (_generate_summary sorted) as [sm|e] eqn:Eg; [|discriminate].
    cbn [bind] in H. injection H as <- <-.
    apply sort_findings_Ok in Es as [_ ->].
    apply summary_Ok in Eg as [L ->].
    exists c. split; [reflexivity|]. split; [reflexivity|].
    split; [|reflexivity].
    now rewrite <- (labelled_perm _ _ (sort_by_perm finding_rank _)).
Qed.

(** What the loop collects from an empty start: the contributions of the
    analyzers on the files handed to them, in some order. *)
Lemma review_files_reported (parallel : bool) (fds : list FileDiff)
    (c : Collected) :
  rearranges as_completed ->
  review_files as_completed agents parallel 0 fds (mkCollected [] [] [])
    = Ok c ->
  Permutation (all_findings c) (reported agents fds).
Proof.
  intros Hp Ec.
  rewrite (review_files_merged _ _ _ _ _ _ _ Ec eq_refl).
  unfold reported. rewrite <- findings_submitted.
  apply Permutation_flat_map.
  exact (review_files_perm _ _ _ _ Hp _ _ _ Ec).
Qed.

(** It returns when the text is parsed, no pool is made for no analyzer,
    and the severity and the category of every finding can be hashed. *)
Lemma review_diff_completes (diff_content : str) (parallel : bool)
    (fds : list FileDiff) :
  rearranges as_completed ->
  parse diff_content = Ok fds ->
  parallel = false \/ agents <> [] \/ existsb dispatched fds = false ->
  forallb labelled (reported agents fds) = true ->
  exists r cs,
    review_diff as_completed agents diff_content parallel = Ok (r, cs).
Proof.
  intros Hp E H L. unfold review_diff. rewrite E. cbn [bind].
  destruct fds as [|fd rest]; [now eexists; eexists|].
  destruct (review_files_returns as_completed agents parallel (fd :: rest)
              H 0 (mkCollected [] [] [])) as [c Ec].
  rewrite Ec. cbn [bind].
  rewrite <- (labelled_perm _ _ (review_files_reported _ _ _ Hp Ec)) in L.
  rewrite (sort_findings_ranked _ (labelled_ranked _ L)). cbn [bind].
  rewrite summary_labelled. 2:{
    now rewrite (labelled_perm _ _ (sort_by_perm finding_rank _)). }
  cbn [bind]. now eexists; eexists.
Qed.

(** The findings returned are the contributions of the analyzers on the
    dispatched files, in some order, and each has a severity and a
    category that can be hashed. *)
Lemma review_diff_findings (diff_content : str) (parallel : bool)
    (r : ReviewResult) (cs : list Call) (fds : list FileDiff) :
  rearranges as_completed ->
  review_diff as_completed agents diff_content parallel = Ok (r, cs) ->
  parse diff_content = Ok fds ->
  Permutation (findings r) (reported agents fds) /\
  forallb labelled (reported agents fds) = true.
Proof.
  intros Hp H E.
  destruct (review_diff_returns _ _ _ _ H) as (fds' & E' & D).
  assert (fds' = fds) by congruence. subst fds'.
  destruct D as [(-> & _ & ->)|(_ & c & Ec & _ & L & ->)];
    [split; [constructor|reflexivity]|].
  pose proof (review_files_reported _ _ _ Hp Ec) as P.
  cbn [findings]. split.
  - now rewrite sort_by_perm.
  - now rewrite <- (labelled_perm _ _ P).
Qed.

(** What makes [review_diff] raise. *)
Lemma review_diff_raises (diff_content : str) (parallel : bool) (e : exn) :
  rearranges as_completed ->
  review_diff as_completed agents diff_content parallel = Raise e ->
  parse diff_content = Raise e \/
  exists fds, parse diff_content = Ok fds /\
    ((parallel = true /\ agents = [] /\ existsb dispatched fds = true /\
      e = ValueError (py "max_workers must be greater than 0")) \/
     (exists x v, In x (reported agents fds) /\ hashable v = false /\
        e = unhashable v /\
        (v = label (py "severity") (py "info") x \/
         v = label (py "category") (py "code_quality") x))).
Proof.
  intros Hp. unfold review_diff.
  destruct (parse diff_content) as [fds|e0] eqn:E;
    [|cbn [bind]; injection 1 as ->; now left].
  cbn [bind]. intro H. right. exists fds. split; [reflexivity|].
  destruct fds as [|fd rest]; [discriminate|].
  destruct (review_files _ _ _ _ _ _) as [c|e1] eqn:Ec.
  2:{ cbn [bind] in H. injection H as ->. left.
      exact (review_files_raises _ _ _ _ _ _ _ Ec). }
  cbn [bind] in H. right.
  pose proof (review_files_reported _ _ _ Hp Ec) as P.
  destruct (list_sort severity_key (all_findings c)) as [sorted|e2] eqn:Es.
  - cbn [bind] in H.
    destruct (_generate_summary sorted) as [sm|e3] eqn:Eg; [discriminate|].
    cbn [bind] in H. injection H as ->.
    apply sort_findings_Ok in Es as [_ ->].
    apply summary_Raise in Eg as (x & v & Hx & Lx & -> & V).
    exists x, v. split; [|now repeat split].
    apply (Permutation_in _ P).
    now apply (Permutation_in _ (sort_by_perm finding_rank _)).
  - cbn [bind] in H. injection H as ->.
    apply list_sort_Raise in Es as (x & Hx & Ex).
    apply severity_key_Raise in Ex as [R ->].
    exists x, (label (py "severity") (py "info") x).
    split; [now apply (Permutation_in _ P)|].
    split; [exact R|]. split; [reflexivity|now left].
Qed.

End ReviewResults.

(** C7.  The findings [review_diff] returns are the findings of the
    collected results, sorted by severity rank: they are the same findings,
    their ranks never decrease along the list, and the findings of any one
    rank keep the order in which they were collected.  The rank is the key
    the code computes for the finding: 0 for critical, 1 for high, 2 for
    medium, 3 for low and 4 for info, for any other value and for a finding
    without severity. *)
Theorem findings_sorted_by_severity
    (as_completed : nat -> list AgentResult -> list AgentResult)
    (agents : list Agent) (diff_content : str) (parallel : bool)
    (r : ReviewResult) (cs : list Call) :
  review_diff as_completed agents diff_content parallel = Ok (r, cs) ->
  let merged :=
    flat_map get_findings
      (match agent_results r with Some rs => rs | None => [] end) in
  Permutation merged (findings r) /\
  StronglySorted (key_le finding_rank) (findings r) /\
  (forall k, with_key finding_rank k (findings r)
             = with_key finding_rank k merged) /\
  Forall (fun x => severity_key x = Ok (finding_rank x)) (findings r) /\
  (forall x k,
     severity_key x = Ok k ->
     k =
     match dict_get (py "severity") x with
     | Some (VStr s) =>
         if str_eqb s (py "critical") then 0
         else if str_eqb s (py "high") then 1
         else if str_eqb s (py "medium") then 2
         else if str_eqb s (py "low") then 3
         else 4
     | _ => 4
     end%Z).
Proof.
  intros H merged.
  destruct (review_diff_returns _ _ _ _ _ _ H) as (fds & _ & D).
  assert (E : findings r = sort_by finding_rank merged /\
              forallb labelled merged = true).
  { subst merged.
    destruct D as [(_ & _ & ->)|(_ & c & Ec & _ & L & ->)];
      [now split|].
    cbn [findings agent_results].
    now rewrite <- (review_files_merged _ _ _ _ _ _ _ Ec eq_refl). }
  destruct E as [E L]. rewrite E. split; [|split; [|split; [|split]]].
  - apply Permutation_sym, sort_by_perm.
  - apply sort_by_sorted.
  - intro k. apply sort_by_stable.
  - apply (Permutation_Forall (Permutation_sym (sort_by_perm _ _))).
    apply Forall_forall. intros x Hx. apply severity_key_ranked.
    apply labelled_ranked in L. rewrite forallb_forall in L. now apply L.
  - intros x k Hk. now apply severity_key_Ok in Hk as [_ ->].
Qed.

Lemma findings_sorted_by_severity_witness :
  exists r cs,
    review_diff Samples.last_first
      [Samples.reporter "A" "low"; Samples.reporter "B" "critical";
       Samples.reporter "C" "low"; Samples.reporter_of "D" (VInt 1)]
      Samples.review_text true = Ok (r, cs) /\
    map severity_key (findings r) = [Ok 0; Ok 3; Ok 3; Ok 4]%Z /\
    map (dict_get (py "agent_name")) (findings r) =
      [Some (VStr (py "B")); Some (VStr (py "C")); Some (VStr (py "A"));
       Some (VStr (py "D"))] /\
    StronglySorted (key_le finding_rank) (findings r).
Proof.
  eexists. eexists. split; [vm_compute; reflexivity|].
  split; [vm_compute; reflexivity|]. split; [vm_compute; reflexivity|].
  refine (proj1 (proj2 (findings_sorted_by_severity Samples.last_first
    [Samples.reporter "A" "low"; Samples.reporter "B" "critical";
     Samples.reporter "C" "low"; Samples.reporter_of "D" (VInt 1)]
    Samples.review_text true _ _ _))).
  vm_compute. reflexivity.
Defined.

Lemma dispatched_true (fd : FileDiff) :
  dispatched fd = true ->
  is_deleted_file fd = false /\ get_additions fd <> [].
Proof.
  unfold dispatched. destruct (get_additions fd); [discriminate|].
  destruct (is_deleted_file fd); [discriminate|]. now split.
Qed.

Lemma prepared_flags (fd : FileDiff) :
  ctx_is_deleted_file (_prepare_code_context fd) = is_deleted_file fd /\
  ctx_additions (_prepare_code_context fd) =
    map (fun l => (line_number l, content l)) (get_additions fd).
Proof. now split. Qed.

(** C8.  The analyzers are invoked on the files that are not deleted and
    have an added line, each analyzer once per such file, and on no other:
    a file whose deleted mark is set, or which has no added line, is
    handed to no analyzer.  The number of files reviewed that is returned
    counts every parsed file that is not deleted, and the totals of
    additions and deletions are summed over every parsed file. *)
Theorem dispatch_and_totals
    (as_completed : nat -> list AgentResult -> list AgentResult)
    (agents : list Agent) (diff_content : str) (parallel : bool)
    (r : ReviewResult) (cs : list Call) :
  review_diff as_completed agents diff_content parallel = Ok (r, cs) ->
  exists fds, parse diff_content = Ok fds /\
    cs = flat_map (invocations agents) (filter dispatched fds) /\
    (forall fd, In fd fds ->
       is_deleted_file fd = true \/ get_additions fd = [] ->
       forall nm, ~ In (nm, _prepare_code_context fd) cs) /\
    files_reviewed r =
      Z.of_nat (length (filter (fun fd => negb (is_deleted_file fd)) fds)) /\
    (fds <> [] ->
     total_additions r = Some (py_sum (map additions fds)) /\
     total_deletions r = Some (py_sum (map deletions fds))).
Proof.
  intro H. destruct (review_diff_returns _ _ _ _ _ _ H) as (fds & E & D).
  exists fds. split; [exact E|].
  assert (Hcs : cs = flat_map (invocations agents) (filter dispatched fds)).
  { destruct D as [(-> & -> & _)|(_ & c & Ec & -> & _)]; [reflexivity|].
    now rewrite (review_files_calls _ _ _ _ _ _ _ Ec). }
  split; [exact Hcs|]. split; [|split].
  - intros fd _ Hfd nm Hin. rewrite Hcs in Hin.
    apply in_flat_map in Hin as (fd' & Hfd' & Hin).
    apply filter_In in Hfd' as [_ Hd]. apply dispatched_true in Hd as [Hd Ha].
    unfold invocations in Hin. apply in_map_iff in Hin as (a & Ea & _).
    apply (f_equal snd) in Ea. cbn [snd] in Ea.
    destruct (prepared_flags fd) as [F1 F2].
    destruct (prepared_flags fd') as [G1 G2].
    rewrite Ea in G1, G2.
    destruct Hfd as [Hfd|Hfd].
    + congruence.
    + rewrite F2, Hfd in G2. destruct (get_additions fd');
        [congruence|discriminate].
  - now destruct D as [(-> & _ & ->)|(_ & c & _ & _ & _ & ->)].
  - intro Hne. destruct D as [(-> & _)|(_ & c & _ & _ & _ & ->)];
      [congruence|now split].
Qed.

Lemma dispatch_and_totals_witness :
  exists r cs,
    review_diff Samples.last_first
      [Samples.reporter "A" "low"; Samples.broken]
      Samples.review_text true = Ok (r, cs) /\
    map (fun c => (fst c, ctx_file_path (snd c))) cs =
      [(py "A", py "app.py"); (py "Broken", py "app.py")] /\
    files_reviewed r = 2%Z /\
    total_additions r = Some 2%Z /\ total_deletions r = Some 3%Z /\
    exists fds, parse Samples.review_text = Ok fds /\
      cs = flat_map (invocations [Samples.reporter "A" "low"; Samples.broken])
             (filter dispatched fds).
Proof.
  eexists. eexists. split; [vm_compute; reflexivity|].
  do 4 (split; [vm_compute; reflexivity|]).
  destruct (dispatch_and_totals Samples.last_first
              [Samples.reporter "A" "low"; Samples.broken]
              Samples.review_text true _ _
              ltac:(vm_compute; reflexivity)) as (fds & E & Hcs & _).
  exists fds. split; [exact E|exact Hcs].
Defined.

(** C9.  Take a diff that is parsed and analyzers whose findings have a
    severity and a category that can be hashed, at least one analyzer
    being registered.  Then the review returns, and whenever the
    invocation of an analyzer on a dispatched file raises, the results
    returned hold for it a result with the text of the error and an empty
    list of findings.  The findings returned are those listed in the
    results of the analyzers that returned, on every dispatched file, and
    nothing else: every finding of an analyzer that returned is among
    them, and an analyzer that raises adds nothing and takes nothing away.
    The [run] of [BaseReviewAgent] itself never raises: when [analyze]
    raises it returns the error and an empty list of findings. *)
Theorem failing_analyzer_isolated
    (as_completed : nat -> list AgentResult -> list AgentResult)
    (agents : list Agent) (diff_content : str) (parallel : bool)
    (fds : list FileDiff) (a : Agent) (nm : str)
    (analyze : CodeContext -> result (list AgentFinding))
    (ctx : CodeContext) :
  rearranges as_completed -> In a agents ->
  parse diff_content = Ok fds ->
  forallb labelled (reported agents fds) = true ->
  (exists r cs,
     review_diff as_completed agents diff_content parallel = Ok (r, cs) /\
     (forall fd e,
        In fd fds -> dispatched fd = true ->
        agent_run a (_prepare_code_context fd) = Raise e ->
        exists rs, agent_results r = Some rs /\
          In (mkAgentResult (name a) (Some []) (Some (exn_str e))) rs) /\
     Permutation (findings r)
       (flat_map (fun fd =>
                    flat_map (fun b =>
                                match agent_run b (_prepare_code_context fd)
                                with
                                | Ok (mkAgentResult _ (Some fs) _) => fs
                                | _ => []
                                end) agents)
                 (filter dispatched fds)) /\
     (forall b fd nm' fs err x,
        In b agents -> In fd fds -> dispatched fd = true ->
        agent_run b (_prepare_code_context fd)
          = Ok (mkAgentResult nm' (Some fs) err) ->
        In x fs -> In x (findings r))) /\
  (exists res, BaseAgent.run nm analyze ctx = Ok res /\
     forall e, analyze ctx = Raise e ->
       res = mkAgentResult nm (Some []) (Some (exn_str e))).
Proof.
  intros Hp Ha E L. split.
  - assert (Hne : parallel = false \/ agents <> [] \/
                  existsb dispatched fds = false)
      by (right; left; intros ->; contradiction).
    destruct (review_diff_completes as_completed agents diff_content
                parallel fds Hp E Hne L) as (r & cs & H).
    destruct (review_diff_returns _ _ _ _ _ _ H) as (fds' & E' & D).
    assert (fds' = fds) by congruence. subst fds'.
    destruct (review_diff_findings _ _ _ _ _ _ _ Hp H E) as [P _].
    exists r, cs. split; [exact H|]. split; [|split].
    + intros fd e Hfd Hd He.
      destruct D as [(-> & _)|(_ & c & Ec & _ & _ & ->)]; [contradiction|].
      exists (collected_results c). split; [reflexivity|].
      apply (Permutation_in _
               (Permutation_sym (review_files_perm _ _ _ _ Hp _ _ _ Ec))).
      cbn [collected_results app]. apply in_flat_map. exists fd. split.
      * apply filter_In. now split.
      * unfold submitted. apply in_map_iff. exists a. split; [|exact Ha].
        unfold _run_agent. now rewrite He.
    + exact P.
    + intros b fd nm' fs err x Hb Hfd Hd Hr Hx.
      apply (Permutation_in _ (Permutation_sym P)).
      unfold reported. apply in_flat_map. exists fd. split.
      * apply filter_In. now split.
      * apply in_flat_map. exists b. split; [exact Hb|].
        unfold contribution. now rewrite Hr.
  - unfold BaseAgent.run. destruct (analyze ctx) as [fs|e0].
    + eexists. split; [reflexivity|]. discriminate.
    + eexists. split; [reflexivity|]. now inversion 1.
Qed.

Lemma failing_analyzer_isolated_witness :
  exists r cs,
    review_diff Samples.last_first
      [Samples.reporter "A" "high"; Samples.broken; Samples.flaky;
       Samples.reporter "B" "low"]
      Samples.review_text true = Ok (r, cs) /\
    agent_results r =
      Some [mkAgentResult (py "B")
              (Some [Samples.reported_on (py "app.py") "B" (VStr (py "low"))])
              None;
            mkAgentResult (py "Flaky") (Some []) (Some (py "timeout"));
            mkAgentResult (py "Broken") (Some []) (Some (py "boom"));
            mkAgentResult (py "A")
              (Some [Samples.reported_on (py "app.py") "A"
                       (VStr (py "high"))])
              None] /\
    findings r =
      [Samples.reported_on (py "app.py") "A" (VStr (py "high"));
       Samples.reported_on (py "app.py") "B" (VStr (py "low"))] /\
    In (mkAgentResult (py "Broken") (Some []) (Some (py "boom")))
       (match agent_results r with Some rs => rs | None => [] end).
Proof.
  destruct (failing_analyzer_isolated Samples.last_first
              [Samples.reporter "A" "high"; Samples.broken; Samples.flaky;
               Samples.reporter "B" "low"]
              Samples.review_text true
              (match parse Samples.review_text with
               | Ok fds => fds
               | Raise _ => []
               end)
              Samples.broken (py "Flaky")
              (fun _ => Raise (Exception (py "timeout")))
              (mkCodeContext [] None false false [] []))
    as [(r & cs & H & B & _ & _) _].
  - intros k rs. apply Permutation_sym, Permutation_rev.
  - right; left; reflexivity.
  - vm_compute. reflexivity.
  - vm_compute. reflexivity.
  - exists r, cs.
    destruct (B Cases.app_file (Exception (py "boom")))
      as (rs & Hrs & Hin).
    + vm_compute. left. reflexivity.
    + vm_compute. reflexivity.
    + reflexivity.
    + split; [exact H|].
      assert (Hr := H). vm_compute in Hr. injection Hr as Hr _.
      split; [rewrite <- Hr; vm_compute; reflexivity|].
      split; [rewrite <- Hr; vm_compute; reflexivity|].
      rewrite Hrs. exact Hin.
Defined.

Section DispatchModes.

Variable as_completed : nat -> list AgentResult -> list AgentResult.
Variable agents : list Agent.
Hypothesis completion_rearranges : rearranges as_completed.

Lemma review_diff_sorted (diff_content : str) (parallel : bool)
    (r : ReviewResult) (cs : list Call) :
  review_diff as_completed agents diff_content parallel = Ok (r, cs) ->
  StronglySorted (key_le finding_rank) (findings r).
Proof.
  intro H. destruct (review_diff_returns _ _ _ _ _ _ H) as (fds & _ & D).
  destruct D as [(_ & _ & ->)|(_ & c & _ & _ & _ & ->)]; [constructor|].
  apply sort_by_sorted.
Qed.

(** With at least one analyzer registered, when one mode returns so does
    the other, with the same findings up to their order and with the same
    ranks in the same order. *)
Lemma dispatch_modes_agree (diff_content : str) (p q : bool)
    (r1 : ReviewResult) (cs1 : list Call) :
  agents <> [] ->
  review_diff as_completed agents diff_content p = Ok (r1, cs1) ->
  exists r2 cs2,
    review_diff as_completed agents diff_content q = Ok (r2, cs2) /\
    Permutation (findings r1) (findings r2) /\
    map finding_rank (findings r1) = map finding_rank (findings r2).
Proof.
  intros Hne H1.
  destruct (review_diff_returns _ _ _ _ _ _ H1) as (fds & E & _).
  destruct (review_diff_findings _ _ _ _ _ _ _ completion_rearranges H1 E)
    as [P1 L].
  destruct (review_diff_completes as_completed agents diff_content q fds
              completion_rearranges E (or_intror (or_introl Hne)) L)
    as (r2 & cs2 & H2).
  exists r2, cs2. split; [exact H2|].
  destruct (review_diff_findings _ _ _ _ _ _ _ completion_rearranges H2 E)
    as [P2 _].
  assert (P : Permutation (findings r1) (findings r2))
    by now rewrite P1, P2.
  split; [exact P|].
  apply sorted_unique.
  - apply sorted_keys. exact (review_diff_sorted _ _ _ _ H1).
  - apply sorted_keys. exact (review_diff_sorted _ _ _ _ H2).
  - now apply Permutation_map.
Qed.

End DispatchModes.

(** C10, where the code departs from it.  With no analyzer registered and
    a file to dispatch, the concurrent mode raises the [ValueError] of a
    pool of no workers, while the sequential mode returns, with no
    finding: the two modes do not give the same findings there. *)
Theorem concurrent_dispatch_empty_pool
    (as_completed : nat -> list AgentResult -> list AgentResult) :
  review_diff as_completed [] Samples.review_text true =
    Raise (ValueError (py "max_workers must be greater than 0")) /\
  exists r cs,
    review_diff as_completed [] Samples.review_text false = Ok (r, cs) /\
    findings r = [] /\ files_reviewed r = 2%Z /\ cs = [].
Proof.
  split; [vm_compute; reflexivity|].
  eexists. eexists. split; [vm_compute; reflexivity|].
  now repeat split.
Qed.

(* ===================================================================== *)
(** ** Further properties of the parser *)
(* ===================================================================== *)

Section Languages.

Lemma lower_char_twice (c : ascii) : lower_char (lower_char c) = lower_char c.
Proof.
  destruct c as [b0 b1 b2 b3 b4 b5 b6 b7].
  destruct b0, b1, b2, b3, b4, b5, b6, b7; vm_compute; reflexivity.
Qed.

Lemma lower_twice (s : str) : lower (lower s) = lower s.
Proof.
  unfold lower. rewrite map_map. apply map_ext. exact lower_char_twice.
Qed.

Lemma detect_language_find (path : str) :
  path <> [] ->
  detect_language path =
  match find (fun p => endswith (lower path) (fst p)) LANGUAGE_MAP with
  | Some (_, lang) => Some lang
  | None => None
  end.
Proof. destruct path; [congruence|reflexivity]. Qed.

End Languages.

(** X1.  Every extension of the table is recognised whatever stands in
    front of it and however it is cased: no extension of the table hides
    another one. *)
Theorem detect_language_extension (stem e ext lang : str) :
  In (ext, lang) LANGUAGE_MAP -> lower e = ext ->
  detect_language (stem ++ e) = Some lang.
Proof.
  intros Hin He.
  assert (Hne : stem ++ e <> []).
  { intro H. apply app_eq_nil in H as [_ ->]. subst ext.
    vm_compute in Hin. repeat (destruct Hin as [Hin|Hin]; [discriminate|]).
    exact Hin. }
  rewrite (detect_language_find _ Hne).
  unfold endswith, lower. rewrite map_app, rev_app_distr.
  fold (lower e). rewrite He.
  generalize (rev (map lower_char stem)). intro r. clear - Hin.
  vm_compute in Hin.
  repeat (destruct Hin as [Hin|Hin];
          [injection Hin as <- <-; vm_compute; reflexivity|]).
  contradiction.
Qed.

Lemma detect_language_extension_witness :
  detect_language (py "src/app/Main.PY") = Some (py "python") /\
  detect_language (py "a.b.tsx") = Some (py "typescript") /\
  detect_language (py ".HPP") = Some (py "cpp").
Proof.
  split; [|split].
  - apply (detect_language_extension (py "src/app/Main") (py ".PY")
             (py ".py") (py "python")); [|reflexivity].
    vm_compute. tauto.
  - apply (detect_language_extension (py "a.b") (py ".tsx")
             (py ".tsx") (py "typescript")); [|reflexivity].
    vm_compute. tauto.
  - apply (detect_language_extension [] (py ".HPP")
             (py ".hpp") (py "cpp")); [|reflexivity].
    vm_compute. tauto.
Defined.

(** X2.  A language is reported only for a path that ends, case set
    aside, with an extension of the table, and it is the language the
    table gives for some such extension; the case of the path plays no
    part; and the empty path has no language. *)
Theorem detect_language_sound (path lang : str) :
  (detect_language path = Some lang ->
   exists ext, In (ext, lang) LANGUAGE_MAP /\
               endswith (lower path) ext = true) /\
  detect_language (lower path) = detect_language path /\
  detect_language [] = None.
Proof.
  split; [|split; [|reflexivity]].
  - destruct path as [|c path]; [discriminate|].
    rewrite detect_language_find by discriminate.
    destruct (find _ LANGUAGE_MAP) as [[ext l]|] eqn:E; [|discriminate].
    injection 1 as ->. apply find_some in E as [Hin Hend].
    now exists ext.
  - destruct path as [|c path]; [reflexivity|].
    rewrite !detect_language_find by discriminate.
    now rewrite lower_twice.
Qed.

Lemma detect_language_sound_witness :
  exists ext, In (ext, py "yaml") LANGUAGE_MAP /\
              endswith (lower (py "CI/Build.YML")) ext = true.
Proof.
  apply (proj1 (detect_language_sound (py "CI/Build.YML") (py "yaml"))).
  vm_compute. reflexivity.
Defined.

Section FileHeaders.

Lemma split_at_last_sound (sep s a b : str) :
  split_at_last sep s = Some (a, b) -> s = a ++ sep ++ b /\ b <> [].
Proof.
  revert a b. induction s as [|c s IH]; intros a b; cbn [split_at_last];
    [discriminate|].
  destruct (split_at_last sep s) as [[a' b']|].
  - injection 1 as <- <-. destruct (IH _ _ eq_refl) as [-> Hb]. now split.
  - destruct (strip_prefix sep (c :: s)) as [[|x r]|] eqn:E;
      try discriminate.
    injection 1 as <- <-. apply strip_prefix_Some in E. now split.
Qed.

(** Nothing is found in a text that does not hold the separator. *)
Lemma split_at_last_none (sep s : str) :
  ~ holds sep s -> split_at_last sep s = None.
Proof.
  induction s as [|c s IH]; intro H; cbn [split_at_last]; [reflexivity|].
  rewrite IH.
  - destruct (strip_prefix sep (c :: s)) as [[|x r]|] eqn:E; try reflexivity.
    apply strip_prefix_Some in E. exfalso. apply H. exists [], (x :: r).
    exact E.
  - intros (u & v & ->). apply H. now exists (c :: u), v.
Qed.

Lemma split_at_last_cons (sep s : str) (c : ascii) :
  split_at_last sep (c :: s) =
  match split_at_last sep s with
  | Some (a, b) => Some (c :: a, b)
  | None =>
      match strip_prefix sep (c :: s) with
      | Some ((_ :: _) as b) => Some ([], b)
      | _ => None
      end
  end.
Proof. reflexivity. Qed.

Lemma split_at_last_b (old new : str) :
  new <> [] -> ~ holds (py " b/") new ->
  split_at_last (py " b/") (old ++ py " b/" ++ new) = Some (old, new).
Proof.
  intros Hne Hno. induction old as [|c old IH].
  - assert (N1 : split_at_last (py " b/") ("b"%char :: "/"%char :: new)
                 = None).
    { apply split_at_last_none. intros (u & v & E).
      destruct u as [|x [|y u]]; try discriminate.
      injection E as _ _ E. apply Hno. now exists u, v. }
    change ([] ++ py " b/" ++ new)
      with (" "%char :: "b"%char :: "/"%char :: new).
    rewrite split_at_last_cons, N1.
    cbn [py list_ascii_of_string strip_prefix]. rewrite !Ascii.eqb_refl.
    destruct new; [congruence|reflexivity].
  - cbn [app]. rewrite split_at_last_cons. cbn [app] in IH. now rewrite IH.
Qed.

End FileHeaders.

(** X3.  A line is taken for a file header only when it reads
    [diff --git a/OLD b/NEW] with both paths non-empty, and then OLD and
    NEW are the paths found; conversely such a line gives back exactly its
    two paths whenever NEW does not itself hold the text [ b/]. *)
Theorem file_header_exact (line old new : str) :
  (file_header_pattern line = Some (old, new) ->
   line = py "diff --git a/" ++ old ++ py " b/" ++ new /\
   old <> [] /\ new <> []) /\
  (old <> [] -> new <> [] -> ~ holds (py " b/") new ->
   file_header_pattern (py "diff --git a/" ++ old ++ py " b/" ++ new)
   = Some (old, new)).
Proof.
  split.
  - unfold file_header_pattern.
    destruct (strip_prefix _ line) as [rest|] eqn:E; [|discriminate].
    destruct (split_at_last _ rest) as [[[|c a] b]|] eqn:S; try discriminate.
    injection 1 as <- <-. apply strip_prefix_Some in E.
    apply split_at_last_sound in S as [-> Hb]. subst line.
    split; [reflexivity|]. split; [discriminate|exact Hb].
  - intros Ho Hn Hno. unfold file_header_pattern.
    rewrite strip_prefix_app, (split_at_last_b old new Hn Hno).
    destruct old; [congruence|reflexivity].
Qed.

Lemma file_header_exact_witness :
  file_header_pattern (py "diff --git a/src/a b.py b/src/a b.py")
  = Some (py "src/a b.py", py "src/a b.py").
Proof.
  apply (proj2 (file_header_exact [] (py "src/a b.py") (py "src/a b.py")));
    try discriminate.
  intros (u & v & E).
  repeat (destruct u as [|? u]; [discriminate|];
          injection E as _ E).
  destruct u; discriminate.
Defined.

Section HunkHeaderShape.

Lemma optional_count_sound (s r : str) (g : option str) :
  optional_count s = (g, r) -> s = count_text g ++ r.
Proof.
  unfold optional_count. destruct s as [|c s]; [now injection 1 as <- <-|].
  destruct (Ascii.eqb c ",") eqn:Ec; [|now injection 1 as <- <-].
  apply Ascii.eqb_eq in Ec. subst c.
  destruct (span_digits s) as [[|x d] r'] eqn:E; injection 1 as <- <-;
    [reflexivity|].
  apply span_digits_spec in E as [_ ->]. reflexivity.
Qed.

Lemma hunk_header_pattern_sound (line : str) (m : HunkMatch) :
  hunk_header_pattern line = Some m ->
  line = hunk_header_text (group1 m) (group2 m) (group3 m) (group4 m)
           (group5 m).
Proof.
  unfold hunk_header_pattern, hunk_header_text.
  destruct (strip_prefix _ line) as [r1|] eqn:E0; [|discriminate].
  destruct (span_digits r1) as [[|a g1] r2] eqn:E1; [discriminate|].
  destruct (optional_count r2) as [g2 r3] eqn:E2.
  destruct (strip_prefix _ r3) as [r4|] eqn:E3; [|discriminate].
  destruct (span_digits r4) as [[|b g3] r5] eqn:E4; [discriminate|].
  destruct (optional_count r5) as [g4 r6] eqn:E5.
  destruct (strip_prefix _ r6) as [g5|] eqn:E6; [|discriminate].
  injection 1 as <-. cbn [group1 group2 group3 group4 group5].
  apply strip_prefix_Some in E0, E3, E6.
  apply span_digits_spec in E1 as [_ E1], E4 as [_ E4].
  apply optional_count_sound in E2, E5.
  subst line r1 r2 r3 r4 r5 r6. reflexivity.
Qed.

End HunkHeaderShape.

(** X4.  A line is taken for a hunk header exactly when it reads
    [@@ -A +B @@REST] where A and B are runs of digits, each followed or
    not by a comma and a run of digits; the groups found are then those
    runs and REST. *)
Theorem hunk_header_exact (line : str) (m : HunkMatch) :
  hunk_header_pattern line = Some m <->
  line = hunk_header_text (group1 m) (group2 m) (group3 m) (group4 m)
           (group5 m) /\
  digits (group1 m) /\ digits (group3 m) /\
  match group2 m with Some d => digits d | None => True end /\
  match group4 m with Some d => digits d | None => True end.
Proof.
  split.
  - intro H. split; [now apply hunk_header_pattern_sound|].
    now apply hunk_header_groups with line.
  - intros (-> & H1 & H3 & H2 & H4).
    rewrite (hunk_header_pattern_text _ _ _ _ _ H1 H3 H2 H4).
    now destruct m.
Qed.

Lemma hunk_header_exact_witness :
  hunk_header_pattern (py "@@ -0,0 +1,25 @@ class A:") =
  Some (mkHunkMatch (py "0") (Some (py "0")) (py "1") (Some (py "25"))
          (py " class A:")).
Proof.
  apply (proj2 (hunk_header_exact (py "@@ -0,0 +1,25 @@ class A:")
                  (mkHunkMatch (py "0") (Some (py "0")) (py "1")
                     (Some (py "25")) (py " class A:")))).
  repeat split; discriminate.
Defined.

Section Advance.

Lemma file_header_pattern_sound (line old new : str) :
  file_header_pattern line = Some (old, new) ->
  line = py "diff --git a/" ++ old ++ py " b/" ++ new /\
  old <> [] /\ new <> [].
Proof.
  unfold file_header_pattern.
  destruct (strip_prefix _ line) as [rest|] eqn:E; [|discriminate].
  destruct (split_at_last _ rest) as [[[|c a] b]|] eqn:S; try discriminate.
  injection 1 as <- <-. apply strip_prefix_Some in E.
  apply split_at_last_sound in S as [-> Hb]. subst line.
  split; [reflexivity|]. split; [discriminate|exact Hb].
Qed.

(** What a turn that does not raise does is told by [advance]. *)
Lemma parse_line_advance (st : ParserState) (line : str) (more : bool)
    (st' : ParserState) :
  parse_line st line more = Ok st' -> advance st line more st'.
Proof.
  unfold parse_line.
  destruct (file_header_pattern line) as [[old new]|] eqn:Eh.
  { injection 1 as <-. now apply advance_file. }
  assert (G : forall f, current_file st = Some f -> file_marker f line = None ->
              hunk_or_content st line more = Ok st' ->
              advance st line more st').
  { intros f Ef Em. unfold hunk_or_content. rewrite Ef.
    destruct (hunk_header_pattern line) as [m|] eqn:Ehk.
    - destruct (open_hunk m) as [h|e] eqn:Eo; [|discriminate].
      cbn [bind]. injection 1 as <-.
      apply (open_hunk_Ok _ _ _ Ehk) in Eo as [Hl ->].
      now apply advance_hunk.
    - destruct (current_hunk st) as [h|] eqn:Ec.
      + destruct (content_line f h line more) as [f' h'] eqn:E.
        injection 1 as <-.
        replace f' with (fst (content_line f h line more)) by now rewrite E.
        replace h' with (snd (content_line f h line more)) by now rewrite E.
        now apply advance_content.
      + injection 1 as <-. now apply advance_skip. }
  destruct (current_file st) as [f|] eqn:Ef.
  - destruct (file_marker f line) as [f'|] eqn:Em; [|now apply G with f].
    injection 1 as <-. now apply advance_marker with f.
  - unfold hunk_or_content. rewrite Ef.
    destruct (hunk_header_pattern line); destruct (current_hunk st);
      injection 1 as <-; now apply advance_skip.
Qed.

(** A property that every turn on a line of the permitted kind keeps
    holds when the loop ends. *)
Lemma scan_advance (P : ParserState -> Prop) (L : str -> Prop) :
  (forall st line more st',
     L line -> P st -> advance st line more st' -> P st') ->
  forall ls st st', Forall L ls -> P st -> scan st ls = Ok st' -> P st'.
Proof.
  intros Hstep ls. induction ls as [|line rest IH]; intros st st' HL HP;
    cbn [scan].
  - now injection 1 as <-.
  - inversion HL; subst.
    destruct (parse_line st line _) as [st1|e] eqn:E; [|discriminate].
    cbn [bind]. apply IH; [assumption|].
    apply parse_line_advance in E.
    exact (Hstep st line _ st1 H1 HP E).
Qed.

Lemma split_lines_no_newline (s : str) :
  Forall (fun l => ~ In newline l) (split_lines s).
Proof.
  induction s as [|c s IH]; cbn [split_lines].
  - constructor; [tauto|constructor].
  - destruct (Ascii.eqb c newline) eqn:E.
    + constructor; [tauto|exact IH].
    + destruct (split_lines s) as [|l ls]; [repeat constructor; simpl|].
      * intros [->|[]]. now rewrite Ascii.eqb_refl in E.
      * inversion IH; subst. constructor; [|assumption].
        intros [->|H]; [now rewrite Ascii.eqb_refl in E|contradiction].
Qed.

(** What holds of the files under construction after every turn on a line
    with no line feed holds of the files [parse] returns. *)
Lemma parse_advance (P : ParserState -> Prop) (R : list FileDiff -> Prop) :
  (forall st line more st',
     ~ In newline line -> P st -> advance st line more st' -> P st') ->
  P initial_state ->
  (forall st, P st -> R (save_file st)) ->
  R [] ->
  forall text fds, parse text = Ok fds -> R fds.
Proof.
  intros Hstep H0 Hend Hnil text fds. rewrite parse_unfold.
  destruct (forallb isspace text); [now injection 1 as <-|].
  destruct (scan initial_state (split_lines text)) as [st|e] eqn:E;
    [|discriminate].
  cbn [bind]. injection 1 as <-. apply Hend.
  exact (scan_advance P _ Hstep (split_lines text) initial_state st
           (split_lines_no_newline text) H0 E).
Qed.

(** The same for a property of each file. *)
Lemma parse_advance_files (Q : FileDiff -> Prop) :
  (forall st line more st',
     ~ In newline line -> Forall Q (save_file st) ->
     advance st line more st' -> Forall Q (save_file st')) ->
  forall text fds, parse text = Ok fds -> Forall Q fds.
Proof.
  intros Hstep.
  apply parse_advance with (P := fun st => Forall Q (save_file st));
    auto; constructor.
Qed.

Lemma save_file_open (st : ParserState) (f : FileDiff) :
  current_file st = Some f ->
  save_file st = file_diffs st ++ [save_hunk f (current_hunk st)].
Proof. unfold save_file. now intros ->. Qed.

(** The files closed so far and the file being built, for a property of
    each file: the turns of the four kinds that keep a file open. *)
Lemma advance_files (Q : FileDiff -> Prop) (st st' : ParserState)
    (line : str) (more : bool) :
  (forall old new, file_header_pattern line = Some (old, new) ->
     Q (new_FileDiff old new)) ->
  (forall f f', file_marker f line = Some f' ->
     Q (save_hunk f (current_hunk st)) -> Q (save_hunk f' (current_hunk st))) ->
  (forall f m, hunk_header_pattern line = Some m -> within_limit m ->
     Q (save_hunk f (current_hunk st)) ->
     Q (save_hunk (save_hunk f (current_hunk st))
          (Some (mkDiffHunk (decimal_value (group1 m))
                   (count_value (group2 m)) (decimal_value (group3 m))
                   (count_value (group4 m)) (strip (group5 m)) [])))) ->
  (forall f h, file_header_pattern line = None ->
     hunk_header_pattern line = None -> file_marker f line = None ->
     Q (save_hunk f (Some h)) ->
     Q (save_hunk (fst (content_line f h line more))
          (Some (snd (content_line f h line more))))) ->
  Forall Q (save_file st) -> advance st line more st' ->
  Forall Q (save_file st').
Proof.
  intros Hn Hm Hh Hc H A.
  destruct A
    as [old new E|f f' E Ef Em|f m E Ef Em Ehk Hl|f h E Ef Em Ehk Ec|E].
  - unfold save_file at 1. cbn [current_file current_hunk file_diffs].
    apply Forall_app; split; [exact H|]. constructor; [|constructor].
    now apply Hn.
  - rewrite (save_file_open st f Ef) in H.
    unfold save_file. cbn [current_file current_hunk file_diffs].
    apply Forall_app in H as [H1 H2]. apply Forall_app; split; [exact H1|].
    inversion H2; subst. constructor; [|constructor]. now apply Hm with f.
  - rewrite (save_file_open st f Ef) in H.
    unfold save_file. cbn [current_file current_hunk file_diffs].
    apply Forall_app in H as [H1 H2]. apply Forall_app; split; [exact H1|].
    inversion H2; subst. constructor; [|constructor]. now apply Hh.
  - rewrite (save_file_open st f Ef), Ec in H.
    unfold save_file. cbn [current_file current_hunk file_diffs].
    apply Forall_app in H as [H1 H2]. apply Forall_app; split; [exact H1|].
    inversion H2; subst. constructor; [|constructor]. now apply Hc.
  - exact H.
Qed.

End Advance.

Section FilesAndPaths.

Lemma advance_length (st st' : ParserState) (line : str) (more : bool) :
  advance st line more st' ->
  length (save_file st') =
  length (save_file st) + (if is_file_header line then 1 else 0).
Proof.
  unfold is_file_header.
  intros [old new E|f f' E Ef Em|f m E Ef Em Ehk Hl|f h E Ef Em Ehk Ec|E];
    rewrite E; try rewrite (save_file_open st _ Ef);
    unfold save_file; cbn [current_file current_hunk file_diffs];
    rewrite ?length_app; cbn [length]; lia.
Qed.

Lemma scan_length (ls : list str) :
  forall st st',
    scan st ls = Ok st' ->
    length (save_file st') =
    length (save_file st) + length (filter is_file_header ls).
Proof.
  induction ls as [|line rest IH]; intros st st'; cbn [scan filter].
  - injection 1 as <-. cbn [length]. lia.
  - destruct (parse_line st line _) as [st1|e] eqn:E; [|discriminate].
    cbn [bind]. intro E'. apply parse_line_advance in E.
    rewrite (IH _ _ E'), (advance_length _ _ _ _ E).
    destruct (is_file_header line); cbn [length]; lia.
Qed.

Lemma paths_set_save_hunk (f : FileDiff) (h : option DiffHunk) :
  paths_set (save_hunk f h) <-> paths_set f.
Proof. destruct h; reflexivity. Qed.

Lemma paths_set_marker (f f' : FileDiff) (line : str) :
  file_marker f line = Some f' -> paths_set f -> paths_set f'.
Proof.
  unfold file_marker, paths_set.
  destruct (new_file_mode_pattern line); [now injection 1 as <-|].
  destruct (deleted_file_mode_pattern line); [now injection 1 as <-|].
  destruct (rename_from_pattern line) as [p|].
  { injection 1 as <-. cbn. intuition discriminate. }
  destruct (rename_to_pattern line) as [p|] eqn:E; [|discriminate].
  injection 1 as <-. cbn. intros (_ & Ho & _).
  unfold rename_to_pattern, prefix_then_some in E.
  destruct (strip_prefix _ line) as [[|c r]|]; try discriminate.
  injection E as <-. repeat split; [exact Ho|discriminate].
Qed.

Lemma paths_set_content (f : FileDiff) (h : DiffHunk) (line : str)
    (more : bool) :
  paths_set f -> paths_set (fst (content_line f h line more)).
Proof.
  destruct (content_line_cases f h line more)
    as [(l & -> & _)|[(l & -> & _)|[(l & -> & _)| ->]]]; now cbn.
Qed.

End FilesAndPaths.

Lemma parse_one_file_per_header_aux (text : str) (fds : list FileDiff) :
  parse text = Ok fds ->
  length fds = length (filter is_file_header (split_lines text)).
Proof.
  rewrite parse_unfold. destruct (forallb isspace text) eqn:B.
  - injection 1 as <-.
    pose proof (blank_headerless _ (split_lines_blank _ B)) as H.
    induction H as [|l ls Hl _ IH]; [reflexivity|].
    cbn [filter]. unfold is_file_header at 1. now rewrite Hl.
  - destruct (scan initial_state (split_lines text)) as [st|e] eqn:E;
      [|discriminate].
    cbn [bind]. injection 1 as <-.
    exact (scan_length (split_lines text) initial_state st E).
Qed.

(** X5.  [parse] returns one file for each line of the text that is a
    file header, neither more nor fewer: a second header for the same
    path opens a second file, and nothing but a header opens one. *)
Theorem parse_one_file_per_header (text : str) (fds : list FileDiff) :
  parse text = Ok fds ->
  length fds = length (filter is_file_header (split_lines text)).
Proof.
  intro E. exact (parse_one_file_per_header_aux text fds E).
Qed.

Lemma parse_one_file_per_header_witness :
  exists fds, parse Samples.review_text = Ok fds /\
    length fds = 3 /\
    length (filter is_file_header (split_lines Samples.review_text)) = 3.
Proof.
  destruct (parse Samples.review_text) as [fds|e] eqn:E;
    [|vm_compute in E; discriminate].
  exists fds. split; [reflexivity|].
  pose proof (parse_one_file_per_header Samples.review_text fds E) as H.
  vm_compute in E. injection E as <-.
  split; [reflexivity|]. now rewrite <- H.
Defined.

(** X6.  In every file [parse] returns the path is not empty, the new
    path is set and is the path, and the old path is set: the optional
    paths of a parsed file are never left out, whatever markers the text
    holds. *)
Theorem parse_paths_set (text : str) (fds : list FileDiff) :
  parse text = Ok fds ->
  Forall (fun fd => new_path fd = Some (file_path fd) /\
                    old_path fd <> None /\ file_path fd <> []) fds.
Proof.
  apply (parse_advance_files paths_set).
  intros st line more st' _. apply advance_files.
  - intros old new E. apply file_header_pattern_sound in E as (_ & _ & Hn).
    repeat split; [discriminate|exact Hn].
  - intros f f' Em H. apply paths_set_save_hunk.
    apply (paths_set_marker f f' line Em). now apply paths_set_save_hunk in H.
  - intros f m _ _ H. now apply paths_set_save_hunk.
  - intros f h _ _ _ H. apply paths_set_save_hunk.
    apply paths_set_content. now apply paths_set_save_hunk in H.
Qed.

Lemma parse_paths_set_witness :
  exists fds, parse Samples.rename_to_only_diff = Ok fds /\
    map file_path fds = [py "b.py"] /\
    Forall (fun fd => new_path fd = Some (file_path fd) /\
                      old_path fd <> None /\ file_path fd <> []) fds.
Proof.
  eexists. split; [vm_compute; reflexivity|]. split; [reflexivity|].
  apply (parse_paths_set Samples.rename_to_only_diff). vm_compute.
  reflexivity.
Defined.

Section Runs.

Lemma run_from_S (start : Z) (n : nat) :
  run_from start (S n) = run_from start n ++ [(start + Z.of_nat n)%Z].
Proof. unfold run_from. now rewrite seq_S, map_app. Qed.

Variable h : DiffHunk.

Lemma numbered_runs (ls : list ChangedLine) :
  (forall before l after, ls = before ++ l :: after -> numbered h before l) ->
  map line_number (filter on_new_side ls) =
    run_from (new_start h) (length (filter on_new_side ls)) /\
  map original_line_number (filter on_old_side ls) =
    map Some (run_from (old_start h) (length (filter on_old_side ls))).
Proof.
  induction ls as [|l ls IH] using rev_ind; intro Hp; [now split|].
  destruct IH as [IHn IHo].
  { intros before x after E. apply (Hp before x (after ++ [l])).
    rewrite E, <- app_assoc. reflexivity. }
  specialize (Hp ls l [] eq_refl).
  unfold numbered, new_position, old_position, len in Hp.
  rewrite !filter_app. cbn [filter]. unfold on_new_side at 2 4.
  unfold on_old_side at 2 4.
  destruct (change_type l);
    rewrite ?app_nil_r, ?map_app, ?length_app; cbn [map length];
    rewrite ?Nat.add_1_r, ?run_from_S, ?map_app; cbn [map].
  - split; [|exact IHo]. rewrite IHn. f_equal. now rewrite Hp.
  - split; [exact IHn|]. rewrite IHo. f_equal. destruct Hp as [_ ->].
    reflexivity.
  - destruct Hp as [Hn Ho]. split.
    + rewrite IHn. f_equal. now rewrite Hn.
    + rewrite IHo. f_equal. now rewrite Ho.
Qed.

End Runs.

(** X7.  In every hunk [parse] returns, the additions and context lines,
    taken in order, carry the line numbers new start, new start + 1, and
    so on without a gap, and the deletions and context lines carry the
    original numbers old start, old start + 1, and so on: on each side the
    numbers are consecutive and none is given twice. *)
Theorem hunk_numbers_consecutive (text : str) (fds : list FileDiff) :
  parse text = Ok fds ->
  Forall (fun fd =>
    Forall (fun h =>
      map line_number (filter on_new_side (lines h)) =
        run_from (new_start h) (length (filter on_new_side (lines h))) /\
      map original_line_number (filter on_old_side (lines h)) =
        map Some
          (run_from (old_start h)
             (length (filter on_old_side (lines h)))))
      (hunks fd)) fds.
Proof.
  intro E. pose proof (parse_positioned text fds E) as H.
  eapply Forall_impl; [|exact H]. intros fd Hfd.
  eapply Forall_impl; [|exact Hfd]. intros h Hh.
  apply numbered_runs. exact Hh.
Qed.

Lemma hunk_numbers_consecutive_witness :
  exists fds, parse Samples.review_text = Ok fds /\
    map (fun fd => map (fun h => map line_number
                                   (filter on_new_side (lines h)))
                       (hunks fd)) fds
      = [[[1; 2]]; [[1]]; [[1]]]%Z /\
    Forall (fun fd =>
      Forall (fun h =>
        map line_number (filter on_new_side (lines h)) =
          run_from (new_start h) (length (filter on_new_side (lines h))) /\
        map original_line_number (filter on_old_side (lines h)) =
          map Some
            (run_from (old_start h)
               (length (filter on_old_side (lines h)))))
        (hunks fd)) fds.
Proof.
  eexists. split; [vm_compute; reflexivity|]. split; [reflexivity|].
  apply (hunk_numbers_consecutive Samples.review_text). vm_compute.
  reflexivity.
Defined.

Section LastLine.

(** All the lines but the last are read with more lines to come. *)
Lemma scan_app_cons (a b : list str) (x : str) (st : ParserState) :
  scan st (a ++ x :: b) = (st' <- scan_inner st a ;; scan st' (x :: b)).
Proof.
  revert st. induction a as [|c a IH]; intro st; [reflexivity|].
  cbn [app scan scan_inner].
  replace (match a ++ x :: b with [] => false | _ :: _ => true end)
    with true by now destruct a.
  destruct (parse_line st c true) as [st1|e]; [|reflexivity].
  cbn [bind]. apply IH.
Qed.

(** Only for an empty line does it matter whether more lines follow. *)
Lemma parse_line_more (st : ParserState) (line : str) (m1 m2 : bool) :
  line <> [] -> parse_line st line m1 = parse_line st line m2.
Proof.
  intro Hne. unfold parse_line, hunk_or_content, content_line.
  now rewrite (str_eqb_neq _ _ Hne).
Qed.

(** An empty last line changes nothing. *)
Lemma parse_line_empty_last (st : ParserState) :
  parse_line st [] false = Ok st.
Proof.
  destruct st as [fds [f|] [h|]]; reflexivity.
Qed.

Lemma scan_inner_last (ls : list str) (x : str) (st : ParserState) :
  x <> [] ->
  scan st (ls ++ [x; []]) = scan st (ls ++ [x]).
Proof.
  intro Hne. rewrite !scan_app_cons.
  destruct (scan_inner st ls) as [st1|e]; [|reflexivity].
  cbn [bind scan]. rewrite (parse_line_more st1 x true false Hne).
  destruct (parse_line st1 x false) as [st2|e]; [|reflexivity].
  cbn [bind]. now rewrite parse_line_empty_last.
Qed.

End LastLine.

(** X8.  A line feed at the end of a text whose last line is not empty
    does not change what [parse] returns: the empty piece it makes is the
    last line and is left aside. *)
Theorem parse_trailing_newline (text : str) :
  last (split_lines text) [] <> [] ->
  parse (text ++ [newline]) = parse text.
Proof.
  intro Hlast. rewrite !parse_unfold, forallb_app.
  change (forallb isspace [newline]) with true. rewrite andb_true_r.
  destruct (forallb isspace text); [reflexivity|].
  rewrite split_lines_app. change (split_lines []) with [@nil ascii].
  destruct (split_lines_cons text) as (l & ls & E). rewrite E in *.
  destruct (@exists_last _ (l :: ls)) as (ls' & x & Ex); [discriminate|].
  rewrite Ex in *. rewrite last_last in Hlast.
  rewrite <- app_assoc. cbn [app].
  now rewrite (scan_inner_last ls' x initial_state Hlast).
Qed.

Lemma parse_trailing_newline_witness :
  parse (Samples.review_text ++ [newline]) = parse Samples.review_text.
Proof.
  apply parse_trailing_newline. vm_compute. discriminate.
Defined.

(* ===================================================================== *)
(** ** Numbers as text *)
(* ===================================================================== *)

Section Numerals.

Lemma of_uint_acc_value (d : Decimal.uint) :
  forall acc, Zpos (Pos.of_uint_acc d acc) = uint_value d (Zpos acc).
Proof.
  induction d; intro acc; cbn [Pos.of_uint_acc uint_value];
    try reflexivity; rewrite IHd; f_equal; lia.
Qed.

Lemma of_uint_value (d : Decimal.uint) :
  Z.of_N (Pos.of_uint d) = uint_value d 0.
Proof.
  induction d; cbn [Pos.of_uint uint_value Z.of_N]; try reflexivity;
    try exact IHd; rewrite of_uint_acc_value; reflexivity.
Qed.

Lemma numeral_value (d : Decimal.uint) :
  forall acc,
    fold_left (fun a c => (10 * a + digit_value c)%Z)
      (list_ascii_of_string (NilEmpty.string_of_uint d)) acc
    = uint_value d acc.
Proof.
  induction d; intro acc;
    cbn [NilEmpty.string_of_uint list_ascii_of_string fold_left uint_value];
    try reflexivity; rewrite IHd; f_equal;
    change (digit_value "0") with 0%Z; change (digit_value "1") with 1%Z;
    change (digit_value "2") with 2%Z; change (digit_value "3") with 3%Z;
    change (digit_value "4") with 4%Z; change (digit_value "5") with 5%Z;
    change (digit_value "6") with 6%Z; change (digit_value "7") with 7%Z;
    change (digit_value "8") with 8%Z; change (digit_value "9") with 9%Z;
    lia.
Qed.

Lemma numeral_digits (d : Decimal.uint) :
  forallb isdigit (list_ascii_of_string (NilEmpty.string_of_uint d)) = true.
Proof.
  induction d; cbn [NilEmpty.string_of_uint list_ascii_of_string forallb];
    try reflexivity; rewrite IHd; reflexivity.
Qed.

(** [str] writes a number that is not negative as a run of digits, which
    [int] reads back. *)
Lemma str_of_int_digits (n : Z) :
  (0 <= n)%Z -> digits (str_of_int n) /\ decimal_value (str_of_int n) = n.
Proof.
  intro Hn. destruct n as [|p|p]; [now split| |lia].
  unfold str_of_int, py. cbn [Z.to_int NilZero.string_of_int].
  pose proof (DecimalPos.Unsigned.to_uint_nonnil p) as Hnil.
  assert (E : NilZero.string_of_uint (Pos.to_uint p)
              = NilEmpty.string_of_uint (Pos.to_uint p)).
  { unfold NilZero.string_of_uint. now destruct (Pos.to_uint p). }
  rewrite E. split; [split|].
  - destruct (Pos.to_uint p); [congruence| | | | | | | | | |]; discriminate.
  - apply numeral_digits.
  - unfold decimal_value. rewrite numeral_value, <- of_uint_value.
    now rewrite DecimalPos.Unsigned.of_to.
Qed.

(** A run of digits is the text of a numeral of the standard library. *)
Lemma digits_numeral (d : str) :
  forallb isdigit d = true ->
  exists u, list_ascii_of_string (NilEmpty.string_of_uint u) = d /\
            Decimal.nb_digits u = length d.
Proof.
  induction d as [|c d IH]; intro H; [now exists Decimal.Nil|].
  cbn [forallb] in H. apply andb_prop in H as [Hc Hd].
  destruct (IH Hd) as (u & Eu & Nu).
  assert (G : exists k,
            In k [Decimal.D0; Decimal.D1; Decimal.D2; Decimal.D3; Decimal.D4;
                  Decimal.D5; Decimal.D6; Decimal.D7; Decimal.D8; Decimal.D9]
            /\ forall v, list_ascii_of_string (NilEmpty.string_of_uint (k v))
                         = c :: list_ascii_of_string
                                  (NilEmpty.string_of_uint v)).
  { clear - Hc. destruct c as [b0 b1 b2 b3 b4 b5 b6 b7].
    destruct b0, b1, b2, b3, b4, b5, b6, b7; try discriminate Hc;
      first [ exists Decimal.D0; split; [cbn; tauto|intro v; reflexivity]
            | exists Decimal.D1; split; [cbn; tauto|intro v; reflexivity]
            | exists Decimal.D2; split; [cbn; tauto|intro v; reflexivity]
            | exists Decimal.D3; split; [cbn; tauto|intro v; reflexivity]
            | exists Decimal.D4; split; [cbn; tauto|intro v; reflexivity]
            | exists Decimal.D5; split; [cbn; tauto|intro v; reflexivity]
            | exists Decimal.D6; split; [cbn; tauto|intro v; reflexivity]
            | exists Decimal.D7; split; [cbn; tauto|intro v; reflexivity]
            | exists Decimal.D8; split; [cbn; tauto|intro v; reflexivity]
            | exists Decimal.D9; split; [cbn; tauto|intro v; reflexivity] ]. }
  destruct G as (k & Hk & Ek). exists (k u). rewrite Ek, Eu.
  split; [reflexivity|]. cbn [length]. rewrite <- Nu.
  cbn in Hk. repeat (destruct Hk as [<-|Hk]; [reflexivity|]). contradiction.
Qed.

Lemma numeral_length (u : Decimal.uint) :
  length (list_ascii_of_string (NilEmpty.string_of_uint u))
  = Decimal.nb_digits u.
Proof.
  induction u; cbn [NilEmpty.string_of_uint list_ascii_of_string length
                    Decimal.nb_digits]; congruence.
Qed.

(** The text of a number that is not negative, as [str] writes it. *)
Lemma str_of_int_numeral (n : N) :
  str_of_int (Z.of_N n) =
  list_ascii_of_string (NilEmpty.string_of_uint (N.to_uint n)).
Proof.
  destruct n as [|p]; [reflexivity|].
  unfold str_of_int, py. cbn [Z.of_N Z.to_int NilZero.string_of_int N.to_uint].
  pose proof (DecimalPos.Unsigned.to_uint_nonnil p) as Hnil.
  unfold NilZero.string_of_uint. now destruct (Pos.to_uint p).
Qed.

(** [str] writes the value of a run of digits with no more digits than
    the run has. *)
Lemma str_of_int_short (d : str) :
  digits d -> (len (str_of_int (decimal_value d)) <= len d)%Z.
Proof.
  intros [Hne Hd]. destruct (digits_numeral d Hd) as (u & Eu & Nu).
  assert (Hu : u <> Decimal.Nil).
  { intros ->. cbn in Eu. congruence. }
  assert (V : decimal_value d = Z.of_N (Pos.of_uint u)).
  { unfold decimal_value. now rewrite <- Eu, numeral_value, of_uint_value. }
  rewrite V, str_of_int_numeral, DecimalPos.Unsigned.to_of.
  unfold len. rewrite numeral_length, <- Nu.
  apply inj_le. now apply DecimalFacts.nb_digits_unorm.
Qed.

Lemma short_le (a b : str) : (len a <= len b)%Z -> short b -> short a.
Proof. unfold short. lia. Qed.

End Numerals.

(* ===================================================================== *)
(** ** The text handed to the analyzers, read again *)
(* ===================================================================== *)

Section Trimming.

(** What [lstrip] leaves does not start with white space. *)
Lemma lstrip_head (s : str) :
  match lstrip s with c :: _ => isspace c = false | [] => True end.
Proof.
  induction s as [|c s IH]; cbn [lstrip]; [exact I|].
  destruct (isspace c) eqn:E; [exact IH|exact E].
Qed.

Lemma lstrip_id (s : str) :
  match s with c :: _ => isspace c = false | [] => True end ->
  lstrip s = s.
Proof. destruct s as [|c s]; [reflexivity|]. cbn [lstrip]. now intros ->. Qed.

(** [lstrip] takes a prefix away. *)
Lemma lstrip_suffix (s : str) : exists p, s = p ++ lstrip s.
Proof.
  induction s as [|c s (p & IH)]; [now exists []|]. cbn [lstrip].
  destruct (isspace c); [|now exists []].
  exists (c :: p). cbn [app]. now rewrite <- IH.
Qed.

Lemma head_rev_last (s : str) (c : ascii) (r : str) :
  rev s = c :: r -> s = rev r ++ [c].
Proof.
  intro H. apply (f_equal (@rev ascii)) in H. now rewrite rev_involutive in H.
Qed.

(** What [strip] returns has no white space at either end. *)
Lemma strip_ends (s : str) :
  lstrip (strip s) = strip s /\ lstrip (rev (strip s)) = rev (strip s).
Proof.
  unfold strip, rstrip. rewrite rev_involutive.
  set (u := lstrip s). set (v := lstrip (rev u)).
  pose proof (lstrip_head s) as Hu. fold u in Hu.
  pose proof (lstrip_head (rev u)) as Hv. fold v in Hv.
  split; [|now apply lstrip_id].
  apply lstrip_id.
  destruct (rev v) as [|c r] eqn:E; [exact I|].
  (* the first character of [rev v] is the last of [v], a suffix of
     [rev u], hence the first of [u] *)
  destruct (lstrip_suffix (rev u)) as (p & Hp). fold v in Hp.
  apply (f_equal (@rev ascii)) in Hp.
  rewrite rev_involutive, rev_app_distr, E in Hp.
  rewrite Hp in Hu. exact Hu.
Qed.

Lemma strip_blank_first (s : str) : strip (py " " ++ strip s) = strip s.
Proof.
  destruct (strip_ends s) as [H1 H2].
  unfold strip at 1, rstrip.
  change (lstrip (py " " ++ strip s)) with (lstrip (strip s)).
  now rewrite H1, H2, rev_involutive.
Qed.

Lemma lstrip_incl (s : str) (c : ascii) : In c (lstrip s) -> In c s.
Proof.
  destruct (lstrip_suffix s) as (p & E). intro H. rewrite E.
  apply in_or_app. now right.
Qed.

Lemma strip_incl (s : str) (c : ascii) : In c (strip s) -> In c s.
Proof.
  unfold strip, rstrip. intro H. apply in_rev in H.
  apply lstrip_incl in H. apply in_rev in H. now apply lstrip_incl.
Qed.

End Trimming.

Section JoinSplit.

Lemma split_lines_one (l : str) : ~ In newline l -> split_lines l = [l].
Proof.
  induction l as [|c l IH]; intro H; [reflexivity|]. cbn [split_lines].
  destruct (Ascii.eqb c newline) eqn:E.
  - apply Ascii.eqb_eq in E. subst c. exfalso. apply H. now left.
  - rewrite IH; [reflexivity|]. intro Hin. apply H. now right.
Qed.

(** A list of lines is found again when its joined text is split. *)
Lemma split_join_lines (ls : list str) :
  ls <> [] -> Forall (fun l => ~ In newline l) ls ->
  split_lines (join_lines ls) = ls.
Proof.
  induction ls as [|l ls IH]; [congruence|]. intros _ H.
  inversion H as [|? ? Hl Hls]; subst.
  destruct ls as [|l' ls]; [now apply split_lines_one|].
  change (join_lines (l :: l' :: ls))
    with (l ++ newline :: join_lines (l' :: ls)).
  rewrite split_lines_app, (split_lines_one l Hl), IH;
    [reflexivity|discriminate|assumption].
Qed.

End JoinSplit.

Section Replay.

Lemma scan_inner_app (a b : list str) (st : ParserState) :
  scan_inner st (a ++ b) = (st' <- scan_inner st a ;; scan_inner st' b).
Proof.
  revert st. induction a as [|c a IH]; intro st; [reflexivity|].
  cbn [app scan_inner].
  destruct (parse_line st c true) as [st1|e]; [|reflexivity].
  cbn [bind]. apply IH.
Qed.

(** When no line is empty, the last line is read like the others. *)
Lemma scan_eq_inner (ls : list str) (st : ParserState) :
  Forall (fun l => l <> []) ls -> scan st ls = scan_inner st ls.
Proof.
  intro H. revert st. induction H as [|l ls Hl _ IH]; intro st;
    [reflexivity|].
  cbn [scan scan_inner].
  rewrite (parse_line_more st l _ true Hl).
  destruct (parse_line st l true) as [st1|e]; [|reflexivity].
  cbn [bind]. apply IH.
Qed.

(** The text written for a line is read back as that line. *)
Lemma reparse_line (fds : list FileDiff) (f : FileDiff) (hk : DiffHunk)
    (l : ChangedLine) (more : bool) :
  clean_line l -> numbered hk (lines hk) l ->
  parse_line (mkParserState fds (Some f) (Some hk)) (line_text l) more =
  Ok (mkParserState fds (Some (tick f l)) (Some (append_line hk l))).
Proof.
  intros [_ Hc] Hn. destruct l as [n c k o].
  unfold line_text, tick, numbered in *.
  cbn [change_type content line_number original_line_number] in *.
  assert (S : startswith (prefix_of k ++ c) (py "+") = true \/
              startswith (prefix_of k ++ c) (py "-") = true \/
              startswith (prefix_of k ++ c) (py " ") = true \/
              prefix_of k ++ c = []) by (destruct k; auto).
  destruct (content_shape f _ S) as (P1 & P2 & P3).
  rewrite (parse_line_content (mkParserState fds (Some f) (Some hk)) f
             eq_refl hk _ more eq_refl P1 P2 P3).
  cbn [file_diffs]. unfold content_line.
  rewrite count_new_side_position, count_old_side_position.
  destruct k; cbn [prefix_of].
  - change (startswith (py "+" ++ c) (py "+")) with true.
    change (startswith (py "+" ++ c) (py "+++"))
      with (startswith c (py "++")).
    destruct Hc as [-> ->]. cbn [andb negb fst snd]. rewrite <- Hn.
    reflexivity.
  - change (startswith (py "-" ++ c) (py "+")) with false.
    change (startswith (py "-" ++ c) (py "-")) with true.
    change (startswith (py "-" ++ c) (py "---"))
      with (startswith c (py "--")).
    rewrite Hc. cbn [andb negb fst snd]. destruct Hn as [<- ->].
    reflexivity.
  - change (startswith (py " " ++ c) (py "+")) with false.
    change (startswith (py " " ++ c) (py "-")) with false.
    change (startswith (py " " ++ c) (py " ")) with true.
    cbn [andb orb negb fst snd]. destruct Hn as [<- ->]. reflexivity.
Qed.

Lemma reparse_lines (fds : list FileDiff) (os oc ns nc : Z) (hd : str)
    (ls2 : list ChangedLine) :
  forall (ls1 : list ChangedLine) (f : FileDiff),
    Forall clean_line ls2 ->
    positioned (mkDiffHunk os oc ns nc hd (ls1 ++ ls2)) ->
    scan_inner
      (mkParserState fds (Some f) (Some (mkDiffHunk os oc ns nc hd ls1)))
      (map line_text ls2) =
    Ok (mkParserState fds (Some (fold_left tick ls2 f))
          (Some (mkDiffHunk os oc ns nc hd (ls1 ++ ls2)))).
Proof.
  induction ls2 as [|l ls2 IH]; intros ls1 f Hc Hp.
  - cbn. now rewrite app_nil_r.
  - inversion Hc as [|? ? Hl Hls]; subst. cbn [map scan_inner].
    rewrite reparse_line; [|exact Hl|exact (Hp ls1 l ls2 eq_refl)].
    cbn [bind fold_left].
    change (append_line (mkDiffHunk os oc ns nc hd ls1) l)
      with (mkDiffHunk os oc ns nc hd (ls1 ++ [l])).
    rewrite (IH (ls1 ++ [l]) (tick f l) Hls).
    + now rewrite <- app_assoc.
    + now rewrite <- app_assoc.
Qed.

(** The lines written for a hunk: its header, then its lines. *)
Lemma hunk_lines_written (h : DiffHunk) :
  hunk_diff_lines h =
  hunk_header_text (str_of_int (old_start h))
    (Some (str_of_int (old_count h))) (str_of_int (new_start h))
    (Some (str_of_int (new_count h))) (py " " ++ header h)
  :: map line_text (lines h).
Proof.
  unfold hunk_diff_lines, hunk_header_text, count_text. f_equal.
  rewrite <- !app_assoc. reflexivity.
Qed.

(** The lines written for a hunk are read back as that hunk. *)
Lemma reparse_hunk (fds : list FileDiff) (f : FileDiff)
    (c : option DiffHunk) (h : DiffHunk) :
  clean_hunk h ->
  scan_inner (mkParserState fds (Some f) c) (hunk_diff_lines h) =
  Ok (mkParserState fds (Some (fold_left tick (lines h) (save_hunk f c)))
        (Some h)).
Proof.
  intros (((Hos & Hoc & Hns & Hnc) & Sos & Soc & Sns & Snc)
          & Hhd & _ & Hls & Hp).
  destruct (str_of_int_digits _ Hos) as [Dos Vos].
  destruct (str_of_int_digits _ Hoc) as [Doc Voc].
  destruct (str_of_int_digits _ Hns) as [Dns Vns].
  destruct (str_of_int_digits _ Hnc) as [Dnc Vnc].
  rewrite hunk_lines_written. cbn [scan_inner].
  rewrite (parse_line_hunk_header (mkParserState fds (Some f) c) f
             _ _ _ (Some _) (Some _) true eq_refl
             (conj Dos Sos) (conj Dns Sns) (conj Doc Soc) (conj Dnc Snc)).
  cbn [bind file_diffs current_hunk count_value].
  rewrite Vos, Voc, Vns, Vnc, Hhd.
  destruct h as [os oc ns nc hdr ls].
  cbn [lines old_start old_count new_start new_count header] in *.
  exact (reparse_lines fds os oc ns nc hdr ls [] (save_hunk f c) Hls Hp).
Qed.

Lemma reparse_hunks (fds : list FileDiff) (hs : list DiffHunk) :
  forall (f : FileDiff) (c : option DiffHunk),
    Forall clean_hunk hs ->
    scan_inner (mkParserState fds (Some f) c) (flat_map hunk_diff_lines hs) =
    Ok (mkParserState fds (Some (fst (replay f c hs))) (snd (replay f c hs))).
Proof.
  induction hs as [|h hs IH]; intros f c H; [reflexivity|].
  inversion H as [|? ? Hh Hhs]; subst.
  cbn [flat_map replay]. rewrite scan_inner_app, (reparse_hunk _ _ _ _ Hh).
  cbn [bind]. now apply IH.
Qed.

Lemma tick_all (ls : list ChangedLine) :
  forall f, fold_left tick ls f =
    mkFileDiff (file_path f) (old_path f) (new_path f) (is_new_file f)
      (is_deleted_file f) (is_renamed f) (language f) (hunks f)
      (additions f + count_kind addition ls)
      (deletions f + count_kind deletion ls).
Proof.
  unfold count_kind.
  induction ls as [|l ls IH]; intro f; cbn [fold_left filter length].
  - destruct f. cbn. f_equal; lia.
  - rewrite IH. unfold tick.
    destruct (change_type l); cbn; f_equal; lia.
Qed.

Lemma count_kind_app (k : ChangeType) (a b : list ChangedLine) :
  count_kind k (a ++ b) = (count_kind k a + count_kind k b)%Z.
Proof. unfold count_kind. rewrite filter_app, length_app. lia. Qed.

(** What is under construction after the hunks have been read back. *)
Lemma replay_saved (hs : list DiffHunk) :
  forall f c,
    save_hunk (fst (replay f c hs)) (snd (replay f c hs)) =
    extended (save_hunk f c) hs.
Proof.
  induction hs as [|h hs IH]; intros f c; cbn [replay].
  - unfold extended, count_kind. cbn [flat_map filter length Z.of_nat fst snd].
    rewrite app_nil_r, !Z.add_0_r. now destruct (save_hunk f c).
  - rewrite IH, tick_all. unfold extended.
    cbn [save_hunk flat_map file_path old_path new_path is_new_file
         is_deleted_file is_renamed language hunks additions deletions].
    rewrite !count_kind_app, <- app_assoc. cbn [app].
    f_equal; lia.
Qed.

End Replay.

Section CleanFiles.

Lemma decimal_value_nonneg (s : str) :
  forallb isdigit s = true -> (0 <= decimal_value s)%Z.
Proof.
  unfold decimal_value.
  assert (G : forall s acc, forallb isdigit s = true -> (0 <= acc)%Z ->
            (0 <= fold_left (fun a c => 10 * a + digit_value c) s acc)%Z).
  { clear. induction s as [|c s IH]; intros acc H Ha; [exact Ha|].
    cbn [forallb] in H. apply andb_prop in H as [Hc Hs].
    cbn [fold_left]. apply IH; [exact Hs|].
    unfold isdigit, digit_value in *. apply andb_prop in Hc as [Hc _].
    apply N.leb_le in Hc. lia. }
  intros H. apply G; [exact H|lia].
Qed.

Lemma count_value_nonneg (g : option str) :
  match g with Some d => digits d | None => True end ->
  (0 <= count_value g)%Z.
Proof.
  destruct g as [d|]; cbn [count_value]; [|lia].
  intros [_ H]. now apply decimal_value_nonneg.
Qed.

Lemma group5_incl (line : str) (m : HunkMatch) (c : ascii) :
  hunk_header_pattern line = Some m -> In c (group5 m) -> In c line.
Proof.
  intros H Hin. rewrite (hunk_header_pattern_sound _ _ H).
  unfold hunk_header_text. repeat (apply in_or_app; right). exact Hin.
Qed.

Lemma tail1_incl (s : str) (c : ascii) : In c (tail1 s) -> In c s.
Proof. destruct s; [tauto|]. cbn. tauto. Qed.

Lemma count_value_short (g : option str) :
  match g with Some d => digits d | None => True end ->
  match g with Some d => short d | None => True end ->
  short (str_of_int (count_value g)).
Proof.
  destruct g as [d|]; cbn [count_value].
  - intros Hd Hs. exact (short_le _ _ (str_of_int_short d Hd) Hs).
  - intros _ _. unfold short. vm_compute. discriminate.
Qed.

(** The hunk opened by a header whose numbers are short is clean. *)
Lemma clean_opened (line : str) (m : HunkMatch) :
  ~ In newline line -> hunk_header_pattern line = Some m ->
  within_limit m ->
  clean_hunk (mkDiffHunk (decimal_value (group1 m)) (count_value (group2 m))
                (decimal_value (group3 m)) (count_value (group4 m))
                (strip (group5 m)) []).
Proof.
  intros Hnl Hm (S1 & S3 & S2 & S4).
  destruct (hunk_header_groups _ _ Hm) as (D1 & D3 & H2 & H4).
  pose proof D1 as [_ H1]. pose proof D3 as [_ H3].
  split; [|split; [|split; [|split]]];
    cbn [old_start old_count new_start new_count header lines].
  - split.
    + repeat split; auto using decimal_value_nonneg, count_value_nonneg.
    + repeat split.
      * exact (short_le _ _ (str_of_int_short _ D1) S1).
      * now apply count_value_short.
      * exact (short_le _ _ (str_of_int_short _ D3) S3).
      * now apply count_value_short.
  - apply strip_blank_first.
  - intro Hin. apply Hnl. apply (group5_incl _ _ _ Hm).
    now apply strip_incl.
  - constructor.
  - now apply positioned_empty.
Qed.

(** The content branches keep the open hunk clean. *)
Lemma clean_content (f : FileDiff) (h : DiffHunk) (line : str)
    (more : bool) :
  ~ In newline line -> clean_hunk h ->
  clean_hunk (snd (content_line f h line more)) /\
  hunks (fst (content_line f h line more)) = hunks f.
Proof.
  intros Hnl (Hst & Hhd & Hhn & Hls & Hp).
  assert (Htl : ~ In newline (tail1 line))
    by (intro H; now apply Hnl, tail1_incl).
  assert (G : forall l, content l = tail1 line ->
            match change_type l with
            | addition => original_line_number l = None /\
                          startswith (tail1 line) (py "++") = false
            | deletion => startswith (tail1 line) (py "--") = false
            | context => True
            end ->
            numbered h (lines h) l -> clean_hunk (append_line h l)).
  { intros l Hc Hk Hn. split; [exact Hst|]. split; [exact Hhd|].
    split; [exact Hhn|]. split; [|now apply positioned_append].
    cbn [append_line lines]. apply Forall_app. split; [exact Hls|].
    constructor; [|constructor]. split; rewrite Hc; assumption. }
  unfold content_line.
  rewrite count_new_side_position, count_old_side_position.
  destruct (startswith line (py "+")) eqn:E1;
    [destruct (startswith line (py "+++")) eqn:E1'|]; cbn [andb negb].
  2:{ split; [|reflexivity]. cbn [snd]. apply G; cbn; auto.
      apply startswith_char in E1 as [r ->]. split; [reflexivity|exact E1']. }
  all: destruct (startswith line (py "-")) eqn:E2;
    [destruct (startswith line (py "---")) eqn:E2'|]; cbn [andb negb].
  all: try (split; [|reflexivity]; cbn [snd]; apply G; cbn; auto;
            apply startswith_char in E2 as [r ->]; exact E2').
  all: destruct (startswith line (py " ")) eqn:E3; cbn [orb].
  all: try (split; [|reflexivity]; cbn [snd]; apply G; cbn; auto).
  all: destruct (str_eqb line [] && more) eqn:E4.
  all: try (split; [|reflexivity]; cbn [snd];
            now repeat split).
  all: apply andb_prop in E4 as [E4 _]; apply str_eqb_eq in E4; subst line.
  all: split; [|reflexivity]; cbn [snd]; apply G; cbn; auto.
Qed.

(** Every file [parse] returns is clean. *)
Lemma parse_clean (text : str) (fds : list FileDiff) :
  parse text = Ok fds -> Forall clean_file fds.
Proof.
  apply (parse_advance_files clean_file).
  intros st line more st' Hnl. unfold clean_file. apply advance_files.
  - intros old new _. constructor.
  - intros f f' Em. apply file_marker_keeps in Em as (Hh & _).
    now rewrite !hunks_save_hunk, Hh.
  - intros f m Hm Hlim H. rewrite hunks_save_hunk. apply Forall_app.
    split; [exact H|]. constructor; [|constructor].
    now apply clean_opened with line.
  - intros f h _ _ _. rewrite !hunks_save_hunk.
    intro H. apply Forall_app in H as [H1 H2]. inversion H2; subst.
    destruct (clean_content f h line more Hnl) as [Hc Hh]; [assumption|].
    rewrite Hh. apply Forall_app. split; [exact H1|].
    constructor; [exact Hc|constructor].
Qed.

Lemma digits_no_newline (s : str) :
  forallb isdigit s = true -> ~ In newline s.
Proof.
  intros H Hin. rewrite forallb_forall in H. specialize (H _ Hin).
  discriminate.
Qed.

(** The lines written for a clean hunk are not empty and hold no line
    feed. *)
Lemma written_lines (h : DiffHunk) :
  clean_hunk h ->
  Forall (fun l => ~ In newline l /\ l <> []) (hunk_diff_lines h).
Proof.
  intros (((Hos & Hoc & Hns & Hnc) & _) & _ & Hhn & Hls & _).
  rewrite hunk_lines_written. constructor.
  - split; [|discriminate].
    destruct (str_of_int_digits _ Hos) as [[_ Dos] _].
    destruct (str_of_int_digits _ Hoc) as [[_ Doc] _].
    destruct (str_of_int_digits _ Hns) as [[_ Dns] _].
    destruct (str_of_int_digits _ Hnc) as [[_ Dnc] _].
    apply digits_no_newline in Dos, Doc, Dns, Dnc.
    unfold hunk_header_text, count_text. intro Hin.
    repeat (apply in_app_or in Hin as [Hin|Hin];
            [try contradiction;
             try (cbn in Hin; repeat destruct Hin as [Hin|Hin];
                  try discriminate Hin; contradiction)|]).
    contradiction.
  - rewrite Forall_map. eapply Forall_impl; [|exact Hls].
    intros l [Hc _]. unfold line_text. split.
    + intro Hin. apply in_app_or in Hin as [Hin|Hin]; [|contradiction].
      destruct (change_type l); cbn in Hin; destruct Hin as [Hin|[]];
        discriminate.
    + destruct (change_type l); discriminate.
Qed.

End CleanFiles.

Section ReadAgain.

Variables (hl old new : str).
Hypothesis hl_header : file_header_pattern hl = Some (old, new).
Hypothesis hl_line : ~ In newline hl.

Lemma header_not_blank (rest : str) : forallb isspace (hl ++ rest) = false.
Proof.
  destruct (file_header_pattern_sound _ _ _ hl_header) as (-> & _).
  reflexivity.
Qed.

Lemma header_turn (st : ParserState) (more : bool) :
  parse_line st hl more =
  Ok (mkParserState (save_file st) (Some (new_FileDiff old new)) None).
Proof. unfold parse_line. now rewrite hl_header. Qed.

(** The text written for the hunks of a clean file, under a file header,
    is read back as those hunks. *)
Lemma reparse_file (hs : list DiffHunk) :
  Forall clean_hunk hs ->
  parse (hl ++ newline :: join_lines (flat_map hunk_diff_lines hs)) =
  Ok [extended (new_FileDiff old new) hs].
Proof.
  intro Hc. rewrite parse_unfold, header_not_blank, split_lines_app.
  rewrite (split_lines_one hl hl_line). cbn [app].
  assert (Hne : hl <> []).
  { destruct (file_header_pattern_sound _ _ _ hl_header) as (-> & _).
    discriminate. }
  destruct hs as [|h hs].
  - cbn [flat_map join_lines split_lines scan].
    rewrite header_turn. cbn [bind]. rewrite parse_line_empty_last.
    cbn [bind]. unfold save_file, extended, count_kind. cbn. reflexivity.
  - assert (W : Forall (fun l => ~ In newline l /\ l <> [])
                  (flat_map hunk_diff_lines (h :: hs))).
    { clear - Hc. induction Hc as [|x xs Hx _ IH]; [constructor|].
      cbn [flat_map]. apply Forall_app. split; [|exact IH].
      now apply written_lines. }
    rewrite split_join_lines.
    + rewrite scan_eq_inner.
      * cbn [scan_inner]. rewrite header_turn. cbn [bind].
        rewrite (reparse_hunks _ _ _ _ Hc). cbn [bind].
        unfold save_file at 1. cbn [current_file current_hunk file_diffs].
        rewrite replay_saved. reflexivity.
      * constructor; [exact Hne|].
        eapply Forall_impl; [|exact W]. now intros l [_ H].
    + cbn [flat_map]. rewrite hunk_lines_written. discriminate.
    + eapply Forall_impl; [|exact W]. now intros l [H _].
Qed.

End ReadAgain.

(** X9.  The diff text that [_prepare_code_context] writes for a parsed
    file, put under any file header, is parsed into one file that has
    the same hunks, with the same lines and numbers, and the same
    counters as the file it was written from: what the analyzers are
    given loses nothing of the hunks. *)
Theorem diff_content_reparses (text hl old new : str)
    (fds : list FileDiff) :
  file_header_pattern hl = Some (old, new) -> ~ In newline hl ->
  parse text = Ok fds ->
  Forall (fun fd =>
    parse (hl ++ newline :: ctx_diff_content (_prepare_code_context fd)) =
    Ok [mkFileDiff new (Some old) (Some new) false false false
          (detect_language new) (hunks fd) (additions fd) (deletions fd)])
    fds.
Proof.
  intros Hh Hl E.
  pose proof (parse_clean text fds E) as Hc.
  pose proof (parse_counted text fds E) as Hk.
  rewrite Forall_forall in *. intros fd Hfd.
  specialize (Hc fd Hfd). destruct (Hk fd Hfd) as [Ha Hd].
  cbn [_prepare_code_context ctx_diff_content].
  rewrite (reparse_file hl old new Hh Hl (hunks fd) Hc).
  unfold extended, new_FileDiff, count_kind.
  cbn [file_path old_path new_path is_new_file is_deleted_file is_renamed
       language hunks additions deletions app].
  unfold get_additions, get_deletions, get_all_changed_lines in Ha, Hd.
  now rewrite Ha, Hd.
Qed.

Lemma diff_content_reparses_witness :
  exists fds, parse Samples.review_text = Ok fds /\
    Forall (fun fd =>
      parse (py "diff --git a/x.py b/y.py" ++ newline
             :: ctx_diff_content (_prepare_code_context fd)) =
      Ok [mkFileDiff (py "y.py") (Some (py "x.py")) (Some (py "y.py"))
            false false false (detect_language (py "y.py"))
            (hunks fd) (additions fd) (deletions fd)])
      fds.
Proof.
  eexists. split; [vm_compute; reflexivity|].
  apply (diff_content_reparses Samples.review_text
           (py "diff --git a/x.py b/y.py") (py "x.py") (py "y.py")).
  - vm_compute. reflexivity.
  - vm_compute. intuition discriminate.
  - vm_compute. reflexivity.
Defined.

(* ===================================================================== *)
(** ** When the parser raises *)
(* ===================================================================== *)

Section LongNumbers.

Lemma over_limit_match (a b rest : str) (c d : option str) :
  over_limit a c b d -> ~ within_limit (mkHunkMatch a c b d rest).
Proof.
  unfold over_limit, within_limit. cbn [group1 group2 group3 group4].
  intros [H|[H|[(x & -> & H)|(x & -> & H)]]] (S1 & S3 & S2 & S4);
    contradiction.
Qed.

Lemma header_text_line (a b rest : str) (c d : option str) :
  digits a -> digits b ->
  match c with Some x => digits x | None => True end ->
  match d with Some x => digits x | None => True end ->
  ~ In newline rest ->
  ~ In newline (hunk_header_text a c b d rest).
Proof.
  intros [_ Da] [_ Db] Hc Hd Hr.
  apply digits_no_newline in Da, Db.
  assert (Nc : ~ In newline (count_text c)).
  { destruct c as [x|]; [|now cbn]. destruct Hc as [_ Dx].
    apply digits_no_newline in Dx. cbn [count_text]. intro Hin.
    apply in_app_or in Hin as [Hin|Hin]; [|contradiction].
    cbn in Hin. destruct Hin as [Hin|[]]. discriminate. }
  assert (Nd : ~ In newline (count_text d)).
  { destruct d as [x|]; [|now cbn]. destruct Hd as [_ Dx].
    apply digits_no_newline in Dx. cbn [count_text]. intro Hin.
    apply in_app_or in Hin as [Hin|Hin]; [|contradiction].
    cbn in Hin. destruct Hin as [Hin|[]]. discriminate. }
  unfold hunk_header_text. intro Hin.
  repeat (apply in_app_or in Hin as [Hin|Hin];
          [try contradiction;
           try (cbn in Hin; repeat destruct Hin as [Hin|Hin];
                try discriminate Hin; contradiction)|]).
  contradiction.
Qed.

(** A turn returns on a line that is no hunk header with a number too
    long. *)
Lemma parse_line_returns (st : ParserState) (line : str) (more : bool) :
  (forall m, hunk_header_pattern line = Some m -> within_limit m) ->
  exists st', parse_line st line more = Ok st'.
Proof.
  intro H. unfold parse_line, hunk_or_content.
  destruct (file_header_pattern line) as [[old new]|]; [now eexists|].
  assert (G : exists st',
            match hunk_header_pattern line, current_file st with
            | Some m, Some f =>
                h <- open_hunk m ;;
                Ok (mkParserState (file_diffs st)
                      (Some (save_hunk f (current_hunk st))) (Some h))
            | _, _ =>
                match current_hunk st, current_file st with
                | Some h, Some f =>
                    let (f', h') := content_line f h line more in
                    Ok (mkParserState (file_diffs st) (Some f') (Some h'))
                | _, _ => Ok st
                end
            end = Ok st').
  { destruct (hunk_header_pattern line) as [m|] eqn:Em.
    - destruct (current_file st) as [f|].
      + rewrite (open_hunk_matched line m Em (H m eq_refl)). now eexists.
      + destruct (current_hunk st); now eexists.
    - destruct (current_hunk st) as [h|], (current_file st) as [f|];
        try (now eexists).
      destruct (content_line f h line more). now eexists. }
  destruct (current_file st) as [f|] eqn:Ef; [|exact G].
  destruct (file_marker f line); [now eexists|exact G].
Qed.

(** A turn raises only on a hunk header with a number too long, and then
    with the error of [int]. *)
Lemma parse_line_raises (st : ParserState) (line : str) (more : bool)
    (e : exn) :
  parse_line st line more = Raise e ->
  exists m n, hunk_header_pattern line = Some m /\ ~ within_limit m /\
    (int_max_str_digits < Z.of_nat n)%Z /\
    e = ValueError (int_limit_message n).
Proof.
  intro H.
  destruct (hunk_header_pattern line) as [m|] eqn:Em.
  - destruct (within_limit_dec m) as [Hl|Hl].
    + destruct (parse_line_returns st line more) as [st' E].
      * intros m' Hm'. congruence.
      * congruence.
    + destruct (open_hunk_long line m Em Hl) as (n & Hn & Eo).
      exists m, n. split; [reflexivity|]. split; [exact Hl|].
      split; [exact Hn|].
      unfold parse_line, hunk_or_content in H. rewrite Em in H.
      destruct (file_header_pattern line) as [[old new]|]; [discriminate|].
      destruct (current_file st) as [f|].
      * destruct (file_marker f line); [discriminate|].
        rewrite Eo in H. cbn [bind] in H. now injection H as <-.
      * destruct (current_hunk st); discriminate.
  - destruct (parse_line_returns st line more) as [st' E].
    + intros m' Hm'. congruence.
    + congruence.
Qed.

Lemma scan_returns (ls : list str) :
  Forall (fun line => forall m, hunk_header_pattern line = Some m ->
                                within_limit m) ls ->
  forall st, exists st', scan st ls = Ok st'.
Proof.
  induction 1 as [|line rest Hl _ IH]; intro st; [now eexists|].
  cbn [scan].
  destruct (parse_line_returns st line
              (match rest with [] => false | _ => true end) Hl) as [st1 ->].
  cbn [bind]. apply IH.
Qed.

Lemma scan_raises (ls : list str) (e : exn) :
  forall st, scan st ls = Raise e ->
  exists line m n, In line ls /\ hunk_header_pattern line = Some m /\
    ~ within_limit m /\ (int_max_str_digits < Z.of_nat n)%Z /\
    e = ValueError (int_limit_message n).
Proof.
  induction ls as [|line rest IH]; intro st; cbn [scan]; [discriminate|].
  destruct (parse_line st line _) as [st1|e1] eqn:E.
  - cbn [bind]. intro H. destruct (IH _ H) as (l & m & n & Hin & R).
    exists l, m, n. split; [now right|exact R].
  - cbn [bind]. injection 1 as ->.
    destruct (parse_line_raises _ _ _ _ E) as (m & n & R).
    exists line, m, n. split; [now left|exact R].
Qed.

End LongNumbers.

(** C4, where the code departs from it.  [parse] does raise: when a hunk
    header that follows a file header writes a number in more digits than
    [int] converts, the conversion raises [ValueError] and nothing catches
    it.  The numbers are the four runs of digits of the header; [hl] is
    any file header. *)
Theorem parse_raises_on_long_number (hl old new a b rest : str)
    (c d : option str) :
  file_header_pattern hl = Some (old, new) -> ~ In newline hl ->
  digits a -> digits b ->
  match c with Some x => digits x | None => True end ->
  match d with Some x => digits x | None => True end ->
  ~ In newline rest ->
  over_limit a c b d ->
  exists n, (int_max_str_digits < Z.of_nat n)%Z /\
    parse (hl ++ newline :: hunk_header_text a c b d rest)
    = Raise (ValueError (int_limit_message n)).
Proof.
  intros Hh Hl Ha Hb Hc Hd Hr Hov.
  pose proof (header_text_line a b rest c d Ha Hb Hc Hd Hr) as Hline.
  destruct (open_hunk_long (hunk_header_text a c b d rest)
              (mkHunkMatch a c b d rest))
    as (n & Hn & Eo).
  { now apply hunk_header_pattern_text. }
  { now apply over_limit_match. }
  exists n. split; [exact Hn|].
  rewrite parse_unfold, (header_not_blank hl old new Hh), split_lines_app.
  rewrite (split_lines_one hl Hl), (split_lines_one _ Hline).
  cbn [app scan]. rewrite (header_turn hl old new Hh). cbn [bind].
  rewrite (parse_line_header_text
             (mkParserState (save_file initial_state)
                (Some (new_FileDiff old new)) None)
             (new_FileDiff old new) a b rest c d
             false eq_refl Ha Hb Hc Hd).
  all: [> now rewrite Eo | exact Hl].
Qed.

Lemma parse_raises_on_long_number_witness :
  parse Samples.long_number_diff
    = Raise (ValueError (int_limit_message 4301)) /\
  exists n, (int_max_str_digits < Z.of_nat n)%Z /\
    parse Samples.long_number_diff
    = Raise (ValueError (int_limit_message n)).
Proof.
  split; [vm_compute; reflexivity|].
  apply (parse_raises_on_long_number (py "diff --git a/f.py b/f.py")
           (py "f.py") (py "f.py") Samples.long_number (py "1") [] None None).
  - vm_compute. reflexivity.
  - vm_compute. intuition discriminate.
  - split; [discriminate|vm_compute; reflexivity].
  - split; [discriminate|reflexivity].
  - exact I.
  - exact I.
  - intros [].
  - left. unfold short. vm_compute. intro H. now apply H.
Defined.

(** X22.  Text in front of the first file header has no effect on what
    [parse] returns or raises, and text made of white space only, the
    empty text included, gives the empty list. *)
Theorem parse_lenient (text before rest : str) :
  (headerless (split_lines before) ->
   parse (before ++ newline :: rest) = parse rest) /\
  (forallb isspace text = true -> parse text = Ok []).
Proof.
  split.
  - apply parse_skips_prefix.
  - apply parse_blank.
Qed.

Lemma parse_lenient_witness :
  parse (Samples.preamble ++ newline :: Samples.rename_diff)
  = parse Samples.rename_diff
  /\ parse Samples.blank_text = Ok [].
Proof.
  destruct (parse_lenient Samples.blank_text Samples.preamble
              Samples.rename_diff) as (H2 & H3).
  split.
  - apply H2. vm_compute. repeat constructor.
  - apply H3. vm_compute. reflexivity.
Defined.

(** X23.  [parse] returns on every text in which no hunk header writes a
    number in more digits than [int] converts; and when it raises, the
    text has a line that is a hunk header with such a number, and the
    error is the [ValueError] of [int] on it. *)
Theorem parse_raises_only_on_long_number (text : str) (e : exn) :
  (Forall (fun line => forall m, hunk_header_pattern line = Some m ->
                                 within_limit m) (split_lines text) ->
   exists fds, parse text = Ok fds) /\
  (parse text = Raise e ->
   exists line m n,
     In line (split_lines text) /\ hunk_header_pattern line = Some m /\
     ~ within_limit m /\ (int_max_str_digits < Z.of_nat n)%Z /\
     e = ValueError (int_limit_message n)).
Proof.
  rewrite parse_unfold. split.
  - intro H. destruct (forallb isspace text); [now eexists|].
    destruct (scan_returns _ H initial_state) as [st ->]. now eexists.
  - destruct (forallb isspace text); [discriminate|].
    destruct (scan initial_state (split_lines text)) as [st|e0] eqn:E;
      [discriminate|].
    cbn [bind]. injection 1 as ->. exact (scan_raises _ _ _ E).
Qed.

Lemma parse_raises_only_on_long_number_witness :
  (exists fds, parse Samples.review_text = Ok fds) /\
  exists line m n,
    In line (split_lines Samples.long_number_diff) /\
    hunk_header_pattern line = Some m /\ ~ within_limit m /\
    (int_max_str_digits < Z.of_nat n)%Z /\
    ValueError (int_limit_message 4301) = ValueError (int_limit_message n).
Proof.
  split.
  - apply (proj1 (parse_raises_only_on_long_number Samples.review_text
                    (Exception []))).
    let ls := eval vm_compute in (split_lines Samples.review_text) in
    change (split_lines Samples.review_text) with ls.
    repeat (constructor;
            [intros m Hm; vm_compute in Hm;
             first [discriminate Hm
                   | injection Hm as <-; unfold within_limit;
                     cbn [group1 group2 group3 group4];
                     repeat split; try exact I;
                     unfold short; vm_compute; discriminate]|]).
    constructor.
  - apply (proj2 (parse_raises_only_on_long_number Samples.long_number_diff
                    (ValueError (int_limit_message 4301)))).
    vm_compute. reflexivity.
Defined.

(* ===================================================================== *)
(** ** Properties of what is read off the parsed files *)
(* ===================================================================== *)

Section DictSet.

Lemma dict_get_set {V : Type} (k k' : str) (v : V) (d : dict V) :
  dict_get k (dict_set k' v d) =
  if str_eqb k k' then Some v else dict_get k d.
Proof.
  induction d as [|[k0 v0] d IH]; cbn [dict_set dict_get]; [reflexivity|].
  destruct (str_eqb k' k0) eqn:E0; cbn [dict_get].
  - apply str_eqb_eq in E0. subst k0. now destruct (str_eqb k k').
  - destruct (str_eqb k k0) eqn:E1; [|exact IH].
    apply str_eqb_eq in E1. subst k0.
    destruct (str_eqb k k') eqn:E2; [|reflexivity].
    apply str_eqb_eq in E2. subst k'. now rewrite str_eqb_refl in E0.
Qed.

Lemma str_eqb_sym (a b : str) : str_eqb a b = str_eqb b a.
Proof.
  destruct (str_eqb a b) eqn:E.
  - apply str_eqb_eq in E. subst. now rewrite str_eqb_refl.
  - destruct (str_eqb b a) eqn:E'; [|reflexivity].
    apply str_eqb_eq in E'. subst. now rewrite str_eqb_refl in E.
Qed.

End DictSet.

Section SummaryOfFiles.
Import DiffQueries.

Lemma count_language_get (lang : str) (d : dict Z) (f : FileDiff) :
  lang <> [] ->
  dict_get lang (count_language d f) =
  if match language f with Some l => str_eqb l lang | None => false end
  then Some (match dict_get lang d with Some n => n | None => 0 end + 1)%Z
  else dict_get lang d.
Proof.
  intro Hne. unfold count_language.
  destruct (language f) as [[|c l]|]; try reflexivity.
  - now rewrite (str_eqb_neq [] lang) by congruence.
  - rewrite dict_get_set, (str_eqb_sym lang).
    destruct (str_eqb (c :: l) lang) eqn:E; [|reflexivity].
    apply str_eqb_eq in E. now subst lang.
Qed.

Lemma languages_fold (lang : str) (fds : list FileDiff) :
  lang <> [] ->
  forall d,
    dict_get lang (fold_left count_language fds d) =
    if (language_count lang fds =? 0)%Z then dict_get lang d
    else Some (match dict_get lang d with Some n => n | None => 0 end
               + language_count lang fds)%Z.
Proof.
  intro Hne. unfold language_count.
  induction fds as [|f fds IH]; intro d; [reflexivity|].
  cbn [fold_left filter]. rewrite IH, (count_language_get lang d f Hne).
  destruct (match language f with Some l => str_eqb l lang | None => false end);
    [|reflexivity].
  cbn [length].
  destruct (Z.of_nat (length _) =? 0)%Z eqn:E0.
  - apply Z.eqb_eq in E0.
    destruct (Z.of_nat (S _) =? 0)%Z eqn:E1; [apply Z.eqb_eq in E1; lia|].
    f_equal. lia.
  - destruct (Z.of_nat (S _) =? 0)%Z eqn:E1; [apply Z.eqb_eq in E1; lia|].
    f_equal. lia.
Qed.

Lemma py_sum_from (xs : list Z) :
  forall acc, fold_left Z.add xs acc = (acc + py_sum xs)%Z.
Proof.
  unfold py_sum. induction xs as [|x xs IH]; intro acc; cbn [fold_left];
    [lia|].
  rewrite (IH (acc + x)%Z), (IH (0 + x)%Z). lia.
Qed.

Lemma py_sum_cons (x : Z) (xs : list Z) :
  py_sum (x :: xs) = (x + py_sum xs)%Z.
Proof. unfold py_sum at 1. cbn [fold_left]. now rewrite py_sum_from. Qed.

Lemma py_sum_counted (fds : list FileDiff) :
  Forall counted fds ->
  py_sum (map additions fds) = Z.of_nat (length (flat_map get_additions fds))
  /\ py_sum (map deletions fds)
     = Z.of_nat (length (flat_map get_deletions fds)).
Proof.
  induction 1 as [|f fds [Ha Hd] _ [IHa IHd]]; [now split|].
  cbn [map flat_map]. rewrite !py_sum_cons, !length_app, IHa, IHd, Ha, Hd.
  split; lia.
Qed.

End SummaryOfFiles.

(** X10.  In the summary of a list of files, the count kept under a
    language is the number of files of that language, and a language no
    file has is no key of the dictionary. *)
Theorem summary_languages (fds : list FileDiff) (lang : str) :
  lang <> [] ->
  dict_get lang (DiffQueries.languages (DiffQueries.get_summary fds)) =
  if (language_count lang fds =? 0)%Z then None
  else Some (language_count lang fds).
Proof.
  intro Hne. unfold DiffQueries.get_summary. cbn [DiffQueries.languages].
  rewrite (languages_fold lang fds Hne []). cbn [dict_get].
  now destruct (language_count lang fds =? 0)%Z.
Qed.

Lemma summary_languages_witness :
  exists fds, parse Samples.review_text = Ok fds /\
    dict_get (py "python")
      (DiffQueries.languages (DiffQueries.get_summary fds)) = Some 2%Z /\
    dict_get (py "rust")
      (DiffQueries.languages (DiffQueries.get_summary fds)) = None.
Proof.
  destruct (parse Samples.review_text) as [fds|e] eqn:E;
    [|vm_compute in E; discriminate].
  exists fds. split; [reflexivity|].
  vm_compute in E. injection E as <-.
  split.
  - rewrite (summary_languages _ (py "python")) by discriminate.
    vm_compute. reflexivity.
  - rewrite (summary_languages _ (py "rust")) by discriminate.
    vm_compute. reflexivity.
Defined.

(** X11.  For the files [parse] returns, the summary counts the files,
    and its totals of additions and deletions are the numbers of added
    and of deleted lines in all the hunks of all the files; the paths it
    lists are those of the files, in order. *)
Theorem summary_of_parse (text : str) (fds : list FileDiff) :
  parse text = Ok fds ->
  DiffQueries.total_files (DiffQueries.get_summary fds)
    = Z.of_nat (length fds) /\
  DiffQueries.sum_additions (DiffQueries.get_summary fds)
    = Z.of_nat (length (flat_map get_additions fds)) /\
  DiffQueries.sum_deletions (DiffQueries.get_summary fds)
    = Z.of_nat (length (flat_map get_deletions fds)) /\
  DiffQueries.files (DiffQueries.get_summary fds) = map file_path fds /\
  DiffQueries.total_files (DiffQueries.get_summary fds)
    = Z.of_nat (length (filter is_file_header (split_lines text))).
Proof.
  intro E.
  pose proof (parse_counted text fds E) as Hc.
  pose proof (parse_one_file_per_header_aux text fds E) as Hn.
  destruct (py_sum_counted fds Hc) as [Ha Hd].
  unfold DiffQueries.get_summary.
  cbn [DiffQueries.total_files DiffQueries.sum_additions
       DiffQueries.sum_deletions DiffQueries.files].
  repeat split; try assumption. now rewrite Hn.
Qed.

Lemma summary_of_parse_witness :
  exists fds, parse Samples.review_text = Ok fds /\
    DiffQueries.total_files (DiffQueries.get_summary fds) = 3%Z /\
    DiffQueries.sum_additions (DiffQueries.get_summary fds) = 2%Z /\
    DiffQueries.sum_deletions (DiffQueries.get_summary fds) = 3%Z /\
    DiffQueries.sum_additions (DiffQueries.get_summary fds)
      = Z.of_nat (length (flat_map get_additions fds)).
Proof.
  destruct (parse Samples.review_text) as [fds|e] eqn:E;
    [|vm_compute in E; discriminate].
  exists fds. split; [reflexivity|].
  destruct (summary_of_parse Samples.review_text fds E)
    as (_ & Ha & _).
  vm_compute in E. injection E as <-.
  split; [reflexivity|]. split; [reflexivity|]. split; [reflexivity|].
  exact Ha.
Defined.

Section ContextWindow.
Import DiffQueries.

Lemma find_target_found (n : Z) (pre post : list ChangedLine)
    (l : ChangedLine) :
  Forall (fun x => line_number x <> n) pre -> line_number l = n ->
  forall idx,
    find_target (pre ++ l :: post) n idx
    = Some (idx + Z.of_nat (length pre))%Z.
Proof.
  intros Hpre Hl. induction Hpre as [|x pre Hx _ IH]; intro idx;
    cbn [app find_target length].
  - rewrite Hl, Z.eqb_refl. f_equal. lia.
  - apply Z.eqb_neq in Hx. rewrite Hx, IH. f_equal. lia.
Qed.

Lemma find_target_none (n : Z) (ls : list ChangedLine) :
  Forall (fun x => line_number x <> n) ls ->
  forall idx, find_target ls n idx = None.
Proof.
  induction 1 as [|x ls Hx _ IH]; intro idx; cbn [find_target];
    [reflexivity|].
  apply Z.eqb_neq in Hx. now rewrite Hx.
Qed.

(** A slice between two places of the list, the first not after the
    second. *)
Lemma py_slice_within {A : Type} (l : list A) (s e : nat) :
  s <= e <= length l ->
  py_slice l (Z.of_nat s) (Z.of_nat e) = firstn (e - s) (skipn s l).
Proof.
  intro H. unfold py_slice, slice_bound.
  destruct (Z.of_nat s <? 0)%Z eqn:Es; [apply Z.ltb_lt in Es; lia|].
  destruct (Z.of_nat e <? 0)%Z eqn:Ee; [apply Z.ltb_lt in Ee; lia|].
  rewrite !Z.min_l by lia.
  now rewrite <- Nat2Z.inj_sub, !Nat2Z.id by lia.
Qed.

Lemma skipn_app_left {A : Type} (n : nat) (a b : list A) :
  n <= length a -> skipn n (a ++ b) = skipn n a ++ b.
Proof.
  intro H. rewrite skipn_app. replace (n - length a) with 0 by lia.
  reflexivity.
Qed.

Lemma firstn_exact {A : Type} (a b : list A) :
  firstn (length a) (a ++ b) = a.
Proof.
  rewrite firstn_app, Nat.sub_diag, firstn_all. cbn. apply app_nil_r.
Qed.

End ContextWindow.

(** X12.  [get_context_around_change] answers with the first line, in
    the order of the hunks, that carries the number asked for, whatever
    its kind, with up to [context_lines] lines that stand just before it
    and up to [context_lines] lines that stand just after it; when no line
    carries the number the answer has no target and two empty lists. *)
Theorem context_around_change (fd : FileDiff) (number context_lines : Z)
    (pre post : list ChangedLine) (l : ChangedLine) :
  (0 <= context_lines)%Z ->
  (Forall (fun x => line_number x <> number) (get_all_changed_lines fd) ->
   DiffQueries.get_context_around_change fd number context_lines =
   DiffQueries.mkChangeContext [] None []) /\
  (get_all_changed_lines fd = pre ++ l :: post ->
   Forall (fun x => line_number x <> number) pre ->
   line_number l = number ->
   DiffQueries.get_context_around_change fd number context_lines =
   DiffQueries.mkChangeContext
     (lastn (Z.to_nat context_lines) pre) (Some l)
     (firstn (Z.to_nat context_lines) post)).
Proof.
  intro Hc. unfold DiffQueries.get_context_around_change. split.
  - intro H. now rewrite (find_target_none _ _ H).
  - intros E Hpre Hl. rewrite E.
    rewrite (find_target_found number pre post l Hpre Hl 0).
    cbn [Z.add]. set (c := Z.to_nat context_lines).
    assert (Ec : context_lines = Z.of_nat c) by (unfold c; lia).
    rewrite Ec. clear Ec Hc.
    set (p := length pre).
    replace (Z.max 0 (Z.of_nat p - Z.of_nat c)) with (Z.of_nat (p - c))
      by lia.
    replace (Z.of_nat p + 1)%Z with (Z.of_nat (S p)) by lia.
    replace (Z.min (Z.of_nat (length (pre ++ l :: post)))
               (Z.of_nat p + Z.of_nat c + 1))
      with (Z.of_nat (S p + Nat.min (length post) c))
      by (rewrite length_app; cbn [length]; fold p; lia).
    rewrite !py_slice_within
      by (rewrite length_app; cbn [length]; fold p; lia).
    rewrite Nat2Z.id. f_equal.
    + unfold lastn. fold p.
      rewrite skipn_app_left by (fold p; lia).
      replace (p - (p - c)) with (length (skipn (p - c) pre))
        by (rewrite length_skipn; fold p; lia).
      apply firstn_exact.
    + unfold p. rewrite nth_error_app2, Nat.sub_diag by lia. reflexivity.
    + replace (skipn (S p) (pre ++ l :: post)) with post.
      * replace (S p + Nat.min (length post) c - S p)
          with (Nat.min (length post) c) by lia.
        destruct (Nat.le_ge_cases (length post) c) as [H|H].
        -- rewrite Nat.min_l by lia. now rewrite !firstn_all2 by lia.
        -- now rewrite Nat.min_r by lia.
      * unfold p. change (l :: post) with ([l] ++ post).
        rewrite app_assoc, skipn_app_left
          by (rewrite length_app; cbn [length]; lia).
        replace (S (length pre)) with (length (pre ++ [l]))
          by (rewrite length_app; cbn [length]; lia).
        now rewrite skipn_all.
Qed.

Lemma context_around_change_witness :
  DiffQueries.get_context_around_change Cases.app_file 2 1 =
  DiffQueries.mkChangeContext [Cases.kept] (Some Cases.added)
    [Cases.dropped].
Proof.
  apply (proj2 (context_around_change Cases.app_file 2 1
                  [Cases.kept] [Cases.dropped] Cases.added
                  ltac:(lia))).
  - reflexivity.
  - repeat constructor. discriminate.
  - reflexivity.
Defined.

Section Blocks.
Import DiffQueries.

(** The loop over the lines of a hunk sorts them by kind, each list in
    the order of the hunk. *)
Lemma sort_lines (ls : list ChangedLine) :
  forall b,
    fold_left sort_line ls b =
    mkCodeBlock (cb_file_path b) (cb_language b) (start_line b) (end_line b)
      (cb_header b)
      (cb_additions b ++ filter (kind_is addition) ls)
      (cb_deletions b ++ filter (kind_is deletion) ls)
      (cb_context b ++ filter (kind_is context) ls).
Proof.
  induction ls as [|l ls IH]; intro b; cbn [fold_left filter].
  - rewrite !app_nil_r. now destruct b.
  - rewrite IH. unfold sort_line, kind_is.
    destruct (change_type l); cbn; now rewrite <- ?app_assoc.
Qed.

Lemma block_of_hunk (fd : FileDiff) (h : DiffHunk) (b : CodeBlock) :
  b = fold_left sort_line (lines h)
        (mkCodeBlock (file_path fd) (language fd) (new_start h)
           (new_start h + new_count h) (header h) [] [] []) ->
  cb_additions b = filter (kind_is addition) (lines h) /\
  cb_deletions b = filter (kind_is deletion) (lines h) /\
  cb_context b = filter (kind_is context) (lines h).
Proof. intros ->. rewrite sort_lines. now cbn. Qed.

Lemma kinds_partition (ls : list ChangedLine) :
  Permutation
    (filter (kind_is addition) ls ++ filter (kind_is deletion) ls
     ++ filter (kind_is context) ls) ls.
Proof.
  induction ls as [|l ls IH]; [constructor|]. cbn [filter].
  assert (K : forall k, kind_is k l = ChangeType_eqb (change_type l) k)
    by reflexivity.
  rewrite !K. destruct (change_type l); cbn [ChangeType_eqb].
  - cbn [app]. apply perm_skip. exact IH.
  - apply Permutation_sym, Permutation_cons_app, Permutation_sym. exact IH.
  - rewrite app_assoc.
    apply Permutation_sym, Permutation_cons_app, Permutation_sym.
    rewrite <- app_assoc. exact IH.
Qed.

End Blocks.

(** X13.  [extract_code_blocks] gives one block for each hunk, in order;
    the three lists of a block hold the lines of the hunk sorted by kind,
    so that together they are the lines of the hunk, each exactly once;
    and for a file that [parse] returned, the additions of its blocks are
    as many as its additions counter says, and so for the deletions. *)
Theorem code_blocks_partition (text : str) (fds : list FileDiff) :
  parse text = Ok fds ->
  Forall (fun fd =>
    let blocks := DiffQueries.extract_code_blocks fd in
    Forall2 (fun b h =>
               Permutation
                 (DiffQueries.cb_additions b ++ DiffQueries.cb_deletions b
                  ++ DiffQueries.cb_context b) (lines h) /\
               Forall (fun l => change_type l = addition)
                 (DiffQueries.cb_additions b) /\
               Forall (fun l => change_type l = deletion)
                 (DiffQueries.cb_deletions b) /\
               Forall (fun l => change_type l = context)
                 (DiffQueries.cb_context b) /\
               DiffQueries.start_line b = new_start h /\
               DiffQueries.end_line b = (new_start h + new_count h)%Z)
            blocks (hunks fd) /\
    py_sum (map (fun b => len (DiffQueries.cb_additions b)) blocks)
      = additions fd /\
    py_sum (map (fun b => len (DiffQueries.cb_deletions b)) blocks)
      = deletions fd) fds.
Proof.
  intro E. pose proof (parse_counted text fds E) as Hc.
  eapply Forall_impl; [|exact Hc]. intros fd [Ha Hd].
  cbn zeta. unfold DiffQueries.extract_code_blocks. split; [|split].
  - induction (hunks fd) as [|h hs IH]; cbn [map]; constructor; [|exact IH].
    rewrite sort_lines.
    cbn [DiffQueries.cb_additions DiffQueries.cb_deletions
         DiffQueries.cb_context DiffQueries.start_line DiffQueries.end_line
         app].
    split; [apply kinds_partition|].
    repeat split; apply Forall_forall; intros x Hx;
      apply filter_In in Hx as [_ Hx]; unfold kind_is in Hx;
      now destruct (change_type x).
  - rewrite Ha. unfold get_additions, get_all_changed_lines.
    induction (hunks fd) as [|h hs IH]; [reflexivity|].
    cbn [map flat_map]. rewrite py_sum_cons, IH, sort_lines, filter_app,
      length_app.
    cbn [DiffQueries.cb_additions app]. unfold len, kind_is. lia.
  - rewrite Hd. unfold get_deletions, get_all_changed_lines.
    induction (hunks fd) as [|h hs IH]; [reflexivity|].
    cbn [map flat_map]. rewrite py_sum_cons, IH, sort_lines, filter_app,
      length_app.
    cbn [DiffQueries.cb_deletions app]. unfold len, kind_is. lia.
Qed.

Lemma code_blocks_partition_witness :
  exists fds, parse Samples.review_text = Ok fds /\
    map (fun fd => map (fun b => (DiffQueries.start_line b,
                                  DiffQueries.end_line b,
                                  len (DiffQueries.cb_additions b),
                                  len (DiffQueries.cb_deletions b),
                                  len (DiffQueries.cb_context b)))
                       (DiffQueries.extract_code_blocks fd)) fds
      = [[(1, 4, 1, 1, 1)]; [(1, 2, 1, 1, 0)]; [(1, 2, 0, 1, 1)]]%Z /\
    Forall (fun fd =>
      py_sum (map (fun b => len (DiffQueries.cb_additions b))
                (DiffQueries.extract_code_blocks fd))
      = additions fd) fds.
Proof.
  destruct (parse Samples.review_text) as [fds|e] eqn:E;
    [|vm_compute in E; discriminate].
  exists fds. split; [reflexivity|].
  pose proof (code_blocks_partition Samples.review_text fds E) as H.
  split.
  - vm_compute in E. injection E as <-. reflexivity.
  - eapply Forall_impl; [|exact H]. cbn zeta. now intros fd (_ & Ha & _).
Defined.

(* ===================================================================== *)
(** ** Further properties of the orchestrator *)
(* ===================================================================== *)

Section OrderOfFindings.

Lemma dict_incr_comm (a b : str) (d : dict Z) :
  dict_incr a (dict_incr b d) = dict_incr b (dict_incr a d).
Proof.
  induction d as [|[k v] d IH]; [reflexivity|]. cbn [dict_incr].
  destruct (str_eqb b k) eqn:Eb, (str_eqb a k) eqn:Ea; cbn [dict_incr];
    rewrite ?Ea, ?Eb; try reflexivity.
  now rewrite IH.
Qed.

Lemma counted_in_comm (u v : PyVal) (d : dict Z) :
  counted_in u (counted_in v d) = counted_in v (counted_in u d).
Proof.
  destruct u, v; cbn [counted_in]; try reflexivity. apply dict_incr_comm.
Qed.

Lemma tallied_comm (acc : dict Z * dict Z) (x y : Finding) :
  tallied (tallied acc x) y = tallied (tallied acc y) x.
Proof.
  unfold tallied. cbn [fst snd]. f_equal; apply counted_in_comm.
Qed.

Lemma fold_left_perm {A B : Type} (f : A -> B -> A) (l l' : list B) :
  (forall a x y, f (f a x) y = f (f a y) x) ->
  Permutation l l' -> forall a, fold_left f l a = fold_left f l' a.
Proof.
  intros Hf P. induction P as [|x l l' _ IH|x y l|l l' l'' _ IH1 _ IH2];
    intro a; cbn [fold_left].
  - reflexivity.
  - apply IH.
  - now rewrite Hf.
  - now rewrite IH1.
Qed.

Lemma summarised_perm (fs gs : list Finding) :
  Permutation fs gs -> summarised fs = summarised gs.
Proof.
  intro P. unfold summarised, len.
  rewrite (Permutation_length P).
  now rewrite (fold_left_perm tallied fs gs tallied_comm P).
Qed.

End OrderOfFindings.

(** X14.  The summary does not depend on the order of the findings: when
    it is returned for a list of findings, it is returned for every list
    that holds the same findings, with the same total, the same counts by
    severity and by category, and the same rating. *)
Theorem summary_order_free (fs gs : list Finding) (s : Summary) :
  Permutation fs gs ->
  _generate_summary fs = Ok s -> _generate_summary gs = Ok s.
Proof.
  intros P H. apply summary_Ok in H as [L ->].
  rewrite (summarised_perm fs gs P). apply summary_labelled.
  now rewrite <- (labelled_perm fs gs P).
Qed.

Lemma summary_order_free_witness :
  exists s,
    _generate_summary
      [Samples.finding "low"; Samples.finding "high"; Samples.finding "odd"]
    = Ok s /\
    _generate_summary
      [Samples.finding "odd"; Samples.finding "low"; Samples.finding "high"]
    = Ok s /\
    total_issues s = 3%Z /\ overall_rating s = py "changes_requested".
Proof.
  destruct (_generate_summary
              [Samples.finding "low"; Samples.finding "high";
               Samples.finding "odd"]) as [s|e] eqn:E;
    [|vm_compute in E; discriminate].
  exists s. split; [reflexivity|]. split.
  - apply (summary_order_free
             [Samples.finding "low"; Samples.finding "high";
              Samples.finding "odd"]); [|exact E].
    apply Permutation_sym. apply (Permutation_cons_app [_; _] []).
    apply Permutation_refl.
  - vm_compute in E. injection E as <-. split; reflexivity.
Defined.

Section Ratings.

Lemma rating_level_counts (fs : list Finding) :
  rating_level (overall_rating (summarised fs)) =
  (if (0 <? count_severity (py "critical") fs) then 3
   else if (2 <? count_severity (py "high") fs) then 3
   else if (0 <? count_severity (py "high") fs)
           || (5 <? count_severity (py "medium") fs) then 2
   else if (0 <? count_severity (py "medium") fs) then 1
   else 0)%Z.
Proof.
  rewrite rating_by_counts.
  destruct (0 <? _)%Z; [reflexivity|].
  destruct (2 <? _)%Z; [reflexivity|].
  destruct (_ || _); [reflexivity|].
  now destruct (0 <? _)%Z.
Qed.

End Ratings.

(** X15.  More findings never give a milder rating: with the ratings
    ordered approve, comment, changes_requested, needs_work, the rating of
    a list of findings is at most the rating of that list with further
    findings added to it, whenever the summary of the longer list is
    returned; that of the shorter one is then returned too. *)
Theorem rating_monotone (fs gs : list Finding) (t : Summary) :
  _generate_summary (fs ++ gs) = Ok t ->
  exists s, _generate_summary fs = Ok s /\
    (rating_level (overall_rating s) <= rating_level (overall_rating t))%Z.
Proof.
  intro H. apply summary_Ok in H as [L ->].
  rewrite forallb_app in L. apply andb_prop in L as [Lf _].
  exists (summarised fs). split; [now apply summary_labelled|].
  rewrite !rating_level_counts, !count_severity_app.
  pose proof (count_severity_nonneg (py "critical") gs).
  pose proof (count_severity_nonneg (py "high") gs).
  pose proof (count_severity_nonneg (py "medium") gs).
  pose proof (count_severity_nonneg (py "critical") fs).
  pose proof (count_severity_nonneg (py "high") fs).
  pose proof (count_severity_nonneg (py "medium") fs).
  repeat match goal with
         | |- context [(?a <? ?b)%Z] =>
             let E := fresh "E" in
             destruct (a <? b)%Z eqn:E;
             [apply Z.ltb_lt in E|apply Z.ltb_ge in E]
         end; cbn [orb]; lia.
Qed.

Lemma rating_monotone_witness :
  exists s t,
    _generate_summary [Samples.finding "medium"] = Ok s /\
    _generate_summary [Samples.finding "medium"; Samples.finding "high";
                       Samples.finding "low"] = Ok t /\
    overall_rating s = py "comment" /\
    overall_rating t = py "changes_requested" /\
    (rating_level (overall_rating s) <= rating_level (overall_rating t))%Z.
Proof.
  destruct (_generate_summary
              [Samples.finding "medium"; Samples.finding "high";
               Samples.finding "low"]) as [t|e] eqn:E;
    [|vm_compute in E; discriminate].
  destruct (rating_monotone [Samples.finding "medium"]
              [Samples.finding "high"; Samples.finding "low"] t E)
    as (s & Hs & Hle).
  exists s, t. split; [exact Hs|]. split; [reflexivity|].
  split; [|split; [|exact Hle]].
  - vm_compute in Hs. now injection Hs as <-.
  - vm_compute in E. now injection E as <-.
Defined.

Section Counters5.

Lemma known_one (x : Finding) :
  ((if has_severity (py "critical") x then 1 else 0)
   + (if has_severity (py "high") x then 1 else 0)
   + (if has_severity (py "medium") x then 1 else 0)
   + (if has_severity (py "low") x then 1 else 0)
   + (if has_severity (py "info") x then 1 else 0)
   = if known_severity x then 1 else 0)%Z.
Proof.
  unfold known_severity, has_severity.
  destruct (get_or (py "severity") (py "info") x);
    try reflexivity.
  destruct (str_eqb s (py "critical")) eqn:E1;
    [apply str_eqb_eq in E1; subst s; reflexivity|].
  destruct (str_eqb s (py "high")) eqn:E2;
    [apply str_eqb_eq in E2; subst s; reflexivity|].
  destruct (str_eqb s (py "medium")) eqn:E3;
    [apply str_eqb_eq in E3; subst s; reflexivity|].
  destruct (str_eqb s (py "low")) eqn:E4;
    [apply str_eqb_eq in E4; subst s; reflexivity|].
  now destruct (str_eqb s (py "info")).
Qed.

Lemma count_severity_cons (s : str) (x : Finding) (fs : list Finding) :
  count_severity s (x :: fs) =
  ((if has_severity s x then 1 else 0) + count_severity s fs)%Z.
Proof.
  unfold count_severity. cbn [filter].
  destruct (has_severity s x); cbn [length]; lia.
Qed.

End Counters5.

(** X16.  The five counts by severity of a summary that is returned add
    up to the number of findings whose severity is one of critical, high,
    medium, low and info, a finding without severity being counted as
    info; so they never add up to more than the total, and a finding of
    any other severity is in the total and in none of the counts. *)
Theorem severity_counts_total (fs : list Finding) (s : Summary) :
  _generate_summary fs = Ok s ->
  (dict_item (py "critical") (severity_counts s)
   + dict_item (py "high") (severity_counts s)
   + dict_item (py "medium") (severity_counts s)
   + dict_item (py "low") (severity_counts s)
   + dict_item (py "info") (severity_counts s)
   = Z.of_nat (length (filter known_severity fs)))%Z /\
  (Z.of_nat (length (filter known_severity fs)) <= total_issues s)%Z /\
  total_issues s = Z.of_nat (length fs).
Proof.
  intro H. apply summary_Ok in H as [_ ->].
  rewrite !summary_count by (cbn; tauto).
  split; [|split; [|reflexivity]].
  - induction fs as [|x fs IH]; [reflexivity|].
    rewrite !count_severity_cons. cbn [filter].
    pose proof (known_one x) as K.
    destruct (known_severity x); cbn [length]; lia.
  - cbn [total_issues summarised]. unfold len.
    pose proof (filter_length_le known_severity fs). lia.
Qed.

Lemma severity_counts_total_witness :
  exists s,
    _generate_summary
      [Samples.finding "low"; Samples.finding "urgent";
       Samples.finding_of VNone; Samples.finding "low"; []] = Ok s /\
    total_issues s = 5%Z /\
    map snd (severity_counts s) = [0; 0; 0; 2; 1]%Z /\
    (dict_item (py "critical") (severity_counts s)
     + dict_item (py "high") (severity_counts s)
     + dict_item (py "medium") (severity_counts s)
     + dict_item (py "low") (severity_counts s)
     + dict_item (py "info") (severity_counts s) = 3)%Z.
Proof.
  destruct (_generate_summary
              [Samples.finding "low"; Samples.finding "urgent";
               Samples.finding_of VNone; Samples.finding "low"; []])
    as [s|e] eqn:E; [|vm_compute in E; discriminate].
  exists s. split; [reflexivity|].
  destruct (severity_counts_total _ s E) as (H1 & _ & H3).
  split; [exact H3|]. split.
  - vm_compute in E. now injection E as <-.
  - rewrite H1. reflexivity.
Defined.

Section SameReport.

Variable as_completed : nat -> list AgentResult -> list AgentResult.
Variable agents : list Agent.

(** The loop raises exactly when it has a pool to make for no analyzer. *)
Lemma review_files_empty_pool (fds : list FileDiff) :
  forall k acc,
    review_files as_completed [] true k fds acc =
    if existsb dispatched fds
    then Raise (ValueError (py "max_workers must be greater than 0"))
    else Ok acc.
Proof.
  induction fds as [|fd rest IH]; intros k acc; [reflexivity|].
  rewrite review_files_cons. cbn [existsb].
  destruct (dispatched fd); [reflexivity|]. cbn [orb]. apply IH.
Qed.

Lemma dispatched_counter (fd : FileDiff) :
  counted fd ->
  dispatched fd = negb (is_deleted_file fd) && (0 <? additions fd)%Z.
Proof.
  intros [Ha _]. unfold dispatched. rewrite Ha.
  destruct (get_additions fd); cbn [length]; [now rewrite andb_false_r|].
  now rewrite andb_true_r.
Qed.

Hypothesis completion_rearranges : rearranges as_completed.

(** With at least one analyzer registered, when one mode returns so does
    the other, and the two reports agree on everything but the order of
    findings of one rank and the order of the results. *)
Lemma modes_same_report (diff_content : str) (p q : bool)
    (r1 : ReviewResult) (cs1 : list Call) :
  agents <> [] ->
  review_diff as_completed agents diff_content p = Ok (r1, cs1) ->
  exists r2 cs2,
    review_diff as_completed agents diff_content q = Ok (r2, cs2) /\
    summary r1 = summary r2 /\
    files_reviewed r1 = files_reviewed r2 /\
    total_additions r1 = total_additions r2 /\
    total_deletions r1 = total_deletions r2 /\
    cs1 = cs2 /\
    Permutation (findings r1) (findings r2) /\
    map finding_rank (findings r1) = map finding_rank (findings r2) /\
    Permutation
      (match agent_results r1 with Some rs => rs | None => [] end)
      (match agent_results r2 with Some rs => rs | None => [] end).
Proof.
  intros Hne H1.
  destruct (dispatch_modes_agree as_completed agents completion_rearranges
              diff_content p q r1 cs1 Hne H1) as (r2 & cs2 & H2 & P & K).
  exists r2, cs2. split; [exact H2|].
  destruct (review_diff_returns _ _ _ _ _ _ H1) as (fds & E1 & D1).
  destruct (review_diff_returns _ _ _ _ _ _ H2) as (f2 & E2 & D2).
  assert (f2 = fds) by congruence. subst f2.
  destruct D1 as [(N1 & -> & ->)|(N1 & c1 & F1 & -> & L1 & R1)];
    destruct D2 as [(N2 & -> & ->)|(N2 & c2 & F2 & -> & L2 & R2)];
    try contradiction.
  { repeat split; auto. }
  assert (S : summarised (findings r1) = summarised (findings r2))
    by now apply summarised_perm.
  rewrite R1, R2 in S, P, K |- *.
  cbn [summary files_reviewed total_additions total_deletions agent_results
       findings] in *.
  split; [now rewrite S|]. split; [reflexivity|]. split; [reflexivity|].
  split; [reflexivity|]. split.
  - rewrite (review_files_calls _ _ _ _ _ _ _ F1).
    now rewrite (review_files_calls _ _ _ _ _ _ _ F2).
  - split; [exact P|]. split; [exact K|].
    rewrite (review_files_perm _ _ _ _ completion_rearranges _ _ _ F1).
    now rewrite (review_files_perm _ _ _ _ completion_rearranges _ _ _ F2).
Qed.

End SameReport.

(** X17.  With at least one analyzer registered, when [review_diff]
    returns in one mode it returns in the other mode too, and the two
    reports agree on everything but the order of findings of one rank and
    the order of the results: the same summary, the same number of files
    reviewed, the same totals, the same analyzer calls, the same findings
    up to their order with the same ranks in the same order, and the same
    results up to their order. *)
Theorem dispatch_modes_same_report
    (as_completed : nat -> list AgentResult -> list AgentResult)
    (agents : list Agent) (diff_content : str) (p : bool)
    (r1 : ReviewResult) (cs1 : list Call) :
  rearranges as_completed -> agents <> [] ->
  review_diff as_completed agents diff_content p = Ok (r1, cs1) ->
  exists r2 cs2,
    review_diff as_completed agents diff_content (negb p) = Ok (r2, cs2) /\
    summary r1 = summary r2 /\
    files_reviewed r1 = files_reviewed r2 /\
    total_additions r1 = total_additions r2 /\
    total_deletions r1 = total_deletions r2 /\
    cs1 = cs2 /\
    Permutation (findings r1) (findings r2) /\
    map finding_rank (findings r1) = map finding_rank (findings r2) /\
    Permutation
      (match agent_results r1 with Some rs => rs | None => [] end)
      (match agent_results r2 with Some rs => rs | None => [] end).
Proof.
  intros Hp Hne H1.
  exact (modes_same_report as_completed agents Hp diff_content p (negb p)
           r1 cs1 Hne H1).
Qed.

Lemma dispatch_modes_same_report_witness :
  exists r1 cs1 r2 cs2,
    review_diff Samples.last_first
      [Samples.reporter "A" "low"; Samples.broken;
       Samples.reporter "B" "low"] Samples.review_text true = Ok (r1, cs1) /\
    review_diff Samples.last_first
      [Samples.reporter "A" "low"; Samples.broken;
       Samples.reporter "B" "low"] Samples.review_text false = Ok (r2, cs2) /\
    summary r1 = summary r2 /\
    findings r1 <> findings r2 /\
    Permutation (findings r1) (findings r2).
Proof.
  destruct (review_diff Samples.last_first
              [Samples.reporter "A" "low"; Samples.broken;
               Samples.reporter "B" "low"] Samples.review_text true)
    as [[r1 cs1]|e] eqn:H1; [|vm_compute in H1; discriminate].
  destruct (dispatch_modes_same_report Samples.last_first
              [Samples.reporter "A" "low"; Samples.broken;
               Samples.reporter "B" "low"] Samples.review_text true r1 cs1)
    as (r2 & cs2 & H2 & S & _ & _ & _ & _ & P & _).
  - intros k rs. apply Permutation_sym, Permutation_rev.
  - discriminate.
  - exact H1.
  - exists r1, cs1, r2, cs2. split; [reflexivity|]. split; [exact H2|].
    split; [exact S|]. split; [|exact P].
    cbn [negb] in H2.
    vm_compute in H1, H2. injection H1 as <- _. injection H2 as <- _.
    discriminate.
Defined.

(** X18.  [review_diff] raises in three cases only: [parse] raises, and
    the error is that of [parse]; or the concurrent mode has a pool to
    make for no analyzer, a parsed file being handed to the analyzers, and
    the error is the [ValueError] of a pool of no workers; or a finding
    that an analyzer returned has a severity or a category that cannot be
    hashed, and the error is the [TypeError] of hashing it.  In every
    other case it returns. *)
Theorem review_raises_only
    (as_completed : nat -> list AgentResult -> list AgentResult)
    (agents : list Agent) (diff_content : str) (parallel : bool)
    (e : exn) (fds : list FileDiff) :
  rearranges as_completed ->
  (review_diff as_completed agents diff_content parallel = Raise e ->
   parse diff_content = Raise e \/
   exists fds', parse diff_content = Ok fds' /\
     ((parallel = true /\ agents = [] /\ existsb dispatched fds' = true /\
       e = ValueError (py "max_workers must be greater than 0")) \/
      (exists x v, In x (reported agents fds') /\ hashable v = false /\
         e = unhashable v /\
         (v = label (py "severity") (py "info") x \/
          v = label (py "category") (py "code_quality") x)))) /\
  (parse diff_content = Ok fds ->
   parallel = false \/ agents <> [] \/ existsb dispatched fds = false ->
   Forall (fun x =>
             hashable (label (py "severity") (py "info") x) = true /\
             hashable (label (py "category") (py "code_quality") x) = true)
          (reported agents fds) ->
   exists r cs,
     review_diff as_completed agents diff_content parallel = Ok (r, cs)).
Proof.
  intro Hp. split.
  - intro H.
    exact (review_diff_raises as_completed agents diff_content parallel
             e Hp H).
  - intros E H L.
    apply (review_diff_completes as_completed agents diff_content parallel
             fds Hp E H).
    apply forallb_forall. intros x Hx. rewrite Forall_forall in L.
    destruct (L x Hx) as [L1 L2]. unfold labelled, ranked.
    now rewrite L1, L2.
Qed.

Lemma review_raises_only_witness :
  review_diff Samples.last_first
    [Samples.reporter "A" "low"; Samples.confused] Samples.review_text true
    = Raise (TypeError (py "unhashable type: 'list'")) /\
  review_diff Samples.last_first
    [Samples.reporter "A" "low"; Samples.vague] Samples.review_text false
    = Raise (TypeError (py "unhashable type: 'dict'")) /\
  review_diff Samples.last_first [Samples.reporter "A" "low"]
    Samples.long_number_diff true
    = Raise (ValueError (int_limit_message 4301)) /\
  (exists r cs,
     review_diff Samples.last_first
       [Samples.reporter "A" "low"; Samples.broken] Samples.review_text true
     = Ok (r, cs)) /\
  (parse Samples.review_text
     = Raise (TypeError (py "unhashable type: 'list'")) \/
   exists fds', parse Samples.review_text = Ok fds' /\
     ((true = true /\ [Samples.reporter "A" "low"; Samples.confused] = [] /\
       existsb dispatched fds' = true /\
       TypeError (py "unhashable type: 'list'")
       = ValueError (py "max_workers must be greater than 0")) \/
      (exists x v,
         In x (reported [Samples.reporter "A" "low"; Samples.confused] fds')
         /\ hashable v = false /\
         TypeError (py "unhashable type: 'list'") = unhashable v /\
         (v = label (py "severity") (py "info") x \/
          v = label (py "category") (py "code_quality") x)))).
Proof.
  split; [vm_compute; reflexivity|].
  split; [vm_compute; reflexivity|].
  split; [vm_compute; reflexivity|].
  assert (Hp : rearranges Samples.last_first)
    by (intros k rs; apply Permutation_sym, Permutation_rev).
  split.
  - destruct (parse Samples.review_text) as [fds|e] eqn:E;
      [|vm_compute in E; discriminate].
    apply (proj2 (review_raises_only Samples.last_first
                    [Samples.reporter "A" "low"; Samples.broken]
                    Samples.review_text true (Exception []) fds Hp)).
    + exact E.
    + right; left. discriminate.
    + vm_compute in E. injection E as <-. vm_compute. repeat constructor.
  - apply (proj1 (review_raises_only Samples.last_first
                    [Samples.reporter "A" "low"; Samples.confused]
                    Samples.review_text true
                    (TypeError (py "unhashable type: 'list'")) [] Hp)).
    vm_compute. reflexivity.
Defined.

(** X19.  When [review_diff] returns for a diff in which some file was
    parsed, it returns one result for each analyzer and each parsed file
    that is not marked deleted and whose additions counter is positive,
    and none for any other file. *)
Theorem one_result_per_analyzer_and_file
    (as_completed : nat -> list AgentResult -> list AgentResult)
    (agents : list Agent) (diff_content : str) (parallel : bool)
    (r : ReviewResult) (cs : list Call) :
  rearranges as_completed ->
  review_diff as_completed agents diff_content parallel = Ok (r, cs) ->
  exists fds, parse diff_content = Ok fds /\
    (fds <> [] ->
     exists rs, agent_results r = Some rs /\
       length rs =
       length agents *
       length (filter (fun fd => negb (is_deleted_file fd)
                                 && (0 <? additions fd)%Z) fds)).
Proof.
  intros Hp H.
  destruct (review_diff_returns _ _ _ _ _ _ H) as (fds & E & D).
  exists fds. split; [exact E|]. intro Hne.
  destruct D as [(-> & _)|(_ & c & F & _ & _ & ->)]; [congruence|].
  exists (collected_results c). split; [reflexivity|].
  rewrite (Permutation_length (review_files_perm _ _ _ _ Hp _ _ _ F)).
  cbn [collected_results app].
  pose proof (parse_counted diff_content fds E) as Hc.
  clear - Hc. induction Hc as [|fd fds Hfd _ IH]; [cbn; lia|].
  cbn [filter]. rewrite <- (dispatched_counter fd Hfd).
  destruct (dispatched fd); [|exact IH].
  cbn [flat_map length]. rewrite length_app, IH.
  unfold submitted. rewrite length_map. lia.
Qed.

Lemma one_result_per_analyzer_and_file_witness :
  exists r cs rs,
    review_diff Samples.last_first
      [Samples.reporter "A" "low"; Samples.broken] Samples.review_text true
      = Ok (r, cs) /\
    agent_results r = Some rs /\ length rs = 2.
Proof.
  destruct (review_diff Samples.last_first
              [Samples.reporter "A" "low"; Samples.broken]
              Samples.review_text true) as [[r cs]|e] eqn:H;
    [|vm_compute in H; discriminate].
  destruct (one_result_per_analyzer_and_file Samples.last_first
              [Samples.reporter "A" "low"; Samples.broken]
              Samples.review_text true r cs) as (fds & E & G).
  - intros k rs. apply Permutation_sym, Permutation_rev.
  - exact H.
  - vm_compute in E. injection E as <-.
    destruct G as (rs & Hrs & Hlen); [discriminate|].
    exists r, cs, rs. split; [reflexivity|]. split; [exact Hrs|exact Hlen].
Defined.

(* ===================================================================== *)
(** ** Properties of the review of a pull request *)
(* ===================================================================== *)

Import PullRequestReview.

(** X20.  The review of a pull request raises only for want of a client,
    or with the error of the fetch of the information, of the fetch of
    the diff, or of the review itself; a comment is then never posted,
    and without a client no call is made at all.  An error while the
    comment is built or posted does not make it raise. *)
Theorem review_pr_raises
    (as_completed : nat -> list AgentResult -> list AgentResult)
    (agents : list Agent) (format : ReviewResult -> result str)
    (github_client : option GitHubClient)
    (owner repo_name : str) (pr_number : Z) (post_comments : bool)
    (e : exn) :
  fst (review_github_pr as_completed agents format github_client
           owner repo_name pr_number post_comments)
    = Raise e ->
  (github_client = None /\
   e = ValueError (py "GitHub client not configured") /\
   snd (review_github_pr as_completed agents format github_client
           owner repo_name pr_number post_comments)
     = []) \/
  (exists client, github_client = Some client /\
     (get_pr_info client owner repo_name pr_number = Raise e \/
      get_pr_diff client owner repo_name pr_number = Raise e \/
      exists diff_content,
        get_pr_diff client owner repo_name pr_number = Ok diff_content /\
        review_diff as_completed agents diff_content true = Raise e) /\
     forall body,
       ~ In (CallComment body)
           (snd (review_github_pr as_completed agents format github_client
                   owner repo_name pr_number post_comments))).
Proof.
  unfold review_github_pr.
  destruct github_client as [client|]; cbn [fst snd].
  2:{ injection 1 as <-. now left. }
  intro H. right. exists client. split; [reflexivity|].
  destruct (get_pr_info client owner repo_name pr_number) as [info|e1].
  2:{ cbn [fst snd] in *. injection H as <-. split; [now left|].
      intros body [Hb|[]]; discriminate. }
  destruct (get_pr_diff client owner repo_name pr_number) as [d|e2].
  2:{ cbn [fst snd] in *. injection H as <-. split; [now right; left|].
      intros body [Hb|[Hb|[]]]; discriminate. }
  destruct (review_diff as_completed agents d true) as [[r cs]|e3] eqn:Er.
  2:{ cbn [fst snd] in *. injection H as <-. split.
      - right; right. now exists d.
      - intros body [Hb|[Hb|[]]]; discriminate. }
  exfalso. destruct post_comments, (findings r); cbn [fst] in H;
    try discriminate.
  destruct (format r) as [body|e4]; cbn [fst] in H; [|discriminate].
  destruct (create_pr_comment client owner repo_name pr_number body);
    discriminate.
Qed.

Lemma review_pr_raises_witness :
  exists client,
    Some Cases.offline_client = Some client /\
    (get_pr_info client (py "o") (py "r") 7
       = Raise (Exception (py "404")) \/
     get_pr_diff client (py "o") (py "r") 7
       = Raise (Exception (py "404")) \/
     exists diff_content,
       get_pr_diff client (py "o") (py "r") 7 = Ok diff_content /\
       review_diff Samples.last_first [Samples.reporter "A" "high"]
         diff_content true = Raise (Exception (py "404"))) /\
    forall body,
      ~ In (CallComment body)
          (snd (review_github_pr Samples.last_first
                  [Samples.reporter "A" "high"] Cases.plain_format
                  (Some Cases.offline_client) (py "o") (py "r") 7 true)).
Proof.
  destruct (review_pr_raises Samples.last_first
              [Samples.reporter "A" "high"] Cases.plain_format
              (Some Cases.offline_client) (py "o") (py "r") 7 true
              (Exception (py "404")) eq_refl) as [(H & _)|H].
  - discriminate H.
  - exact H.
Defined.

(** X21.  When the two fetches and the review succeed, the review of a
    pull request returns the report of the review with the information
    fetched; it posts at most one comment, and only when asked to and
    when there is a finding; and when the building or the posting of the
    comment raises, the report is returned all the same, with the text of
    the error and no comment. *)
Theorem review_pr_returns
    (as_completed : nat -> list AgentResult -> list AgentResult)
    (agents : list Agent) (format : ReviewResult -> result str)
    (client : GitHubClient)
    (owner repo_name : str) (pr_number : Z) (post_comments : bool)
    (info : dict PyVal) (diff_content : str) (r : ReviewResult)
    (cs : list Call) :
  get_pr_info client owner repo_name pr_number = Ok info ->
  get_pr_diff client owner repo_name pr_number = Ok diff_content ->
  review_diff as_completed agents diff_content true = Ok (r, cs) ->
  exists p posted,
    review_github_pr as_completed agents format (Some client)
       owner repo_name pr_number post_comments
      = (Ok p, [CallInfo; CallDiff] ++ posted) /\
    review p = r /\ pr_info p = info /\
    (posted = [] \/
     exists body, posted = [CallComment body] /\ format r = Ok body /\
                  post_comments = true /\ findings r <> []) /\
    (post_comments = false \/ findings r = [] ->
     posted = [] /\ github_comment p = None /\
     github_comment_error p = None) /\
    (post_comments = true -> findings r <> [] ->
     match format r with
     | Raise e =>
         posted = [] /\ github_comment p = None /\
         github_comment_error p = Some (exn_str e)
     | Ok body =>
         posted = [CallComment body] /\
         match create_pr_comment client owner repo_name pr_number body with
         | Ok c => github_comment p = Some c /\ github_comment_error p = None
         | Raise e =>
             github_comment p = None /\
             github_comment_error p = Some (exn_str e)
         end
     end).
Proof.
  intros Hi Hd Hr. unfold review_github_pr.
  rewrite Hi, Hd, Hr.
  destruct post_comments.
  - destruct (findings r) as [|x fs] eqn:Ef.
    + exists (mkPRReview r info None None), [].
      split; [reflexivity|]. split; [reflexivity|]. split; [reflexivity|].
      split; [now left|]. split; [now intros _|].
      intros _ Hne. congruence.
    + destruct (format r) as [body|e] eqn:Eb.
      * destruct (create_pr_comment client owner repo_name pr_number body)
          as [c|e] eqn:Ec.
        -- exists (mkPRReview r info (Some c) None), [CallComment body].
           split; [reflexivity|]. split; [reflexivity|].
           split; [reflexivity|]. split.
           { right. exists body. repeat split; discriminate. }
           split; [intros [Hf|Hf]; discriminate|].
           intros _ _. now repeat split.
        -- exists (mkPRReview r info None (Some (exn_str e))),
             [CallComment body].
           split; [reflexivity|]. split; [reflexivity|].
           split; [reflexivity|]. split.
           { right. exists body. repeat split; discriminate. }
           split; [intros [Hf|Hf]; discriminate|].
           intros _ _. now repeat split.
      * exists (mkPRReview r info None (Some (exn_str e))), [].
        split; [reflexivity|]. split; [reflexivity|].
        split; [reflexivity|]. split; [now left|].
        split; [intros [Hf|Hf]; discriminate|].
        intros _ _. now repeat split.
  - exists (mkPRReview r info None None), [].
    split; [reflexivity|]. split; [reflexivity|]. split; [reflexivity|].
    split; [now left|]. split; [now intros _|].
    intros Hf. discriminate.
Qed.

Lemma review_pr_returns_witness :
  exists p,
    review_github_pr Samples.last_first [Samples.reporter "A" "high"]
      Cases.plain_format (Some Cases.read_only_client) (py "o") (py "r") 7
      true
    = (Ok p, [CallInfo; CallDiff; CallComment (py "report")]) /\
    findings (review p) <> [] /\
    github_comment p = None /\
    github_comment_error p = Some (py "403").
Proof.
  destruct (review_diff Samples.last_first
              [Samples.reporter "A" "high"] Samples.review_text true)
    as [[r cs]|e] eqn:Hr; [|vm_compute in Hr; discriminate].
  destruct (review_pr_returns Samples.last_first
              [Samples.reporter "A" "high"] Cases.plain_format
              Cases.read_only_client (py "o") (py "r") 7 true
              [(py "title", VStr (py "fix"))] Samples.review_text r cs
              eq_refl eq_refl Hr)
    as (p & posted & E & Ep & _ & _ & _ & G).
  assert (Hf : findings r <> []).
  { vm_compute in Hr. injection Hr as <- _. discriminate. }
  specialize (G eq_refl Hf). cbn in G. destruct G as (-> & Hc & He).
  exists p. split; [exact E|]. split; [now rewrite Ep|]. now split.
Defined.
